(** * GitHub activity report generator: fetch, aggregate and metrics core

    A shallow embedding of the Python sources

      - [src/fetchers/base.py]          (adaptive week/day fetching, deduplication)
      - [src/fetchers/pull_requests.py] ([_fetch_range])
      - [src/fetchers/reviews.py]       ([_fetch_pr_reviews], [fetch_reviews_for_prs])
      - [src/processors/aggregator.py]  (date filtering, summary)
      - [src/processors/metrics.py]     (PR and review counters)
      - [src/utils/date_utils.py]       ([get_period_range])

    Records are the untyped dictionaries of the source ([dict[str, Any]]),
    here finite maps from field names to JSON-like values.  Operations that
    raise in Python return [Raise]; everything else is a total function. *)

From Stdlib Require Import ZArith QArith Ascii String DecimalString Lia Recdef.
From stdpp Require Import base option list gmap strings sorting.

Local Open Scope string_scope.
Local Open Scope Z_scope.
Local Open Scope list_scope.
Set Warnings "-register-all,-clear-no-such-hyp".

(** ** Python values *)

(** The values a decoded JSON document holds.  Floats do not occur in the
    fields this development reads and are left out.  Characters are the
    8-bit characters of [string]; the timestamps, keys and logins handled
    here are ASCII. *)
Inductive val : Type :=
  | VNone
  | VBool (b : bool)
  | VInt (z : Z)
  | VStr (s : string)
  | VList (l : list val)
  | VDict (d : gmap string val).

(** A record of the source: [dict[str, Any]]. *)
Abbreviation pydict := (gmap string val).

(** Exceptions, by class. [HostError] stands for whatever the host client
    raises ([GitHubClientError] and any other [Exception]). *)
Inductive exn : Type :=
  | TypeError
  | ValueError
  | AttributeError
  | OverflowError
  | HostError.

Inductive result (A : Type) : Type :=
  | Ok (a : A)
  | Raise (e : exn).
Arguments Ok {A} a.
Arguments Raise {A} e.

Definition rbind {A B} (r : result A) (k : A -> result B) : result B :=
  match r with
  | Ok a => k a
  | Raise e => Raise e
  end.

Global Instance result_bind : MBind result := fun _ _ k r => rbind r k.
Global Instance result_ret : MRet result := fun _ a => Ok a.

Definition is_ok {A} (r : result A) : Prop := exists a, r = Ok a.

(** [bool(v)] *)
Definition truthy (v : val) : bool :=
  match v with
  | VNone => false
  | VBool b => b
  | VInt z => negb (Z.eqb z 0)
  | VStr s => negb (String.eqb s "")
  | VList l => match l with [] => false | _ => true end
  | VDict d => negb (bool_decide (d = ∅))
  end.

(** [d.get(k)] and [d.get(k, dflt)] *)
Definition dict_get (d : pydict) (k : string) : val :=
  default VNone (d !! k).

Definition dict_get_or (d : pydict) (k : string) (dflt : val) : val :=
  default dflt (d !! k).

(** [a or b] on already evaluated operands; the source only uses it on
    expressions without effects. *)
Definition py_or (a b : val) : val :=
  if truthy a then a else b.

(** [v is None] *)
Definition is_none (v : val) : bool :=
  match v with
  | VNone => true
  | _ => false
  end.

(** [v == s] for a string literal [s] *)
Definition val_eq_str (v : val) (s : string) : bool :=
  match v with
  | VStr t => String.eqb t s
  | _ => false
  end.

(** [s[:n]] on strings *)
Fixpoint str_take (n : nat) (s : string) : string :=
  match n, s with
  | S n', String c s' => String c (str_take n' s')
  | _, _ => EmptyString
  end.

Global Arguments str_take : simpl never.

(** Decimal rendering of an integer, as [str] prints it. *)
Definition str_of_Z (z : Z) : string :=
  NilZero.string_of_int (Z.to_int z).

(** [str(v)].  [repr_container] is [repr] of a non-empty list or dict: it
    is the interpreter's and depends on insertion order and quoting rules
    that play no part here, so the development is parametric in it. *)
Definition py_str (repr_container : val -> string) (v : val) : string :=
  match v with
  | VNone => "None"
  | VBool true => "True"
  | VBool false => "False"
  | VInt z => str_of_Z z
  | VStr s => s
  | VList [] => "[]"
  | VList _ => repr_container v
  | VDict d => if bool_decide (d = ∅) then "{}" else repr_container v
  end.

(** ** Hashing *)

(** What a [set] or a [dict] distinguishes among the hashable values:
    [True == 1] and [False == 0] hash alike, strings by content. Lists and
    dicts are unhashable. *)
Inductive hkey : Type :=
  | HNone
  | HInt (z : Z)
  | HStr (s : string).

Global Instance hkey_eq_dec : EqDecision hkey.
Proof. solve_decision. Defined.

Definition hash_key (v : val) : option hkey :=
  match v with
  | VNone => Some HNone
  | VBool b => Some (HInt (if b then 1 else 0))
  | VInt z => Some (HInt z)
  | VStr s => Some (HStr s)
  | VList _ | VDict _ => None
  end.

(** A [set], as the list of its keys; membership is all the source asks. *)
Definition in_set (k : hkey) (seen : list hkey) : bool :=
  bool_decide (k ∈ seen).

(** ** [datetime.date]

    A date is kept as its proleptic Gregorian ordinal ([date.toordinal()],
    day 1 is 0001-01-01), which is what Python compares and adds on.  The
    conversions follow [_ymd2ord] and [_ord2ymd] of the [datetime] module. *)

Module Date.

Definition date : Type := Z.

Definition MINYEAR : Z := 1.
Definition MAXYEAR : Z := 9999.
(** [date.max.toordinal()] *)
Definition MAXORDINAL : Z := 3652059.

Definition is_leap (year : Z) : bool :=
  (year mod 4 =? 0)%Z && (negb (year mod 100 =? 0)%Z || (year mod 400 =? 0)%Z).

Definition mdays (month : Z) : Z :=
  match month with
  | 1 => 31 | 2 => 28 | 3 => 31 | 4 => 30 | 5 => 31 | 6 => 30
  | 7 => 31 | 8 => 31 | 9 => 30 | 10 => 31 | 11 => 30 | 12 => 31
  | _ => -1
  end.

Definition days_in_month (year month : Z) : Z :=
  if (month =? 2)%Z && is_leap year then 29 else mdays month.

Definition days_before_year (year : Z) : Z :=
  let y := year - 1 in y * 365 + y / 4 - y / 100 + y / 400.

Definition days_before_month_tbl (month : Z) : Z :=
  match month with
  | 1 => 0 | 2 => 31 | 3 => 59 | 4 => 90 | 5 => 120 | 6 => 151
  | 7 => 181 | 8 => 212 | 9 => 243 | 10 => 273 | 11 => 304 | 12 => 334
  | _ => -1
  end.

Definition days_before_month (year month : Z) : Z :=
  days_before_month_tbl month + (if (2 <? month)%Z && is_leap year then 1 else 0).

Definition ymd2ord (year month day : Z) : Z :=
  days_before_year year + days_before_month year month + day.

(** [date(year, month, day)]: the constructor checks its fields. *)
Definition mk_date (year month day : Z) : result date :=
  if (MINYEAR <=? year)%Z && (year <=? MAXYEAR)%Z
     && (1 <=? month)%Z && (month <=? 12)%Z
     && (1 <=? day)%Z && (day <=? days_in_month year month)%Z
  then Ok (ymd2ord year month day)
  else Raise ValueError.

(** [_ord2ymd] *)
Definition ord2ymd (ordinal : Z) : Z * Z * Z :=
  let n := ordinal - 1 in
  let n400 := n / 146097 in
  let n := n mod 146097 in
  let n100 := n / 36524 in
  let n := n mod 36524 in
  let n4 := n / 1461 in
  let n := n mod 1461 in
  let n1 := n / 365 in
  let n := n mod 365 in
  let year := n400 * 400 + 1 + n100 * 100 + n4 * 4 + n1 in
  if (n1 =? 4)%Z || (n100 =? 4)%Z then (year - 1, 12, 31)
  else
    let leapyear := (n1 =? 3)%Z && (negb (n4 =? 24)%Z || (n100 =? 3)%Z) in
    let month := Z.shiftr (n + 50) 5 in
    let preceding :=
      days_before_month_tbl month
      + (if (2 <? month)%Z && leapyear then 1 else 0) in
    if (n <? preceding)%Z then
      let month := month - 1 in
      let preceding :=
        preceding
        - (mdays month + (if (month =? 2)%Z && leapyear then 1 else 0)) in
      (year, month, n - preceding + 1)
    else (year, month, n - preceding + 1).

Definition digit (n : Z) : ascii :=
  ascii_of_nat (48 + Z.to_nat (n mod 10)).

(** The characters [digit] produces. *)
Definition digits : list ascii :=
  ["0"; "1"; "2"; "3"; "4"; "5"; "6"; "7"; "8"; "9"]%char.

(** ["%04d"] and ["%02d"], for the values a date holds. *)
Definition pad4 (n : Z) : string :=
  String (digit (n / 1000)) (String (digit (n / 100))
    (String (digit (n / 10)) (String (digit n) EmptyString))).

Definition pad2 (n : Z) : string :=
  String (digit (n / 10)) (String (digit n) EmptyString).

(** [d.isoformat()]: ["YYYY-MM-DD"] *)
Definition isoformat (d : date) : string :=
  let '(y, m, dd) := ord2ymd d in
  (pad4 y ++ "-" ++ pad2 m ++ "-" ++ pad2 dd)%string.

(** [d + timedelta(days=n)] *)
Definition add_days (d : date) (n : Z) : result date :=
  let o := d + n in
  if (0 <? o)%Z && (o <=? MAXORDINAL)%Z then Ok o else Raise OverflowError.

(** [calendar.monthrange(year, month)]: weekday of the first day (Monday
    is 0) and number of days. *)
Definition monthrange (year month : Z) : result (Z * Z) :=
  if (1 <=? month)%Z && (month <=? 12)%Z then
    let wyear :=
      if (MINYEAR <=? year)%Z && (year <=? MAXYEAR)%Z then year
      else 2000 + year mod 400 in
    Ok ((ymd2ord wyear month 1 + 6) mod 7, days_in_month year month)
  else Raise ValueError.

End Date.

(** ** The effect of a host call

    A method that calls the host runs in a world [W] (the host, its cache,
    the clock): it takes the world, returns a value or raises, and leaves a
    new world.  The same request may succeed once and fail later. *)

Definition M (W A : Type) : Type := W -> result A * W.

(** Run [k] on the value of [m], or stop at the exception [m] raised. *)
Definition bindM {W A B} (m : M W A) (k : A -> M W B) : M W B :=
  fun w =>
    match m w with
    | (Ok a, w1) => k a w1
    | (Raise e, w1) => (Raise e, w1)
    end.

(** A computation without effects, run in the current world. *)
Definition liftM {W A} (r : result A) : M W A := fun w => (r, w).

(** [for x in xs: out.extend(body(x))], stopping at the first exception. *)
Fixpoint for_extend {W A B} (body : A -> M W (list B)) (xs : list A)
    : M W (list B) :=
  match xs with
  | [] => liftM (Ok [])
  | x :: rest =>
      bindM (body x) (fun out =>
      bindM (for_extend body rest) (fun outs =>
      liftM (Ok (out ++ outs))))
  end.

(** The same loop for a body without effects. *)
Fixpoint for_extend_pure {A B} (body : A -> result (list B)) (xs : list A)
    : result (list B) :=
  match xs with
  | [] => Ok []
  | x :: rest =>
      out ← body x; outs ← for_extend_pure body rest; mret (out ++ outs)
  end.

(** The host call [gh.api] with a log of the endpoints it was asked for, in
    order. *)
Definition logged_api {W} (gh_api : string -> bool -> M W val)
    : string -> bool -> M (W * list string) val :=
  fun endpoint paginate '(w, log) =>
    let '(r, w1) := gh_api endpoint paginate w in
    (r, (w1, log ++ [endpoint])).


(** ** [src/fetchers/base.py] *)

Module BaseFetcher.
Import Date.

(** [BaseFetcher._get_event_id]:
    [event.get("id") or event.get("sha") or event.get("url")] *)
Definition _get_event_id (event : pydict) : val :=
  py_or (dict_get event "id")
        (py_or (dict_get event "sha") (dict_get event "url")).

(** The order of preference in the words of the specification: sha, then
    url, then id.  It is compared with [_get_event_id], nothing else. *)
Definition spec_sha_url_id (event : pydict) : val :=
  py_or (dict_get event "sha")
        (py_or (dict_get event "url") (dict_get event "id")).

Section Dedup.
(** [self._get_event_id]: subclasses override it, and [_deduplicate] calls
    whichever the instance has. *)
Variable get_event_id : pydict -> val.

(** The loop of [_deduplicate] with [seen] threaded through; the events
    appended to [unique] are returned in order.  [event_id not in seen]
    hashes [event_id], raising [TypeError] on a list or a dict, and is
    evaluated only when [event_id] is truthy. *)
Fixpoint dedup_loop (seen : list hkey) (events : list pydict)
    : result (list pydict) :=
  match events with
  | [] => Ok []
  | event :: rest =>
      let event_id := get_event_id event in
      if truthy event_id then
        match hash_key event_id with
        | None => Raise TypeError
        | Some k =>
            if in_set k seen then dedup_loop seen rest
            else unique ← dedup_loop (k :: seen) rest; mret (event :: unique)
        end
      else unique ← dedup_loop seen rest; mret (event :: unique)
  end.

Definition _deduplicate (events : list pydict) : result (list pydict) :=
  dedup_loop [] events.

(** An event whose identifier is falsy: it cannot be deduplicated. *)
Definition keyless (event : pydict) : bool :=
  negb (truthy (get_event_id event)).

(** The identifier of every event that has one can be hashed. *)
Definition ids_hashable (events : list pydict) : Prop :=
  Forall (fun event => truthy (get_event_id event) = true ->
                       is_Some (hash_key (get_event_id event))) events.

(** The keys of the events that have an identifier, in order. *)
Definition event_keys (events : list pydict) : list hkey :=
  omap (fun event => if truthy (get_event_id event)
                     then hash_key (get_event_id event) else None) events.

(** "Already deduplicated by unique key." *)
Definition keys_distinct (events : list pydict) : Prop :=
  ids_hashable events /\ NoDup (event_keys events).
(** The event has an identifier, and it hashes to [k]. *)
Definition has_key (k : hkey) (event : pydict) : bool :=
  truthy (get_event_id event) && bool_decide (hash_key (get_event_id event) = Some k).

End Dedup.

Section Fetch.
Context {W : Type}.
(** [self._fetch_range], abstract in the base class. *)
Variable _fetch_range : date -> date -> M W (list pydict).
Variable get_event_id : pydict -> val.
(** [self.high_activity_threshold] *)
Variable high_activity_threshold : Z.

(** The generator [_iter_weeks]: the windows it yields and, when the date
    arithmetic overflows [date.max], the exception that ends it. *)
Function iter_weeks_from (end_date : date) (current : date)
  {measure (fun c => Z.to_nat (end_date - c + 1)) current}
  : list (date * date) * option exn :=
  if (current <=? end_date)%Z then
    match add_days current 6 with
    | Raise e => ([], Some e)
    | Ok plus6 =>
        let week_end := Z.min plus6 end_date in
        match add_days week_end 1 with
        | Raise e => ([(current, week_end)], Some e)
        | Ok next =>
            let '(weeks, stop) := iter_weeks_from end_date next in
            ((current, week_end) :: weeks, stop)
        end
    end
  else ([], None).
Proof.
  intros end_date current Hle plus6 H6 next Hnext.
  unfold add_days in *.
  destruct (_ && _) in H6; [|done]. destruct (_ && _) in Hnext; [|done].
  apply Z.leb_le in Hle. simplify_eq. lia.
Defined.

Definition _iter_weeks (start end_date : date) : list (date * date) * option exn :=
  iter_weeks_from end_date start.

(** The loop of [_fetch_week_by_days], from [current] on. *)
Function days_loop (week_end : date) (w : W) (current : date)
  {measure (fun c => Z.to_nat (week_end - c + 1)) current}
  : result (list pydict) * W :=
  if (current <=? week_end)%Z then
    match _fetch_range current current w with
    | (Raise e, w1) => (Raise e, w1)
    | (Ok day_events, w1) =>
        match add_days current 1 with
        | Raise e => (Raise e, w1)
        | Ok next =>
            match days_loop week_end w1 next with
            | (Ok daily_events, w2) => (Ok (day_events ++ daily_events), w2)
            | (Raise e, w2) => (Raise e, w2)
            end
        end
    end
  else (Ok [], w).
Proof.
  intros week_end w current Hle r w1 day_events _ _ next Hnext.
  unfold add_days in Hnext. destruct (_ && _) in Hnext; [|done].
  apply Z.leb_le in Hle. simplify_eq. lia.
Defined.

Definition _fetch_week_by_days (week_start week_end : date) : M W (list pydict) :=
  fun w => days_loop week_end w week_start.

(** The body of the loop of [fetch_period] for one window: what the window
    adds to [all_events]. *)
Definition week_events (week_start week_end : date) : M W (list pydict) :=
  bindM (_fetch_range week_start week_end) (fun week_events =>
    if (high_activity_threshold <=? Z.of_nat (length week_events))%Z
    then _fetch_week_by_days week_start week_end
    else liftM (Ok week_events)).

(** [fetch_period]: the windows of [_iter_weeks] in turn, then
    [_deduplicate].  An overflow in the generator surfaces after the
    windows it yielded have been fetched. *)
Definition fetch_period (start end_date : date) : M W (list pydict) :=
  let '(weeks, stop) := _iter_weeks start end_date in
  bindM (for_extend (fun '(week_start, week_end) =>
                       week_events week_start week_end) weeks)
    (fun all_events =>
       match stop with
       | Some e => liftM (Raise e)
       | None => liftM (_deduplicate get_event_id all_events)
       end).

(** One [_fetch_range] call after the other over the given ranges, results
    concatenated: the daily re-fetch in the words of the specification. *)
Definition fetch_each (ranges : list (date * date)) : M W (list pydict) :=
  for_extend (fun '(range_start, range_end) =>
                _fetch_range range_start range_end) ranges.

(** The days of a window, each as a one-day range. *)
Definition days_of (week_start week_end : date) : list (date * date) :=
  (fun d => (d, d)) <$> seqZ week_start (week_end - week_start + 1).

(** [_fetch_range] with a log of its calls beside the world. *)
Definition logged_fetch_range (range_start range_end : date)
    : M (W * list (date * date)) (list pydict) :=
  fun '(w, log) =>
    let '(r, w1) := _fetch_range range_start range_end w in
    (r, (w1, log ++ [(range_start, range_end)])).
End Fetch.

End BaseFetcher.

(** ** Helpers on strings and JSON values used by the fetchers *)

(** [s.split(sep)] for a one-character separator *)
Fixpoint str_split (sep : ascii) (s : string) : list string :=
  match s with
  | EmptyString => [EmptyString]
  | String c s' =>
      if Ascii.eqb c sep then EmptyString :: str_split sep s'
      else match str_split sep s' with
           | piece :: pieces => String c piece :: pieces
           | [] => [String c EmptyString]
           end
  end.

(** [s.split(sep)] for a separator [sep] of two characters [c1 c2] *)
Fixpoint str_split2 (c1 c2 : ascii) (s : string) : list string :=
  match s with
  | EmptyString => [EmptyString]
  | String a s' =>
      match s' with
      | String b rest =>
          if Ascii.eqb a c1 && Ascii.eqb b c2
          then EmptyString :: str_split2 c1 c2 rest
          else match str_split2 c1 c2 s' with
               | piece :: pieces => String a piece :: pieces
               | [] => [String a EmptyString]
               end
      | EmptyString => [String a EmptyString]
      end
  end.

(** [sep in s] for a separator [sep] of two characters [c1 c2] *)
Fixpoint str_contains2 (c1 c2 : ascii) (s : string) : bool :=
  match s with
  | String a s' =>
      match s' with
      | String b _ => (Ascii.eqb a c1 && Ascii.eqb b c2) || str_contains2 c1 c2 s'
      | EmptyString => false
      end
  | EmptyString => false
  end.

(** Every character of [s] passes the test [p]. *)
Fixpoint str_all (p : ascii -> bool) (s : string) : bool :=
  match s with
  | EmptyString => true
  | String c s' => p c && str_all p s'
  end.

Definition is_digit (c : ascii) : bool :=
  (c =? "0")%char || (c =? "1")%char || (c =? "2")%char || (c =? "3")%char
  || (c =? "4")%char || (c =? "5")%char || (c =? "6")%char || (c =? "7")%char
  || (c =? "8")%char || (c =? "9")%char.


(** [sep.join(pieces)] *)
Fixpoint str_join (sep : string) (pieces : list string) : string :=
  match pieces with
  | [] => EmptyString
  | [piece] => piece
  | piece :: rest => (piece ++ sep ++ str_join sep rest)%string
  end.

(** [l[-2:]] *)
Definition last_two {A} (l : list A) : list A :=
  drop (length l - 2)%nat l.

(** The characters of a string, each as a one-character string. *)
Fixpoint str_chars (s : string) : list string :=
  match s with
  | EmptyString => []
  | String c s' => String c EmptyString :: str_chars s'
  end.

(** [for item in v]: a list yields its elements, a string its characters,
    a dict its keys; anything else is not iterable. *)
Definition py_iter (v : val) : result (list val) :=
  match v with
  | VList l => Ok l
  | VStr s => Ok (VStr <$> str_chars s)
  | VDict d => Ok ((fun kv => VStr kv.1) <$> map_to_list d)
  | VNone | VBool _ | VInt _ => Raise TypeError
  end.

(** [v.get(k, dflt)] on a value that should be a dict *)
Definition py_get (v : val) (k : string) (dflt : val) : result val :=
  match v with
  | VDict d => Ok (dict_get_or d k dflt)
  | _ => Raise AttributeError
  end.

(** [v[:n]]: strings and lists can be sliced. *)
Definition py_slice_to (n : nat) (v : val) : result val :=
  match v with
  | VStr s => Ok (VStr (str_take n s))
  | VList l => Ok (VList (take n l))
  | VNone | VBool _ | VInt _ | VDict _ => Raise TypeError
  end.

(** [len(v)] *)
Definition py_len (v : val) : result Z :=
  match v with
  | VStr s => Ok (Z.of_nat (String.length s))
  | VList l => Ok (Z.of_nat (length l))
  | VDict d => Ok (Z.of_nat (size d))
  | VNone | VBool _ | VInt _ => Raise TypeError
  end.

(** [lo <= v <= hi] for strings [lo] and [hi]: only a string compares. *)
Definition py_between (lo hi : string) (v : val) : result bool :=
  match v with
  | VStr s => Ok (String.leb lo s && String.leb s hi)
  | _ => Raise TypeError
  end.

(** ** [src/fetchers/pull_requests.py] *)

Module PullRequestsFetcher.
Import Date.

Section Fetcher.
Context {W : Type}.
(** [self.gh.api(endpoint, paginate=...)] *)
Variable gh_api : string -> bool -> M W val.
(** [urllib.parse.quote(query, safe='')] *)
Variable quote : string -> string.
(** [self.username] *)
Variable username : string.

Definition created_endpoint (start end_date : date) : string :=
  let query :=
    ("author:" ++ username ++ " type:pr created:"
       ++ isoformat start ++ ".." ++ isoformat end_date)%string in
  ("/search/issues?q=" ++ quote query ++ "&per_page=100")%string.

(** [result.get("items", []) if isinstance(result, dict) else []] *)
Definition items_of (result : val) : val :=
  match result with
  | VDict d => dict_get_or d "items" (VList [])
  | _ => VList []
  end.

(** The body of the transforming loop: one search hit to one PR record. *)
Definition transform_item (item : val) : result pydict :=
  match item with
  | VDict it =>
      let repo_url := dict_get_or it "repository_url" (VStr "") in
      repo_name ←
        (if truthy repo_url then
           match repo_url with
           | VStr url => Ok (str_join "/" (last_two (str_split "/" url)))
           | _ => Raise AttributeError
           end
         else Ok EmptyString);
      let pr_data := dict_get_or it "pull_request" (VDict ∅) in
      merged_at ←
        (if truthy pr_data then py_get pr_data "merged_at" VNone
         else Ok VNone);
      let state := dict_get_or it "state" (VStr "") in
      let state := if truthy merged_at then VStr "merged" else state in
      Ok (<["number" := dict_get it "number"]>
         (<["title" := dict_get_or it "title" (VStr "")]>
         (<["state" := state]>
         (<["repository" := VStr repo_name]>
         (<["created_at" := dict_get it "created_at"]>
         (<["merged_at" := merged_at]>
         (<["closed_at" := dict_get it "closed_at"]>
         (<["url" := dict_get_or it "html_url" (VStr "")]> ∅))))))))
  | _ => Raise AttributeError
  end.

(** [PullRequestsFetcher._fetch_range]: the host call sits in
    [try ... except Exception: return []]; the transformation follows it,
    outside the [try]. *)
Definition _fetch_range (start end_date : date) : M W (list pydict) :=
  fun w =>
    match gh_api (created_endpoint start end_date) false w with
    | (Raise e, w1) => (Ok [], w1)
    | (Ok result, w1) =>
        (items ← py_iter (items_of result);
         for_extend_pure (fun item => pr ← transform_item item; mret [pr]) items,
         w1)
    end.

(** [PullRequestsFetcher._get_event_id] *)
Definition _get_event_id (event : pydict) : val :=
  dict_get event "url".

(** [fetch_period], inherited, with this class's methods. *)
Definition fetch_period (high_activity_threshold : Z) (start end_date : date)
    : M W (list pydict) :=
  BaseFetcher.fetch_period _fetch_range _get_event_id high_activity_threshold
    start end_date.
Definition updated_endpoint (start end_date : date) : string :=
  let query :=
    ("author:" ++ username ++ " type:pr updated:"
       ++ isoformat start ++ ".." ++ isoformat end_date)%string in
  ("/search/issues?q=" ++ quote query ++ "&per_page=100")%string.

(** The body of the loop of [fetch_prs_updated_in_period]: one search hit
    to one PR record, with [updated_at]. *)
Definition transform_updated_item (item : val) : result pydict :=
  match item with
  | VDict it =>
      let repo_url := dict_get_or it "repository_url" (VStr "") in
      repo_name ←
        (if truthy repo_url then
           match repo_url with
           | VStr url => Ok (str_join "/" (last_two (str_split "/" url)))
           | _ => Raise AttributeError
           end
         else Ok EmptyString);
      let pr_data := dict_get_or it "pull_request" (VDict ∅) in
      merged_at ←
        (if truthy pr_data then py_get pr_data "merged_at" VNone
         else Ok VNone);
      let state := dict_get_or it "state" (VStr "") in
      let state := if truthy merged_at then VStr "merged" else state in
      Ok (<["number" := dict_get it "number"]>
         (<["title" := dict_get_or it "title" (VStr "")]>
         (<["state" := state]>
         (<["repository" := VStr repo_name]>
         (<["created_at" := dict_get it "created_at"]>
         (<["updated_at" := dict_get it "updated_at"]>
         (<["merged_at" := merged_at]>
         (<["closed_at" := dict_get it "closed_at"]>
         (<["url" := dict_get_or it "html_url" (VStr "")]> ∅)))))))))
  | _ => Raise AttributeError
  end.

(** [PullRequestsFetcher.fetch_prs_updated_in_period]: as in
    [_fetch_range], the host call sits in [try ... except Exception:
    return []] and the transformation follows it. *)
Definition fetch_prs_updated_in_period (start end_date : date) : M W (list pydict) :=
  fun w =>
    match gh_api (updated_endpoint start end_date) false w with
    | (Raise e, w1) => (Ok [], w1)
    | (Ok result, w1) =>
        (items ← py_iter (items_of result);
         for_extend_pure (fun item => pr ← transform_updated_item item; mret [pr]) items,
         w1)
    end.

End Fetcher.

Section Activity.
Context {W : Type}.
Variable gh_api : string -> bool -> M W val.
Variable quote : string -> string.
Variable repr_container : val -> string.
Variable username : string.

(** One loop of [_check_pr_activity_in_period]: [True] at the first item
    whose date lies within the period. *)
Fixpoint any_dated_within (date_of : val -> result val) (start_str end_str : string)
    (items : list val) : result bool :=
  match items with
  | [] => Ok false
  | item :: rest =>
      raw ← date_of item;
      item_date ← py_slice_to 10 raw;
      in_range ← py_between start_str end_str item_date;
      if (in_range : bool) then Ok true
      else any_dated_within date_of start_str end_str rest
  end.

(** One [try] block of [_check_pr_activity_in_period]: the host call, the
    [isinstance] test and the loop; [except Exception: pass] turns every
    exception into "nothing found". *)
Definition probe (endpoint : string) (date_of : val -> result val)
    (start_str end_str : string) : W -> bool * W :=
  fun w =>
    match gh_api endpoint false w with
    | (Ok (VList items), w1) =>
        (match any_dated_within date_of start_str end_str items with
         | Ok found => found
         | Raise _ => false
         end, w1)
    | (_, w1) => (false, w1)
    end.

Definition review_date_of (review : val) : result val :=
  py_get review "submitted_at" (VStr "").

Definition comment_date_of (comment : val) : result val :=
  py_get comment "created_at" (VStr "").

Definition commit_date_of (commit : val) : result val :=
  commit_data ← py_get commit "commit" (VDict ∅);
  committer ← py_get commit_data "committer" (VDict ∅);
  py_get committer "date" (VStr "").

(** [PullRequestsFetcher._check_pr_activity_in_period] *)
Definition _check_pr_activity_in_period (repo : string) (pr_number : val)
    (start end_date : date) : W -> bool * W :=
  fun w =>
    let start_str := isoformat start in
    let end_str := isoformat end_date in
    let number := py_str repr_container pr_number in
    let '(found, w1) :=
      probe ("/repos/" ++ repo ++ "/pulls/" ++ number ++ "/reviews")%string
        review_date_of start_str end_str w in
    if found then (true, w1)
    else
      let '(found, w2) :=
        probe ("/repos/" ++ repo ++ "/issues/" ++ number ++ "/comments")%string
          comment_date_of start_str end_str w1 in
      if found then (true, w2)
      else
        probe ("/repos/" ++ repo ++ "/pulls/" ++ number ++ "/commits")%string
          commit_date_of start_str end_str w2.

Definition open_endpoint : string :=
  ("/search/issues?q=" ++ quote ("author:" ++ username ++ " type:pr is:open")
     ++ "&per_page=100")%string.

(** The body of the loop of [fetch_open_prs_with_activity] for one search
    hit: the records it appends. *)
Definition open_pr_record (start end_date : date) (item : val) : M W (list pydict) :=
  fun w =>
    match item with
    | VDict it =>
        let repo_url := dict_get_or it "repository_url" (VStr "") in
        match (if truthy repo_url then
                 match repo_url with
                 | VStr url => Ok (str_join "/" (last_two (str_split "/" url)))
                 | _ => Raise AttributeError
                 end
               else Ok EmptyString) with
        | Raise e => (Raise e, w)
        | Ok repo_name =>
            let pr_number := dict_get it "number" in
            if negb (truthy (VStr repo_name)) || negb (truthy pr_number)
            then (Ok [], w)
            else
              let '(has_activity, w1) :=
                _check_pr_activity_in_period repo_name pr_number start end_date w in
              if has_activity then
                let pr_data := dict_get_or it "pull_request" (VDict ∅) in
                (merged_at ←
                   (if truthy pr_data then py_get pr_data "merged_at" VNone
                    else Ok VNone);
                 let state := dict_get_or it "state" (VStr "") in
                 let state := if truthy merged_at then VStr "merged" else state in
                 Ok [ <["number" := pr_number]>
                     (<["title" := dict_get_or it "title" (VStr "")]>
                     (<["state" := state]>
                     (<["repository" := VStr repo_name]>
                     (<["created_at" := dict_get it "created_at"]>
                     (<["updated_at" := dict_get it "updated_at"]>
                     (<["merged_at" := merged_at]>
                     (<["closed_at" := dict_get it "closed_at"]>
                     (<["url" := dict_get_or it "html_url" (VStr "")]>
                     (<["has_period_activity" := VBool true]> ∅))))))))) ],
                 w1)
              else (Ok [], w1)
        end
    | _ => (Raise AttributeError, w)
    end.

(** [PullRequestsFetcher.fetch_open_prs_with_activity] *)
Definition fetch_open_prs_with_activity (start end_date : date) : M W (list pydict) :=
  fun w =>
    match gh_api open_endpoint false w with
    | (Raise e, w1) => (Ok [], w1)
    | (Ok result, w1) =>
        match py_iter (items_of result) with
        | Raise e => (Raise e, w1)
        | Ok items => for_extend (open_pr_record start end_date) items w1
        end
    end.
End Activity.

(** What [fetch_open_prs_with_activity] guarantees of a record. *)
Definition flagged_pr (pr : pydict) : Prop :=
  dict_get pr "has_period_activity" = VBool true
  /\ (exists repo, dict_get pr "repository" = VStr repo /\ repo <> "")
  /\ truthy (dict_get pr "number") = true.

(** What [_fetch_range] guarantees of a record it builds. *)
Definition pr_record (pr : pydict) : Prop :=
  dom pr = ({["number"; "title"; "state"; "repository"; "created_at";
              "merged_at"; "closed_at"; "url"]} : gset string)
  /\ (exists repo, dict_get pr "repository" = VStr repo)
  /\ (truthy (dict_get pr "merged_at") = true -> dict_get pr "state" = VStr "merged").

End PullRequestsFetcher.

(** ** [src/fetchers/reviews.py] *)

Module ReviewsFetcher.
Import Date.

Section Fetcher.
Context {W : Type}.
Variable gh_api : string -> bool -> M W val.
Variable repr_container : val -> string.
Variable username : string.

Definition reviews_endpoint (repo pr_number : val) : string :=
  ("/repos/" ++ py_str repr_container repo ++ "/pulls/"
     ++ py_str repr_container pr_number ++ "/reviews")%string.

(** [ReviewsFetcher._fetch_pr_reviews] *)
Definition _fetch_pr_reviews (repo pr_number : val) : M W (list val) :=
  fun w =>
    match gh_api (reviews_endpoint repo pr_number) true w with
    | (Raise e, w1) => (Ok [], w1)
    | (Ok reviews, w1) =>
        (Ok match reviews with
            | VList l => l
            | _ => if truthy reviews then [reviews] else []
            end, w1)
    end.

(** The body of the filtering loop of [fetch_reviews_for_prs] for one
    review of the PR [repo#pr_number]: the records it appends. *)
Definition keep_review (repo pr_number : val) (start end_date : date)
    (review : val) : result (list pydict) :=
  raw ← py_get review "submitted_at" (VStr "");
  submitted_at ← py_slice_to 10 raw;
  user ← py_get review "user" (VDict ∅);
  review_user ← py_get user "login" (VStr "");
  if negb (truthy submitted_at) then Ok []
  else
    in_range ← py_between (isoformat start) (isoformat end_date) submitted_at;
    if in_range && val_eq_str review_user username then
      full_date ← py_get review "submitted_at" VNone;
      id ← py_get review "id" VNone;
      state ← py_get review "state" (VStr "");
      body ← py_get review "body" (VStr "");
      body_length ← py_len (py_or body (VStr ""));
      Ok [ <["id" := id]>
          (<["pr_number" := pr_number]>
          (<["repository" := repo]>
          (<["state" := state]>
          (<["submitted_at" := full_date]>
          (<["body_length" := VInt body_length]>
          (<["user" := review_user]> ∅)))))) ]
    else Ok [].

(** [ReviewsFetcher.fetch_reviews_for_prs] *)
Definition fetch_reviews_for_prs (prs : list pydict) (start end_date : date)
    : M W (list pydict) :=
  for_extend (fun pr =>
    let repo := dict_get_or pr "repository" (VStr "") in
    let pr_number := dict_get pr "number" in
    if negb (truthy repo) || negb (truthy pr_number) then liftM (Ok [])
    else
      bindM (_fetch_pr_reviews repo pr_number) (fun reviews =>
      liftM (for_extend_pure (keep_review repo pr_number start end_date) reviews)))
    prs.
(** [ReviewsFetcher._fetch_range]: reviews cannot be searched by date. *)
Definition _fetch_range (start end_date : date) : M W (list pydict) :=
  liftM (Ok []).

(** [ReviewsFetcher._get_event_id] *)
Definition _get_event_id (event : pydict) : val :=
  if truthy (dict_get event "id")
  then VStr (py_str repr_container (dict_get_or event "id" (VStr "")))
  else VNone.

(** [fetch_period], inherited, with this class's methods. *)
Definition fetch_period (high_activity_threshold : Z) (start end_date : date)
    : M W (list pydict) :=
  BaseFetcher.fetch_period _fetch_range _get_event_id high_activity_threshold
    start end_date.

(** The body of the filtering loop of [fetch_reviews_on_authored_prs] for
    one review: as [keep_review], with the test on the user reversed. *)
Definition keep_review_by_other (repo pr_number : val) (start end_date : date)
    (review : val) : result (list pydict) :=
  raw ← py_get review "submitted_at" (VStr "");
  submitted_at ← py_slice_to 10 raw;
  user ← py_get review "user" (VDict ∅);
  review_user ← py_get user "login" (VStr "");
  if negb (truthy submitted_at) then Ok []
  else
    in_range ← py_between (isoformat start) (isoformat end_date) submitted_at;
    if in_range && negb (val_eq_str review_user username) then
      full_date ← py_get review "submitted_at" VNone;
      id ← py_get review "id" VNone;
      state ← py_get review "state" (VStr "");
      body ← py_get review "body" (VStr "");
      body_length ← py_len (py_or body (VStr ""));
      Ok [ <["id" := id]>
          (<["pr_number" := pr_number]>
          (<["repository" := repo]>
          (<["state" := state]>
          (<["submitted_at" := full_date]>
          (<["body_length" := VInt body_length]>
          (<["user" := review_user]> ∅)))))) ]
    else Ok [].

(** [ReviewsFetcher.fetch_reviews_on_authored_prs] *)
Definition fetch_reviews_on_authored_prs (prs : list pydict) (start end_date : date)
    : M W (list pydict) :=
  for_extend (fun pr =>
    let repo := dict_get_or pr "repository" (VStr "") in
    let pr_number := dict_get pr "number" in
    if negb (truthy repo) || negb (truthy pr_number) then liftM (Ok [])
    else
      bindM (_fetch_pr_reviews repo pr_number) (fun reviews =>
      liftM (for_extend_pure
               (keep_review_by_other repo pr_number start end_date) reviews)))
    prs.

End Fetcher.

(** What both review fetchers guarantee of a record they return for the
    pull requests [prs] and the period from [start] to [end_date]. *)
Definition review_record (prs : list pydict) (start end_date : date)
    (record : pydict) : Prop :=
  (exists pr, pr ∈ prs
     /\ dict_get record "repository" = dict_get_or pr "repository" (VStr "")
     /\ dict_get record "pr_number" = dict_get pr "number"
     /\ truthy (dict_get record "repository") = true
     /\ truthy (dict_get record "pr_number") = true)
  /\ (exists s, dict_get record "submitted_at" = VStr s
        /\ String.leb (isoformat start) (str_take 10 s) = true
        /\ String.leb (str_take 10 s) (isoformat end_date) = true)
  /\ (exists n, dict_get record "body_length" = VInt n /\ 0 <= n)
  /\ dom record = ({["id"; "pr_number"; "repository"; "state"; "submitted_at";
                     "body_length"; "user"]} : gset string).

End ReviewsFetcher.

(** ** [collections.Counter], [set] and [sorted] as the aggregator uses them *)

(** A [Counter]: keys in insertion order with their counts.  A key is kept
    with the value first inserted under it. *)
Definition counter : Type := list (hkey * val * nat).

(** [c[v] += 1] for a value hashing to [k] *)
Fixpoint counter_incr (k : hkey) (v : val) (c : counter) : counter :=
  match c with
  | [] => [(k, v, 1%nat)]
  | (k', v', n) :: rest =>
      if decide (k = k') then (k', v', S n) :: rest
      else (k', v', n) :: counter_incr k v rest
  end.

(** [max(items, key=count)]: the first entry with the largest count. *)
Fixpoint first_max (best : hkey * val * nat) (rest : counter) : hkey * val * nat :=
  match rest with
  | [] => best
  | entry :: rest' =>
      if (best.2 <? entry.2)%nat then first_max entry rest'
      else first_max best rest'
  end.

(** [c.most_common(1)[0][0]] for a non-empty counter; the source tests
    [if not c] first. *)
Definition most_common_key (c : counter) : option val :=
  match c with
  | [] => None
  | entry :: rest => Some (first_max entry rest).1.2
  end.

(** Adding values to a [set] in order: the distinct keys, each with the
    value first added.  An unhashable value raises. *)
Fixpoint set_of (seen : list hkey) (vs : list val) : result (list (hkey * val)) :=
  match vs with
  | [] => Ok []
  | v :: rest =>
      match hash_key v with
      | None => Raise TypeError
      | Some k =>
          if in_set k seen then set_of seen rest
          else elems ← set_of (k :: seen) rest; mret ((k, v) :: elems)
      end
  end.

Definition hkey_le (a b : hkey) : bool :=
  match a, b with
  | HInt x, HInt y => (x <=? y)%Z
  | HStr s, HStr t => String.leb s t
  | _, _ => true
  end.

Definition is_HInt (k : hkey) : bool := match k with HInt _ => true | _ => false end.
Definition is_HStr (k : hkey) : bool := match k with HStr _ => true | _ => false end.

(** [sorted(s)] of a set: numbers order among themselves and strings among
    themselves; a comparison across the two raises, and so does one with
    [None]. *)
Definition elem_le (a b : hkey * val) : Prop := hkey_le a.1 b.1 = true.

Global Instance elem_le_dec : RelDecision elem_le.
Proof. intros a b. unfold elem_le. apply _. Defined.

Definition sorted_set (elems : list (hkey * val)) : result (list val) :=
  if (length elems <=? 1)%nat
     || forallb (fun e => is_HInt e.1) elems
     || forallb (fun e => is_HStr e.1) elems
  then Ok (snd <$> merge_sort elem_le elems)
  else Raise TypeError.

(** [c[v] += 1] for each of the values in turn, each given with its key. *)
Definition count_all (kvs : list (hkey * val)) (c : counter) : counter :=
  foldl (fun c kv => counter_incr kv.1 kv.2 c) c kvs.

(** [c[k]]: the count of a key, 0 when it is missing. *)
Fixpoint counter_get (k : hkey) (c : counter) : nat :=
  match c with
  | [] => 0%nat
  | (k', _, n) :: rest => if decide (k = k') then n else counter_get k rest
  end.

(** The keys not in [seen], each once, in the order they first occur. *)
Fixpoint first_occurrences (seen ks : list hkey) : list hkey :=
  match ks with
  | [] => []
  | k :: rest =>
      if in_set k seen then first_occurrences seen rest
      else k :: first_occurrences (k :: seen) rest
  end.

(** The keys of a counter, in its order. *)
Definition counter_keys (c : counter) : list hkey := (fun e => e.1.1) <$> c.

(** A value paired with its key; unhashable values have none. *)
Definition keyed (v : val) : option (hkey * val) :=
  k ← hash_key v; Some (k, v).

(** [v] is the most frequent of the values [vs], counted by key, and of
    the values that are as frequent the one met first. *)
Definition first_mode (vs : list val) (v : val) : Prop :=
  v ∈ vs
  /\ exists k, hash_key v = Some k
     /\ let ks := omap hash_key vs in
        (forall k', (count_occ hkey_eq_dec ks k' <= count_occ hkey_eq_dec ks k)%nat)
        /\ (forall k', k' <> k ->
              count_occ hkey_eq_dec ks k' = count_occ hkey_eq_dec ks k ->
              exists before after, ks = before ++ k :: after /\ k' ∉ before).

(** The sum of the counts of a counter. *)
Definition counter_total (c : counter) : Z :=
  foldr Z.add 0 ((fun e : hkey * val * nat => Z.of_nat e.2) <$> c).

(** A string as a member of a [set]: its key and the value itself. *)
Definition str_elem (s : string) : hkey * val := (HStr s, VStr s).

(** ** [src/fetchers/reviews.py], continued: [count_by_state] *)

Module ReviewCounts.
(** The loop of [count_by_state]: [counts[state] = counts.get(state, 0) + 1]. *)
Fixpoint count_states (reviews : list pydict) (counts : counter) : result counter :=
  match reviews with
  | [] => Ok counts
  | review :: rest =>
      let state := dict_get_or review "state" (VStr "UNKNOWN") in
      match hash_key state with
      | None => Raise TypeError
      | Some k => count_states rest (counter_incr k state counts)
      end
  end.

(** [ReviewsFetcher.count_by_state] *)
Definition count_by_state (reviews : list pydict) : result counter :=
  count_states reviews [].

(** The [state] of each review, ["UNKNOWN"] when it is missing. *)
Definition states (reviews : list pydict) : list val :=
  (fun review => dict_get_or review "state" (VStr "UNKNOWN")) <$> reviews.
End ReviewCounts.

(** ** [src/processors/aggregator.py] *)

Module Aggregator.
Import Date.

Record AggregatedData : Type := {
  commits : list pydict;
  pull_requests : list pydict;
  issues : list pydict;
  reviews : list pydict;
  comments : list pydict;
  start_date : option date;
  end_date : option date;
  username : string;
  repositories : list val;
}.

Record Summary : Type := {
  total_commits : Z;
  total_prs_opened : Z;
  total_prs_merged : Z;
  total_prs_reviewed : Z;
  total_issues_opened : Z;
  total_issues_closed : Z;
  total_comments : Z;
  repos_contributed_to : Z;
  most_active_day : val;
  most_active_repo : val;
}.

(** One loop of [_get_most_active_day] over the records of one kind:
    [date_str = (record.get(field) or "")[:10]], counted when truthy. *)
Fixpoint count_days (field : string) (records : list pydict) (days : counter)
    : result counter :=
  match records with
  | [] => Ok days
  | record :: rest =>
      date_str ← py_slice_to 10 (py_or (dict_get record field) (VStr ""));
      if truthy date_str then
        match hash_key date_str with
        | None => Raise TypeError
        | Some k => count_days field rest (counter_incr k date_str days)
        end
      else count_days field rest days
  end.

(** [AggregatedData._get_most_active_day] *)
Definition _get_most_active_day (data : AggregatedData) : result val :=
  days ← count_days "date" (commits data) [];
  days ← count_days "created_at" (pull_requests data) days;
  days ← count_days "created_at" (issues data) days;
  days ← count_days "submitted_at" (reviews data) days;
  days ← count_days "created_at" (comments data) days;
  Ok (default (VStr "") (most_common_key days)).

(** One loop of [_get_most_active_repo]. *)
Fixpoint count_repos (records : list pydict) (repos : counter) : result counter :=
  match records with
  | [] => Ok repos
  | record :: rest =>
      let repo := dict_get_or record "repository" (VStr "") in
      if truthy repo then
        match hash_key repo with
        | None => Raise TypeError
        | Some k => count_repos rest (counter_incr k repo repos)
        end
      else count_repos rest repos
  end.

(** [AggregatedData._get_most_active_repo] *)
Definition _get_most_active_repo (data : AggregatedData) : result val :=
  repos ← count_repos (commits data) [];
  repos ← count_repos (pull_requests data) repos;
  repos ← count_repos (issues data) repos;
  Ok (default (VStr "") (most_common_key repos)).

Definition len {A} (l : list A) : Z := Z.of_nat (length l).

(** [AggregatedData.get_summary], the entries in the order the dict
    literal evaluates them. *)
Definition get_summary (data : AggregatedData) : result Summary :=
  let merged := List.filter (fun pr => truthy (dict_get pr "merged_at"))
                            (pull_requests data) in
  reviewed ← set_of [] (List.filter truthy
                          ((fun r => dict_get r "pr_number") <$> reviews data));
  let closed := List.filter (fun i => val_eq_str (dict_get i "state") "closed")
                            (issues data) in
  day ← _get_most_active_day data;
  repo ← _get_most_active_repo data;
  Ok {| total_commits := len (commits data);
        total_prs_opened := len (pull_requests data);
        total_prs_merged := len merged;
        total_prs_reviewed := len reviewed;
        total_issues_opened := len (issues data);
        total_issues_closed := len closed;
        total_comments := len (comments data);
        repos_contributed_to := len (repositories data);
        most_active_day := day;
        most_active_repo := repo |}.

Section DataAggregator.
(** The fields set by [DataAggregator.__init__]. *)
Variable self_username : string.
Variable self_start_date : date.
Variable self_end_date : date.
Variable repr_container : val -> string.

(** [DataAggregator._extract_date] *)
Definition _extract_date (item : pydict) (date_field : string) : string :=
  let date_value := dict_get_or item date_field (VStr "") in
  if truthy date_value then str_take 10 (py_str repr_container date_value)
  else "".

(** [self.start_date.isoformat() <= date_str <= self.end_date.isoformat()] *)
Definition in_period (date_str : string) : bool :=
  String.leb (isoformat self_start_date) date_str
  && String.leb date_str (isoformat self_end_date).

(** [DataAggregator._filter_by_date] *)
Fixpoint _filter_by_date (items : list pydict) (date_field : string)
    : list pydict :=
  match items with
  | [] => []
  | item :: rest =>
      let date_str := _extract_date item date_field in
      if negb (String.eqb date_str "") && in_period date_str
      then item :: _filter_by_date rest date_field
      else _filter_by_date rest date_field
  end.

(** [DataAggregator._filter_prs_by_date] *)
Fixpoint _filter_prs_by_date (pull_requests : list pydict) : list pydict :=
  match pull_requests with
  | [] => []
  | pr :: rest =>
      if truthy (dict_get pr "has_period_activity")
      then pr :: _filter_prs_by_date rest
      else
        let date_str := _extract_date pr "created_at" in
        if negb (String.eqb date_str "") && in_period date_str
        then pr :: _filter_prs_by_date rest
        else _filter_prs_by_date rest
  end.

(** The truthy [repository] values of a list of records, in order. *)
Definition repos_of (records : list pydict) : list val :=
  List.filter truthy ((fun r => dict_get_or r "repository" (VStr "")) <$> records).

(** [DataAggregator._collect_repositories] *)
Definition _collect_repositories
    (commits pull_requests issues reviews : list pydict) : result (list val) :=
  repos ← set_of [] (repos_of commits ++ repos_of pull_requests
                       ++ repos_of issues ++ repos_of reviews);
  sorted_set repos.

(** [x or []] for an optional list argument *)
Definition or_empty (x : option (list pydict)) : list pydict :=
  default [] x.

(** [DataAggregator.aggregate]; the extra keyword arguments are ignored by
    the source and have no counterpart here. *)
Definition aggregate
    (commits pull_requests issues reviews comments : option (list pydict))
    : result AggregatedData :=
  let commits := or_empty commits in
  let pull_requests := or_empty pull_requests in
  let issues := or_empty issues in
  let reviews := or_empty reviews in
  let comments := or_empty comments in
  let commits := _filter_by_date commits "date" in
  let pull_requests := _filter_prs_by_date pull_requests in
  let issues := _filter_by_date issues "created_at" in
  let reviews := _filter_by_date reviews "submitted_at" in
  let comments := _filter_by_date comments "created_at" in
  repositories ← _collect_repositories commits pull_requests issues reviews;
  Ok {| commits := commits;
        pull_requests := pull_requests;
        issues := issues;
        reviews := reviews;
        comments := comments;
        start_date := Some self_start_date;
        end_date := Some self_end_date;
        username := self_username;
        repositories := repositories |}.
(** A record carries a date within the period: the field is present and
    the first ten characters of its value lie between the two ISO dates. *)
Definition dated_within (date_field : string) (record : pydict) : Prop :=
  exists v, record !! date_field = Some v
            /\ in_period (str_take 10 (py_str repr_container v)) = true.
End DataAggregator.

(** The [repository] field of every record is absent or a string. *)
Definition repositories_are_strings (records : list pydict) : Prop :=
  Forall (fun r => exists s, dict_get_or r "repository" (VStr "") = VStr s) records.

(** The record carries no date in [field]: it is absent or holds a falsy
    value ([None], the empty string). *)
Definition dateless (field : string) (record : pydict) : Prop :=
  truthy (dict_get record field) = false.

(** The record carries no repository. *)
Definition repoless (record : pydict) : Prop :=
  truthy (dict_get_or record "repository" (VStr "")) = false.

(** No record of any kind carries its primary date. *)
Definition dateless_data (data : AggregatedData) : Prop :=
  Forall (dateless "date") (commits data)
  /\ Forall (dateless "created_at") (pull_requests data)
  /\ Forall (dateless "created_at") (issues data)
  /\ Forall (dateless "submitted_at") (reviews data)
  /\ Forall (dateless "created_at") (comments data).

(** No commit, pull request or issue carries a repository. *)
Definition repoless_data (data : AggregatedData) : Prop :=
  Forall repoless (commits data)
  /\ Forall repoless (pull_requests data)
  /\ Forall repoless (issues data).

(** The [pr_number] of every review can be hashed. *)
Definition pr_numbers_hashable (data : AggregatedData) : Prop :=
  Forall (fun r => is_Some (hash_key (dict_get r "pr_number"))) (reviews data).

(** The same data with other reviews and comments. *)
Definition with_reviews_comments (data : AggregatedData)
    (reviews' comments' : list pydict) : AggregatedData :=
  {| commits := commits data;
     pull_requests := pull_requests data;
     issues := issues data;
     reviews := reviews';
     comments := comments';
     start_date := start_date data;
     end_date := end_date data;
     username := username data;
     repositories := repositories data |}.

(** The test both date filters apply to a record. *)
Definition kept_by_date (self_start_date self_end_date : date)
    (repr_container : val -> string) (item : pydict) (date_field : string) : bool :=
  negb (String.eqb (_extract_date repr_container item date_field) "")
  && in_period self_start_date self_end_date
       (_extract_date repr_container item date_field).

(** The values [_get_most_active_day] counts for the records of one
    kind: the truthy [date_str]. *)
Definition date_strs (field : string) (records : list pydict) : list val :=
  omap (fun record =>
          match py_slice_to 10 (py_or (dict_get record field) (VStr "")) with
          | Ok date_str => if truthy date_str then Some date_str else None
          | Raise _ => None
          end) records.

(** All the values [_get_most_active_day] counts, in the order of its loops. *)
Definition counted_days (data : AggregatedData) : list val :=
  date_strs "date" (commits data) ++ date_strs "created_at" (pull_requests data)
  ++ date_strs "created_at" (issues data) ++ date_strs "submitted_at" (reviews data)
  ++ date_strs "created_at" (comments data).

(** Every date field [_get_most_active_day] reads is absent, falsy or a
    string. *)
Definition date_is_string (field : string) (record : pydict) : Prop :=
  truthy (dict_get record field) = false \/ exists s, dict_get record field = VStr s.

Definition dates_are_strings (data : AggregatedData) : Prop :=
  Forall (date_is_string "date") (commits data)
  /\ Forall (date_is_string "created_at") (pull_requests data)
  /\ Forall (date_is_string "created_at") (issues data)
  /\ Forall (date_is_string "submitted_at") (reviews data)
  /\ Forall (date_is_string "created_at") (comments data).

(** The values [_get_most_active_repo] counts, in the order of its loops. *)
Definition counted_repos (data : AggregatedData) : list val :=
  repos_of (commits data) ++ repos_of (pull_requests data) ++ repos_of (issues data).

(** The record's [field] is a string that starts with the ISO form of the
    day [d], as a timestamp of that day does. *)
Definition dated_on (field : string) (d : date) (record : pydict) : Prop :=
  exists s, record !! field = Some (VStr s) /\ str_take 10 s = isoformat d.

(** [repo_stats], a dict from repository to its four counts, in insertion
    order; each entry keeps the repository it was first stored under. *)
Definition repo_stats : Type := list (hkey * val * pydict).

(** [{"commits": 0, "prs": 0, "issues": 0, "reviews": 0}] *)
Definition zero_stats : pydict :=
  <["commits" := VInt 0]> (<["prs" := VInt 0]>
    (<["issues" := VInt 0]> (<["reviews" := VInt 0]> ∅))).

(** [repo_stats[repo] = stats] *)
Fixpoint stats_set (k : hkey) (repo : val) (stats : pydict) (rs : repo_stats)
    : repo_stats :=
  match rs with
  | [] => [(k, repo, stats)]
  | (k', repo', stats') :: rest =>
      if decide (k = k') then (k', repo', stats) :: rest
      else (k', repo', stats') :: stats_set k repo stats rest
  end.

(** [repo in repo_stats] *)
Definition in_stats (k : hkey) (rs : repo_stats) : bool :=
  bool_decide (k ∈ (fun e : hkey * val * pydict => e.1.1) <$> rs).

(** [stats[field] += 1].  The inner dicts are those [init_stats] stores,
    with the four integer entries, and this is the one operation on them:
    the entry is there and is an integer, so the lookup cannot fail. *)
Definition stat_incr (field : string) (stats : pydict) : pydict :=
  match stats !! field with
  | Some (VInt n) => <[field := VInt (n + 1)]> stats
  | _ => stats
  end.

(** [repo_stats[repo][field] += 1] for a repository that is there *)
Fixpoint stats_incr (k : hkey) (field : string) (rs : repo_stats) : repo_stats :=
  match rs with
  | [] => []
  | (k', repo', stats') :: rest =>
      if decide (k = k') then (k', repo', stat_incr field stats') :: rest
      else (k', repo', stats') :: stats_incr k field rest
  end.

(** The first loop: an entry of zeros for every repository of the data. *)
Fixpoint init_stats (repositories : list val) (rs : repo_stats) : result repo_stats :=
  match repositories with
  | [] => Ok rs
  | repo :: rest =>
      match hash_key repo with
      | None => Raise TypeError
      | Some k => init_stats rest (stats_set k repo zero_stats rs)
      end
  end.

(** One counting loop: [if repo and repo in repo_stats: ... += 1]. *)
Fixpoint count_kind (field : string) (records : list pydict) (rs : repo_stats)
    : result repo_stats :=
  match records with
  | [] => Ok rs
  | record :: rest =>
      let repo := dict_get_or record "repository" (VStr "") in
      if truthy repo then
        match hash_key repo with
        | None => Raise TypeError
        | Some k =>
            if in_stats k rs then count_kind field rest (stats_incr k field rs)
            else count_kind field rest rs
        end
      else count_kind field rest rs
  end.

(** [sorted(repo_stats.items())]: the items are compared by repository,
    which are all different, so never by their counts. *)
Definition item_le (a b : hkey * val * pydict) : Prop := hkey_le a.1.1 b.1.1 = true.

Global Instance item_le_dec : RelDecision item_le.
Proof. intros a b. unfold item_le. apply _. Defined.

Definition sorted_items (rs : repo_stats) : result (list (hkey * val * pydict)) :=
  if (length rs <=? 1)%nat
     || forallb (fun e : hkey * val * pydict => is_HInt e.1.1) rs
     || forallb (fun e : hkey * val * pydict => is_HStr e.1.1) rs
  then Ok (merge_sort item_le rs)
  else Raise TypeError.

(** [[{"name": name, **stats} for name, stats in items]] *)
Definition named_stats (items : list (hkey * val * pydict)) : list pydict :=
  (fun item => item.2 ∪ {["name" := item.1.2]}) <$> items.

(** [DataAggregator.get_repo_breakdown] *)
Definition get_repo_breakdown (data : AggregatedData) : result (list pydict) :=
  rs ← init_stats (repositories data) [];
  rs ← count_kind "commits" (commits data) rs;
  rs ← count_kind "prs" (pull_requests data) rs;
  rs ← count_kind "issues" (issues data) rs;
  rs ← count_kind "reviews" (reviews data) rs;
  items ← sorted_items rs;
  Ok (named_stats items).

(** The record belongs to the repository [name]. *)
Definition at_repo (name : string) (record : pydict) : bool :=
  val_eq_str (dict_get_or record "repository" (VStr "")) name
  && negb (String.eqb name "").

(** The inner dict with the given four counts. *)
Definition stats_of (c p i r : Z) : pydict :=
  <["commits" := VInt c]> (<["prs" := VInt p]>
    (<["issues" := VInt i]> (<["reviews" := VInt r]> ∅))).

(** The breakdown entry of a repository, in the words of the docstring:
    its name with the numbers of its commits, pull requests, issues and
    reviews. *)
Definition breakdown_entry (data : AggregatedData) (name : string) : pydict :=
  <["name" := VStr name]>
    (stats_of (len (List.filter (at_repo name) (commits data)))
              (len (List.filter (at_repo name) (pull_requests data)))
              (len (List.filter (at_repo name) (issues data)))
              (len (List.filter (at_repo name) (reviews data)))).

(** The entries of [repo_stats] for the repositories [names], with the
    inner dicts [f] gives. *)
Definition stats_items (f : string -> pydict) (names : list string) : repo_stats :=
  (fun name => (HStr name, VStr name, f name)) <$> names.

(** [stats[field] += k] *)
Definition stat_add (field : string) (k : Z) (stats : pydict) : pydict :=
  match stats !! field with
  | Some (VInt n) => <[field := VInt (n + k)]> stats
  | _ => stats
  end.

End Aggregator.

(** ** [src/processors/metrics.py]

    The counters and the two averages over counts are embedded.  The
    averages over parsed timestamps ([avg_time_to_merge_hours],
    [avg_time_to_first_review_hours], [avg_review_turnaround_hours]) are
    floating-point computations on other fields; they write only their own
    fields and are left out.  An average is kept as the exact fraction
    [total / count]; Python rounds the quotient to a double. *)

Module Metrics.

Record PRMetrics : Type := {
  avg_commits_per_pr : Q;
  avg_review_iterations : Q;
  prs_merged_without_changes : Z;
  prs_with_requested_changes : Z;
}.

Record ReviewMetrics : Type := {
  reviews_with_comments : Z;
  approvals : Z;
  changes_requested : Z;
}.

(** A value used as a number: [bool] is a subclass of [int]. *)
Definition py_int (v : val) : result Z :=
  match v with
  | VInt z => Ok z
  | VBool b => Ok (if b then 1 else 0)
  | VNone | VStr _ | VList _ | VDict _ => Raise TypeError
  end.

(** [sum(values)] over numbers *)
Fixpoint py_sum (values : list val) : result Z :=
  match values with
  | [] => Ok 0
  | v :: rest => n ← py_int v; total ← py_sum rest; mret (n + total)
  end.

(** [total / count] for a positive [count] *)
Definition fraction (total : Z) (count : nat) : Q :=
  Qmake total (Pos.of_nat count).

Section Calculator.
Variable repr_container : val -> string.

(** [f"{record.get('repository', '')}#{record.get(number_field, '')}"] *)
Definition pr_key_of (number_field : string) (record : pydict) : string :=
  (py_str repr_container (dict_get_or record "repository" (VStr ""))
     ++ "#" ++ py_str repr_container (dict_get_or record number_field (VStr "")))%string.

(** The grouping loop: [reviews_by_pr[pr_key].append(review)]. *)
Fixpoint group_reviews (reviews : list pydict) (reviews_by_pr : gmap string (list pydict))
    : gmap string (list pydict) :=
  match reviews with
  | [] => reviews_by_pr
  | review :: rest =>
      let pr_key := pr_key_of "pr_number" review in
      group_reviews rest
        (<[pr_key := default [] (reviews_by_pr !! pr_key) ++ [review]]> reviews_by_pr)
  end.

(** [get_reviewer], the local function of [calculate_pr_metrics] *)
Definition get_reviewer (r : pydict) : val :=
  match dict_get_or r "user" (VStr "") with
  | VDict user => dict_get_or user "login" (VStr "")
  | VStr user => VStr user
  | _ => VStr ""
  end.

Definition has_changes_requested (pr_reviews : list pydict) : bool :=
  existsb (fun r => val_eq_str (dict_get r "state") "CHANGES_REQUESTED") pr_reviews.

(** The loop "review iterations and changes requested" over the PRs; the
    state is [(avg_review_iterations, prs_with_requested_changes,
    prs_merged_without_changes)] before the final division. *)
Fixpoint review_stats_loop (reviews_by_pr : gmap string (list pydict))
    (prs : list pydict) (acc : Z * Z * Z) : result (Z * Z * Z) :=
  match prs with
  | [] => Ok acc
  | pr :: rest =>
      let '(iterations, requested, merged) := acc in
      let pr_key := pr_key_of "number" pr in
      let pr_reviews := default [] (reviews_by_pr !! pr_key) in
      match pr_reviews with
      | [] => review_stats_loop reviews_by_pr rest acc
      | _ :: _ =>
          reviewers ← set_of [] (get_reviewer <$> pr_reviews);
          let iterations := iterations + Z.of_nat (length reviewers) in
          if has_changes_requested pr_reviews
          then review_stats_loop reviews_by_pr rest (iterations, requested + 1, merged)
          else if truthy (dict_get pr "merged_at")
          then review_stats_loop reviews_by_pr rest (iterations, requested, merged + 1)
          else review_stats_loop reviews_by_pr rest (iterations, requested, merged)
      end
  end.

(** [reviews_on_authored_prs if reviews_on_authored_prs else reviews] *)
Definition reviews_to_use (reviews reviews_on_authored_prs : option (list pydict))
    : list pydict :=
  match reviews_on_authored_prs with
  | Some (review :: rest) => review :: rest
  | _ => default [] reviews
  end.

(** [MetricsCalculator.calculate_pr_metrics]; [None] is Python's [None]. *)
Definition calculate_pr_metrics (config_pr_metrics : bool) (prs : list pydict)
    (reviews reviews_on_authored_prs : option (list pydict))
    : result (option PRMetrics) :=
  if negb config_pr_metrics || bool_decide (prs = []) then Ok None
  else
    total_commits ←
      py_sum ((fun pr => dict_get_or pr "commits_count"
                           (dict_get_or pr "commits" (VInt 0))) <$> prs);
    let to_use := reviews_to_use reviews reviews_on_authored_prs in
    '(avg_iterations, requested, merged) ←
      match to_use with
      | [] => Ok (0%Q, 0, 0)
      | _ :: _ =>
          '(iterations, requested, merged) ←
            review_stats_loop (group_reviews to_use ∅) prs (0, 0, 0);
          Ok (fraction iterations (length prs), requested, merged)
      end;
    Ok (Some {| avg_commits_per_pr := fraction total_commits (length prs);
                avg_review_iterations := avg_iterations;
                prs_merged_without_changes := merged;
                prs_with_requested_changes := requested |}).

(** The reviews matching a PR, in the words of the specification: those
    whose ["{repository}#{pr_number}"] is the PR's ["{repository}#{number}"]. *)
Definition matching_reviews (to_use : list pydict) (pr : pydict) : list pydict :=
  List.filter (fun r => String.eqb (pr_key_of "pr_number" r) (pr_key_of "number" pr))
              to_use.

(** The number of distinct reviewers among some reviews. *)
Definition distinct_reviewers (rs : list pydict) : Z :=
  Z.of_nat (length (remove_dups (omap (fun r => hash_key (get_reviewer r)) rs))).

(** What the counters count, per PR. *)
Definition counts_as_requested (to_use : list pydict) (pr : pydict) : bool :=
  has_changes_requested (matching_reviews to_use pr).

Definition counts_as_merged (to_use : list pydict) (pr : pydict) : bool :=
  negb (bool_decide (matching_reviews to_use pr = []))
  && negb (has_changes_requested (matching_reviews to_use pr))
  && truthy (dict_get pr "merged_at").

(** The sum over all the PRs of the distinct reviewers of each. *)
Definition total_reviewers (prs to_use : list pydict) : Z :=
  foldr Z.add 0 ((fun pr => distinct_reviewers (matching_reviews to_use pr)) <$> prs).

(** The reviewer of every review can be hashed. *)
Definition reviewers_hashable (to_use : list pydict) : Prop :=
  Forall (fun r => is_Some (hash_key (get_reviewer r))) to_use.

(** [commits_count], or [commits] in its absence, is a number or absent. *)
Definition commit_counts_numeric (prs : list pydict) : Prop :=
  Forall (fun pr => is_ok (py_int (dict_get_or pr "commits_count"
                                     (dict_get_or pr "commits" (VInt 0))))) prs.

(** [avg_review_iterations] in the words of the specification: the mean
    over the PRs that have a matching review. *)
Definition spec_avg_review_iterations (prs to_use : list pydict) : Q :=
  let reviewed :=
    List.filter (fun pr => negb (bool_decide (matching_reviews to_use pr = []))) prs in
  fraction (foldr Z.add 0 ((fun pr => distinct_reviewers (matching_reviews to_use pr))
                             <$> reviewed))
           (length reviewed).

(** [prs_merged_without_changes] in the words of the specification: merged
    PRs none of whose matching reviews requests changes, reviewed or not. *)
Definition spec_merged_without_changes (prs to_use : list pydict) : Z :=
  Z.of_nat (length (List.filter
    (fun pr => negb (has_changes_requested (matching_reviews to_use pr))
               && negb (is_none (dict_get pr "merged_at"))) prs)).
End Calculator.

(** [body_length > 0] *)
Definition py_positive (v : val) : result bool :=
  match v with
  | VInt z => Ok (0 <? z)%Z
  | VBool b => Ok b
  | VNone | VStr _ | VList _ | VDict _ => Raise TypeError
  end.

(** The body length [calculate_review_metrics] tests: the [body_length]
    field, [0] when it is absent, and the length of [body] when the field
    holds [None]. *)
Definition body_length_of (review : pydict) : result val :=
  match dict_get_or review "body_length" (VInt 0) with
  | VNone =>
      let body := dict_get_or review "body" (VStr "") in
      if truthy body then n ← py_len body; mret (VInt n) else Ok (VInt 0)
  | body_length => Ok body_length
  end.

(** The counting part of the loop over the reviews; the state is
    [(approvals, changes_requested, reviews_with_comments)]. *)
Fixpoint review_counts_loop (reviews : list pydict) (acc : Z * Z * Z)
    : result (Z * Z * Z) :=
  match reviews with
  | [] => Ok acc
  | review :: rest =>
      let '(approved, requested, commented) := acc in
      let state := dict_get_or review "state" (VStr "") in
      let '(approved, requested) :=
        if val_eq_str state "APPROVED" then (approved + 1, requested)
        else if val_eq_str state "CHANGES_REQUESTED" then (approved, requested + 1)
        else (approved, requested) in
      body_length ← body_length_of review;
      positive ← py_positive body_length;
      let commented := if (positive : bool) then commented + 1 else commented in
      review_counts_loop rest (approved, requested, commented)
  end.

(** [MetricsCalculator.calculate_review_metrics]; its second argument
    serves the turnaround average only. *)
Definition calculate_review_metrics (config_review_metrics : bool)
    (reviews : list pydict) : result (option ReviewMetrics) :=
  if negb config_review_metrics || bool_decide (reviews = []) then Ok None
  else
    '(approved, requested, commented) ← review_counts_loop reviews (0, 0, 0);
    Ok (Some {| reviews_with_comments := commented;
                approvals := approved;
                changes_requested := requested |}).

(** The review counts as one with comments. *)
Definition has_comment (review : pydict) : bool :=
  match body_length_of review ≫= py_positive with
  | Ok true => true
  | _ => false
  end.

Definition has_state (state : string) (review : pydict) : bool :=
  val_eq_str (dict_get_or review "state" (VStr "")) state.

Definition count_where {A} (p : A -> bool) (l : list A) : Z :=
  Z.of_nat (length (List.filter p l)).

(** [body_length], or [body] when it is [None], has a type the comparison
    with zero accepts. *)
Definition body_lengths_typed (reviews : list pydict) : Prop :=
  Forall (fun review => is_ok (body_length_of review ≫= py_positive)) reviews.

(** The body length in the words of the specification: recomputed from
    [body] when the [body_length] field is absent. *)
Definition spec_body_length_of (review : pydict) : result val :=
  match review !! "body_length" with
  | Some body_length => Ok body_length
  | None =>
      let body := dict_get_or review "body" (VStr "") in
      if truthy body then n ← py_len body; mret (VInt n) else Ok (VInt 0)
  end.

Record ReactionBreakdown : Type := {
  counts : counter;
  total : Z;
}.

(** The loop of [calculate_reaction_breakdown]: [content not in
    breakdown.counts] hashes [content]. *)
Fixpoint reaction_loop (reactions : list pydict) (counts : counter) (total : Z)
    : result (counter * Z) :=
  match reactions with
  | [] => Ok (counts, total)
  | reaction :: rest =>
      let content := dict_get_or reaction "content" (VStr "unknown") in
      match hash_key content with
      | None => Raise TypeError
      | Some k => reaction_loop rest (counter_incr k content counts) (total + 1)
      end
  end.

(** [MetricsCalculator.calculate_reaction_breakdown] *)
Definition calculate_reaction_breakdown (config_reaction_breakdown : bool)
    (reactions : list pydict) : result (option ReactionBreakdown) :=
  if negb config_reaction_breakdown || bool_decide (reactions = []) then Ok None
  else
    '(counts, total) ← reaction_loop reactions [] 0;
    Ok (Some {| counts := counts; total := total |}).

(** The [content] of each reaction, ["unknown"] when it is missing. *)
Definition contents (reactions : list pydict) : list val :=
  (fun reaction => dict_get_or reaction "content" (VStr "unknown")) <$> reactions.

End Metrics.

(** ** [src/utils/date_utils.py] *)

Module DateUtils.
Import Date.

(** [get_period_range] *)
Definition get_period_range (year : Z) (period_type : string) (period_value : Z)
    : result (date * date) :=
  if String.eqb period_type "monthly" then
    if negb ((1 <=? period_value)%Z && (period_value <=? 12)%Z)
    then Raise ValueError
    else
      '(_, last_day) ← monthrange year period_value;
      first ← mk_date year period_value 1;
      last ← mk_date year period_value last_day;
      Ok (first, last)
  else
    if negb ((1 <=? period_value)%Z && (period_value <=? 4)%Z)
    then Raise ValueError
    else
      q1_start ← mk_date year 1 1;   q1_end ← mk_date year 3 31;
      q2_start ← mk_date year 4 1;   q2_end ← mk_date year 6 30;
      q3_start ← mk_date year 7 1;   q3_end ← mk_date year 9 30;
      q4_start ← mk_date year 10 1;  q4_end ← mk_date year 12 31;
      Ok match period_value with
         | 1 => (q1_start, q1_end)
         | 2 => (q2_start, q2_end)
         | 3 => (q3_start, q3_end)
         | _ => (q4_start, q4_end)
         end.

(** [get_week_ranges], a generator: the windows it yields and, when the
    date arithmetic overflows [date.max], the exception that ends it. *)
Function week_ranges_from (end_date : date) (current : date)
  {measure (fun c => Z.to_nat (end_date - c + 1)) current}
  : list (date * date) * option exn :=
  if (current <=? end_date)%Z then
    match add_days current 6 with
    | Raise e => ([], Some e)
    | Ok plus6 =>
        let week_end := Z.min plus6 end_date in
        match add_days week_end 1 with
        | Raise e => ([(current, week_end)], Some e)
        | Ok next =>
            let '(weeks, stop) := week_ranges_from end_date next in
            ((current, week_end) :: weeks, stop)
        end
    end
  else ([], None).
Proof.
  intros end_date current Hle plus6 H6 next Hnext.
  unfold add_days in *.
  destruct (_ && _) in H6; [|done]. destruct (_ && _) in Hnext; [|done].
  apply Z.leb_le in Hle. simplify_eq. lia.
Defined.

Definition get_week_ranges (start_date end_date : date) : list (date * date) * option exn :=
  week_ranges_from end_date start_date.

(** [get_current_quarter], from the month [datetime.now()] gives. *)
Definition get_current_quarter (now_month : Z) : Z := (now_month - 1) / 3 + 1.

(** [get_period_dates_str] *)
Definition get_period_dates_str (year : Z) (period_type : string) (period_value : Z)
    : result (string * string) :=
  '(start_date, end_date) ← get_period_range year period_type period_value;
  Ok (isoformat start_date, isoformat end_date).

(** [f"{n:02d}"]: at least two characters, zeros after the sign. *)
Definition format_02d (n : Z) : string :=
  if (0 <=? n)%Z && (n <? 10)%Z then ("0" ++ str_of_Z n)%string else str_of_Z n.

(** [format_period] *)
Definition format_period (year : Z) (period_type : string) (period_value : Z)
    : string :=
  if String.eqb period_type "monthly"
  then (str_of_Z year ++ "-" ++ format_02d period_value)%string
  else (str_of_Z year ++ "-Q" ++ str_of_Z period_value)%string.

Section Parse.
(** [int(s)] on a string *)
Variable py_int_of_str : string -> result Z.

(** [parse_period] *)
Definition parse_period (period_str : string) : result (Z * string * Z) :=
  if str_contains2 "-" "Q" period_str then
    match str_split2 "-" "Q" period_str with
    | [part0; part1] =>
        year ← py_int_of_str part0;
        quarter ← py_int_of_str part1;
        if negb ((1 <=? quarter)%Z && (quarter <=? 4)%Z) then Raise ValueError
        else Ok (year, "quarterly", quarter)
    | _ => Raise ValueError
    end
  else
    match str_split "-" period_str with
    | [part0; part1] =>
        year ← py_int_of_str part0;
        month ← py_int_of_str part1;
        if negb ((1 <=? month)%Z && (month <=? 12)%Z) then Raise ValueError
        else Ok (year, "monthly", month)
    | _ => Raise ValueError
    end.
End Parse.

(** A reading of decimal numerals, for examples: [int] accepts more. *)
Definition read_decimal (s : string) : result Z :=
  match NilZero.int_of_string s with
  | Some d => Ok (Z.of_int d)
  | None => Raise ValueError
  end.

End DateUtils.

(** ** [src/orchestrator.py]: the merging loops of [_fetch_all_data] *)

(** What a merging loop makes of a record: its key cannot be hashed, it
    has no key and is left out, or it is kept under a key. *)
Inductive keying : Type :=
  | Unhashable
  | NoKey
  | Key (k : hkey).

Global Instance keying_eq_dec : EqDecision keying.
Proof. solve_decision. Defined.

(** The record is kept under the key [k]. *)
Definition has_keying (classify : pydict -> keying) (k : hkey) (record : pydict) : bool :=
  bool_decide (classify record = Key k).

(** The keys of the records that have one, in order. *)
Definition keys_of (classify : pydict -> keying) (records : list pydict) : list hkey :=
  omap (fun record => match classify record with Key k => Some k | _ => None end)
       records.

(** Keep the first record of every key, in order. *)
Fixpoint keep_first (classify : pydict -> keying) (seen : list hkey)
    (records : list pydict) : result (list pydict) :=
  match records with
  | [] => Ok []
  | record :: rest =>
      match classify record with
      | Unhashable => Raise TypeError
      | NoKey => keep_first classify seen rest
      | Key k =>
          if in_set k seen then keep_first classify seen rest
          else kept ← keep_first classify (k :: seen) rest; mret (record :: kept)
      end
  end.

(** The first keys [keep_first] adds to [seen], latest first. *)
Fixpoint seen_after (classify : pydict -> keying) (seen : list hkey)
    (records : list pydict) : list hkey :=
  match records with
  | [] => seen
  | record :: rest =>
      match classify record with
      | Key k => if in_set k seen then seen_after classify seen rest
                 else seen_after classify (k :: seen) rest
      | _ => seen_after classify seen rest
      end
  end.

Module Orchestrator.
Section Merge.
Variable repr_container : val -> string.

(** [f"{pr.get('repository')}#{pr.get('number')}"] *)
Definition pr_key (pr : pydict) : string :=
  (py_str repr_container (dict_get pr "repository") ++ "#"
     ++ py_str repr_container (dict_get pr "number"))%string.

(** The loop "merge and deduplicate PRs" of [_fetch_all_data]. *)
Fixpoint merge_prs_loop (prs : list pydict) (seen_pr_keys : list hkey)
    (all_prs : list pydict) : list pydict :=
  match prs with
  | [] => all_prs
  | pr :: rest =>
      if in_set (HStr (pr_key pr)) seen_pr_keys
      then merge_prs_loop rest seen_pr_keys all_prs
      else merge_prs_loop rest (HStr (pr_key pr) :: seen_pr_keys) (all_prs ++ [pr])
  end.

Definition merge_prs (pull_requests updated_prs open_prs_with_activity : list pydict)
    : list pydict :=
  merge_prs_loop ((pull_requests ++ updated_prs) ++ open_prs_with_activity) [] [].

(** [str(comment.get("id", "")) or comment.get("url", "")] *)
Definition comment_id (comment : pydict) : val :=
  py_or (VStr (py_str repr_container (dict_get_or comment "id" (VStr ""))))
        (dict_get_or comment "url" (VStr "")).

(** One of the two loops that merge the comments; [seen_comment_ids] and
    [all_comments] pass from the first to the second. *)
Fixpoint merge_comments_loop (comments : list pydict) (seen_comment_ids : list hkey)
    (all_comments : list pydict) : result (list hkey * list pydict) :=
  match comments with
  | [] => Ok (seen_comment_ids, all_comments)
  | comment :: rest =>
      if truthy (comment_id comment) then
        match hash_key (comment_id comment) with
        | None => Raise TypeError
        | Some k =>
            if in_set k seen_comment_ids
            then merge_comments_loop rest seen_comment_ids all_comments
            else merge_comments_loop rest (k :: seen_comment_ids)
                   (all_comments ++ [comment])
        end
      else merge_comments_loop rest seen_comment_ids all_comments
  end.

Definition merge_comments (api_comments event_comments : list pydict)
    : result (list pydict) :=
  '(seen_comment_ids, all_comments) ← merge_comments_loop api_comments [] [];
  '(_, all_comments) ← merge_comments_loop event_comments seen_comment_ids all_comments;
  Ok all_comments.

(** One of the two loops that merge the commits: [sha not in seen_shas]
    is evaluated for every commit, whatever [sha] is. *)
Fixpoint merge_commits_loop (commits : list pydict) (seen_shas : list hkey)
    (all_commits : list pydict) : result (list hkey * list pydict) :=
  match commits with
  | [] => Ok (seen_shas, all_commits)
  | commit :: rest =>
      match hash_key (dict_get_or commit "sha" (VStr "")) with
      | None => Raise TypeError
      | Some k =>
          if in_set k seen_shas
          then merge_commits_loop rest seen_shas all_commits
          else merge_commits_loop rest (k :: seen_shas) (all_commits ++ [commit])
      end
  end.

Definition merge_commits (commits pr_commits : list pydict) : result (list pydict) :=
  '(seen_shas, all_commits) ← merge_commits_loop commits [] [];
  '(_, all_commits) ← merge_commits_loop pr_commits seen_shas all_commits;
  Ok all_commits.

(** How each loop keys a record. *)
Definition pr_keying (pr : pydict) : keying := Key (HStr (pr_key pr)).

Definition comment_keying (comment : pydict) : keying :=
  if truthy (comment_id comment) then
    match hash_key (comment_id comment) with
    | None => Unhashable
    | Some k => Key k
    end
  else NoKey.

Definition commit_keying (commit : pydict) : keying :=
  match hash_key (dict_get_or commit "sha" (VStr "")) with
  | None => Unhashable
  | Some k => Key k
  end.
End Merge.
End Orchestrator.

(** * Properties *)

(** ** Sanity checks of the embedding on concrete values *)

Example str_of_Z_ex : (str_of_Z 0, str_of_Z 42, str_of_Z (-7)) = ("0", "42", "-7").
Proof. reflexivity. Qed.

Example isoformat_ex :
  (Date.isoformat 1, Date.isoformat 739230, Date.isoformat 3652059)
  = ("0001-01-01", "2024-12-10", "9999-12-31").
Proof. reflexivity. Qed.

Example mk_date_ex :
  (Date.mk_date 2024 2 29, Date.mk_date 2023 2 29) = (Ok 738945, Raise ValueError).
Proof. reflexivity. Qed.

Example str_split_ex :
  str_join "/" (last_two (str_split "/" "https://api.github.com/repos/org/repo1"))
  = "org/repo1".
Proof. reflexivity. Qed.

(** The repository's test of the summary: three commits, two on the 15th
    and two in [org/repo1]. *)
Example most_active_ex :
  let commit (date repo : string) : pydict :=
    <["date" := VStr date]> (<["repository" := VStr repo]> ∅) in
  let data :=
    {| Aggregator.commits := [ commit "2024-12-10T10:00:00Z" "org/repo1";
                               commit "2024-12-15T10:00:00Z" "org/repo1";
                               commit "2024-12-15T14:00:00Z" "org/repo2" ];
       Aggregator.pull_requests := [];
       Aggregator.issues := [];
       Aggregator.reviews := [];
       Aggregator.comments := [];
       Aggregator.start_date := None;
       Aggregator.end_date := None;
       Aggregator.username := "";
       Aggregator.repositories := [] |} in
  Aggregator._get_most_active_day data = Ok (VStr "2024-12-15")
  /\ Aggregator._get_most_active_repo data = Ok (VStr "org/repo1").
Proof. split; reflexivity. Qed.

(** The repository's test of [avg_commits_per_pr]: 2, 4 and 6 commits. *)
Example avg_commits_ex :
  let pr (number commits_count : Z) : pydict :=
    <["number" := VInt number]> (<["commits_count" := VInt commits_count]> ∅) in
  exists metrics,
    Metrics.calculate_pr_metrics (fun _ => "") true [pr 1 2; pr 2 4; pr 3 6] None None
      = Ok (Some metrics)
    /\ (Metrics.avg_commits_per_pr metrics == 4)%Q.
Proof. eexists. split; reflexivity. Qed.

(** A week split into windows, the last one cut at the end date. *)
Example iter_weeks_ex :
  BaseFetcher._iter_weeks 739221 739230
  = ([(739221, 739227); (739228, 739230)], None).
Proof. reflexivity. Qed.

(** At [date.max] the generator stops with the overflow. *)
Example iter_weeks_overflow_ex :
  BaseFetcher._iter_weeks 3652059 3652059 = ([], Some OverflowError).
Proof. reflexivity. Qed.

(** ** Deduplication *)

Section DedupFacts.
Import BaseFetcher.
Variable get_event_id : pydict -> val.

Lemma in_set_true k seen : in_set k seen = true <-> k ∈ seen.
Proof. unfold in_set. by rewrite bool_decide_eq_true. Qed.

Lemma in_set_false k seen : in_set k seen = false <-> k ∉ seen.
Proof. unfold in_set. by rewrite bool_decide_eq_false. Qed.

Lemma dedup_loop_sublist events : forall seen unique,
  dedup_loop get_event_id seen events = Ok unique -> unique `sublist_of` events.
Proof.
  induction events as [|event rest IH]; intros seen unique; simpl.
  - intros [= <-]. constructor.
  - destruct (truthy (get_event_id event)).
    + destruct (hash_key (get_event_id event)) as [k|]; [|done].
      destruct (in_set k seen).
      * intros H. apply sublist_cons. eauto.
      * destruct (dedup_loop get_event_id (k :: seen) rest) as [u|] eqn:E; [|done].
        intros [= <-]. apply sublist_skip. eauto.
    + destruct (dedup_loop get_event_id seen rest) as [u|] eqn:E; [|done].
      intros [= <-]. apply sublist_skip. eauto.
Qed.

(** Re-running the loop on its own output, from any smaller [seen], keeps
    everything. *)
Lemma dedup_loop_fixed events : forall seen seen' unique,
  dedup_loop get_event_id seen events = Ok unique ->
  (forall k, k ∈ seen' -> k ∈ seen) ->
  dedup_loop get_event_id seen' unique = Ok unique.
Proof.
  induction events as [|event rest IH]; intros seen seen' unique; simpl.
  - intros [= <-] _. done.
  - destruct (truthy (get_event_id event)) eqn:Ht.
    + destruct (hash_key (get_event_id event)) as [k|] eqn:Hk; [|done].
      destruct (in_set k seen) eqn:Hin.
      * intros H Hsub. eauto.
      * destruct (dedup_loop get_event_id (k :: seen) rest) as [u|] eqn:E; [|done].
        intros [= <-] Hsub. simpl. rewrite Ht, Hk.
        apply in_set_false in Hin.
        assert (in_set k seen' = false) as ->
          by (apply in_set_false; intros ?; apply Hin; auto).
        rewrite (IH (k :: seen) (k :: seen') u E); [done|].
        intros k'. rewrite !elem_of_cons. naive_solver.
    + destruct (dedup_loop get_event_id seen rest) as [u|] eqn:E; [|done].
      intros [= <-] Hsub. simpl. rewrite Ht.
      by rewrite (IH seen seen' u E Hsub).
Qed.

Lemma dedup_loop_total events : forall seen,
  ids_hashable get_event_id events -> is_ok (dedup_loop get_event_id seen events).
Proof.
  induction events as [|event rest IH]; intros seen Hh; simpl.
  - by eexists.
  - apply Forall_cons in Hh as [Hev Hrest].
    destruct (truthy (get_event_id event)).
    + destruct (Hev eq_refl) as [k Hk]. rewrite Hk.
      destruct (in_set k seen); [by apply IH|].
      destruct (IH (k :: seen) Hrest) as [u Hu]. rewrite Hu. by eexists.
    + destruct (IH seen Hrest) as [u Hu]. rewrite Hu. by eexists.
Qed.

Lemma dedup_loop_distinct events : forall seen,
  ids_hashable get_event_id events -> NoDup (event_keys get_event_id events) ->
  (forall k, k ∈ event_keys get_event_id events -> k ∉ seen) ->
  dedup_loop get_event_id seen events = Ok events.
Proof.
  induction events as [|event rest IH]; intros seen Hh Hnd Hfresh; [done|].
  apply Forall_cons in Hh as [Hev Hrest].
  unfold event_keys in Hnd, Hfresh. simpl in *.
  destruct (truthy (get_event_id event)) eqn:Ht.
  - destruct (Hev eq_refl) as [k Hk]. rewrite Hk in *.
    apply NoDup_cons in Hnd as [Hnotin Hnd].
    assert (in_set k seen = false) as ->.
    { apply in_set_false. apply Hfresh. left. }
    rewrite IH; [done..|].
    intros k' Hk'. rewrite elem_of_cons. intros [->|Hs]; [done|].
    apply (Hfresh k'); [by right|done].
  - rewrite IH; done.
Qed.

Lemma dedup_loop_keyless events : forall seen unique,
  dedup_loop get_event_id seen events = Ok unique ->
  List.filter (keyless get_event_id) unique
  = List.filter (keyless get_event_id) events.
Proof.
  induction events as [|event rest IH]; intros seen unique; simpl.
  - by intros [= <-].
  - unfold keyless at 2. destruct (truthy (get_event_id event)) eqn:Ht; simpl.
    + destruct (hash_key (get_event_id event)) as [k|]; [|done].
      destruct (in_set k seen); [by eauto|].
      destruct (dedup_loop get_event_id (k :: seen) rest) as [u|] eqn:E; [|done].
      intros [= <-]. simpl. unfold keyless at 1. rewrite Ht. simpl. eauto.
    + destruct (dedup_loop get_event_id seen rest) as [u|] eqn:E; [|done].
      intros [= <-]. simpl. unfold keyless at 1. rewrite Ht. simpl.
      f_equal. eauto.
Qed.

(** C9. [_deduplicate] is idempotent and order-preserving, whichever
    [_get_event_id] the fetcher has (the base one included): running it on
    its own output changes nothing, also when it raises; its output is a
    subsequence of its input; it returns whenever the identifiers can be
    hashed; and a list whose unique keys are already distinct comes back
    unchanged. *)
Theorem deduplicate_idempotent_order_preserving (events : list pydict) :
  (_deduplicate get_event_id events ≫= _deduplicate get_event_id
   = _deduplicate get_event_id events)
  /\ (forall unique, _deduplicate get_event_id events = Ok unique ->
        unique `sublist_of` events
        /\ _deduplicate get_event_id unique = Ok unique)
  /\ (ids_hashable get_event_id events -> is_ok (_deduplicate get_event_id events))
  /\ (keys_distinct get_event_id events -> _deduplicate get_event_id events = Ok events).
Proof.
  assert (Hfix : forall unique, _deduplicate get_event_id events = Ok unique ->
                 _deduplicate get_event_id unique = Ok unique).
  { intros unique H. by apply (dedup_loop_fixed events [] [] unique H). }
  repeat split.
  - destruct (_deduplicate get_event_id events) as [unique|e] eqn:E; [|done].
    apply (Hfix unique eq_refl).
  - by apply (dedup_loop_sublist events []).
  - by apply Hfix.
  - apply dedup_loop_total.
  - intros [Hh Hnd]. apply dedup_loop_distinct; [done..|].
    intros k _. apply not_elem_of_nil.
Qed.
End DedupFacts.

(** The theorem at the base class's key, on a commit seen twice between
    two keyless records. *)
Lemma deduplicate_idempotent_witness :
  let a : pydict := <["sha" := VStr "abc"]> ∅ in
  let b : pydict := <["message" := VStr "no key"]> ∅ in
  BaseFetcher._deduplicate BaseFetcher._get_event_id [a; b; a; b] = Ok [a; b; b]
  /\ BaseFetcher._deduplicate BaseFetcher._get_event_id [a; b; b] = Ok [a; b; b]
  /\ [a; b; b] `sublist_of` [a; b; a; b].
Proof.
  intros a b.
  destruct (deduplicate_idempotent_order_preserving
              BaseFetcher._get_event_id [a; b; a; b]) as (_ & H & _ & _).
  assert (E : BaseFetcher._deduplicate BaseFetcher._get_event_id [a; b; a; b]
              = Ok [a; b; b]) by reflexivity.
  destruct (H _ E) as [Hsub Hfix]. auto.
Defined.

(** C4, as stated, fails: on a record with both an [id] and a [sha] the
    base key is the [id], where the stated order (sha, url, id) gives the
    [sha]. *)
Lemma get_event_id_order_counterexample :
  BaseFetcher._get_event_id (<["id" := VInt 1]> (<["sha" := VStr "abc"]> ∅)) = VInt 1
  /\ BaseFetcher.spec_sha_url_id (<["id" := VInt 1]> (<["sha" := VStr "abc"]> ∅))
     = VStr "abc".
Proof. split; reflexivity. Qed.

(** C4, amended. The base key is the record's [id] when that is truthy,
    else its [sha] when that is truthy, else its [url]; and [_deduplicate]
    keeps every record whose key is falsy, in order and as often as it
    occurs, and returns whenever the keys can be hashed. *)
Theorem get_event_id_prefers_id_sha_url :
  (forall event : pydict,
     BaseFetcher._get_event_id event =
       if truthy (dict_get event "id") then dict_get event "id"
       else if truthy (dict_get event "sha") then dict_get event "sha"
       else dict_get event "url")
  /\ (forall events unique,
        BaseFetcher._deduplicate BaseFetcher._get_event_id events = Ok unique ->
        List.filter (BaseFetcher.keyless BaseFetcher._get_event_id) unique
        = List.filter (BaseFetcher.keyless BaseFetcher._get_event_id) events)
  /\ (forall events,
        BaseFetcher.ids_hashable BaseFetcher._get_event_id events ->
        is_ok (BaseFetcher._deduplicate BaseFetcher._get_event_id events)).
Proof.
  split; [|split].
  - intros event. unfold BaseFetcher._get_event_id, py_or. reflexivity.
  - intros events unique. apply dedup_loop_keyless.
  - intros events. apply dedup_loop_total.
Qed.

Lemma get_event_id_prefers_witness :
  let a : pydict := <["sha" := VStr "abc"]> ∅ in
  let b : pydict := <["message" := VStr "no key"]> ∅ in
  List.filter (BaseFetcher.keyless BaseFetcher._get_event_id) [a; b; b]
  = List.filter (BaseFetcher.keyless BaseFetcher._get_event_id) [a; b; a; b].
Proof.
  intros a b.
  destruct get_event_id_prefers_id_sha_url as (_ & H & _).
  apply H. reflexivity.
Defined.

(** ** ISO dates as strings *)

Lemma digit_in_digits n : Date.digit n ∈ Date.digits.
Proof.
  unfold Date.digit.
  assert (H : (0 <= n mod 10 < 10)%Z) by (apply Z.mod_pos_bound; lia).
  assert (Hk : exists k : nat, (k < 10)%nat /\ Z.to_nat (n mod 10) = k)
    by (exists (Z.to_nat (n mod 10)); lia).
  destruct Hk as (k & Hlt & ->).
  do 10 (destruct k as [|k]; [set_solver|]). lia.
Qed.

(** An ISO date starts with a digit and has more than one character. *)
Lemma isoformat_shape d :
  exists c1 c2 rest,
    Date.isoformat d = String c1 (String c2 rest) /\ c1 ∈ Date.digits.
Proof.
  unfold Date.isoformat. destruct (Date.ord2ymd d) as [[y m] dd].
  unfold Date.pad4. simpl. do 3 eexists. split; [reflexivity|].
  apply digit_in_digits.
Qed.

(** What [str] makes of a falsy value. *)
Lemma py_str_falsy rc v :
  truthy v = false ->
  py_str rc v ∈ ["None"; "False"; "0"; ""; "[]"; "{}"].
Proof.
  destruct v as [|[]|z|s|[|x l]|d]; simpl; try done; try set_solver.
  - intros H. apply negb_false_iff, Z.eqb_eq in H. subst. set_solver.
  - intros H. apply negb_false_iff, String.eqb_eq in H. subst. set_solver.
  - intros H. apply negb_false_iff in H. rewrite H. set_solver.
Qed.

(** No such string lies between two ISO dates. *)
Lemma falsy_str_outside lo hi s c1 c2 lo' d1 d2 hi' :
  lo = String c1 (String c2 lo') -> c1 ∈ Date.digits ->
  hi = String d1 (String d2 hi') -> d1 ∈ Date.digits ->
  s ∈ ["None"; "False"; "0"; ""; "[]"; "{}"] ->
  String.leb lo (str_take 10 s) && String.leb (str_take 10 s) hi = false.
Proof.
  intros -> Hc -> Hd Hs.
  unfold Date.digits in Hc, Hd.
  repeat (apply elem_of_cons in Hs as [->|Hs]); [..|by apply elem_of_nil in Hs];
  repeat (apply elem_of_cons in Hd as [->|Hd]); try (by apply elem_of_nil in Hd);
  repeat (apply elem_of_cons in Hc as [->|Hc]); try (by apply elem_of_nil in Hc);
  reflexivity.
Qed.

(** ** Aggregator: filtering by date *)

Section AggregatorFacts.
Import Aggregator.
Variable self_username : string.
Variable self_start_date self_end_date : Date.date.
Variable repr_container : val -> string.

Local Abbreviation in_period := (in_period self_start_date self_end_date).
Local Abbreviation _extract_date := (_extract_date repr_container).
Local Abbreviation dated_within :=
  (dated_within self_start_date self_end_date repr_container).

Local Abbreviation kept_by_date :=
  (kept_by_date self_start_date self_end_date repr_container).

Lemma in_period_falsy v :
  truthy v = false -> in_period (str_take 10 (py_str repr_container v)) = false.
Proof.
  intros Hv.
  destruct (isoformat_shape self_start_date) as (c1 & c2 & lo & Hlo & Hc).
  destruct (isoformat_shape self_end_date) as (d1 & d2 & hi & Hhi & Hd).
  unfold Aggregator.in_period.
  eapply falsy_str_outside; eauto using py_str_falsy.
Qed.

Lemma in_period_nonempty s : in_period s = true -> s <> "".
Proof.
  intros H ->. change "" with (str_take 10 (py_str repr_container (VStr ""))) in H.
  by rewrite in_period_falsy in H.
Qed.

Lemma kept_by_date_iff item date_field :
  kept_by_date item date_field = true <-> dated_within date_field item.
Proof.
  unfold kept_by_date, Aggregator._extract_date, Aggregator.dated_within, dict_get_or.
  destruct (item !! date_field) as [v|] eqn:E; simpl.
  - destruct (truthy v) eqn:Ht.
    + split.
      * intros [_ H]%andb_true_iff. eauto.
      * intros (v' & Hv & H). simplify_eq. rewrite H, andb_true_r.
        apply negb_true_iff, String.eqb_neq. by apply in_period_nonempty.
    + split; [done|]. intros (v' & Hv & H). simplify_eq.
      pose proof (in_period_falsy v' Ht) as Hf. congruence.
  - split; [done|]. by intros (v' & [=] & _).
Qed.

Lemma filter_by_date_elem date_field r items :
  r ∈ _filter_by_date self_start_date self_end_date repr_container items date_field
  <-> r ∈ items /\ dated_within date_field r.
Proof.
  rewrite <- kept_by_date_iff.
  induction items as [|item rest IH]; simpl.
  - set_solver.
  - fold (kept_by_date item date_field).
    destruct (kept_by_date item date_field) eqn:E.
    + rewrite !elem_of_cons, IH. naive_solver.
    + rewrite elem_of_cons, IH. split; [naive_solver|].
      intros [[->|?] ?]; [congruence|done].
Qed.

Lemma filter_prs_by_date_elem r prs :
  r ∈ _filter_prs_by_date self_start_date self_end_date repr_container prs
  <-> r ∈ prs /\ (dated_within "created_at" r
                  \/ truthy (dict_get r "has_period_activity") = true).
Proof.
  rewrite <- kept_by_date_iff.
  induction prs as [|pr rest IH]; simpl.
  - set_solver.
  - destruct (truthy (dict_get pr "has_period_activity")) eqn:Ha.
    + rewrite !elem_of_cons, IH. naive_solver.
    + fold (kept_by_date pr "created_at").
      destruct (kept_by_date pr "created_at") eqn:E.
      * rewrite !elem_of_cons, IH. naive_solver.
      * rewrite elem_of_cons, IH. split; [naive_solver|].
        intros [[->|Hin] Hcond]; [destruct Hcond; congruence|done].
Qed.

Lemma set_of_strings vs : forall seen,
  Forall (fun v => exists s, v = VStr s) vs ->
  exists elems, set_of seen vs = Ok elems
                /\ forallb (fun e : hkey * val => is_HStr e.1) elems = true.
Proof.
  induction vs as [|v rest IH]; intros seen Hs; simpl.
  - by eexists.
  - apply Forall_cons in Hs as [[s ->] Hrest]. simpl.
    destruct (in_set (HStr s) seen); [by apply IH|].
    destruct (IH (HStr s :: seen) Hrest) as (elems & -> & Hall).
    eexists. split; [reflexivity|]. simpl. done.
Qed.

Lemma repos_of_strings records :
  repositories_are_strings records ->
  Forall (fun v => exists s, v = VStr s) (repos_of records).
Proof.
  unfold repositories_are_strings, repos_of. intros H.
  apply Forall_forall. intros v Hv.
  apply list_elem_of_In, filter_In in Hv as [Hv _].
  apply list_elem_of_In, list_elem_of_fmap in Hv as (r & -> & Hr).
  by apply (proj1 (Forall_forall _ _) H).
Qed.

Lemma repositories_are_strings_sub (sub records : list pydict) :
  (forall r, r ∈ sub -> r ∈ records) ->
  repositories_are_strings records -> repositories_are_strings sub.
Proof.
  unfold repositories_are_strings. rewrite !Forall_forall. eauto.
Qed.

Lemma collect_repositories_returns commits prs issues reviews :
  repositories_are_strings commits -> repositories_are_strings prs ->
  repositories_are_strings issues -> repositories_are_strings reviews ->
  is_ok (_collect_repositories commits prs issues reviews).
Proof.
  intros Hc Hp Hi Hr. unfold _collect_repositories.
  destruct (set_of_strings
              (repos_of commits ++ repos_of prs ++ repos_of issues ++ repos_of reviews) [])
    as (elems & -> & Hall).
  { repeat apply Forall_app_2; by apply repos_of_strings. }
  simpl. unfold sorted_set. rewrite Hall, orb_true_r. by eexists.
Qed.

(** C1. For every call of [aggregate] that returns: a commit, issue,
    review or comment is in its output list exactly when it is in the
    input list and its date field ([date], [created_at], [submitted_at],
    [created_at]) is present with its first ten characters between
    [start_date.isoformat()] and [end_date.isoformat()], ends included; a
    pull request exactly when it is in the input and [created_at] is in
    that range or [has_period_activity] is truthy.  The call returns when
    the [repository] fields are strings. *)
Theorem aggregate_filters_by_date
    (commits pull_requests issues reviews comments : option (list pydict)) :
  let call := aggregate self_username self_start_date self_end_date repr_container
                commits pull_requests issues reviews comments in
  (forall data, call = Ok data ->
     forall r,
       (r ∈ Aggregator.commits data
          <-> r ∈ or_empty commits /\ dated_within "date" r)
       /\ (r ∈ Aggregator.issues data
          <-> r ∈ or_empty issues /\ dated_within "created_at" r)
       /\ (r ∈ Aggregator.reviews data
          <-> r ∈ or_empty reviews /\ dated_within "submitted_at" r)
       /\ (r ∈ Aggregator.comments data
          <-> r ∈ or_empty comments /\ dated_within "created_at" r)
       /\ (r ∈ Aggregator.pull_requests data
          <-> r ∈ or_empty pull_requests
              /\ (dated_within "created_at" r
                  \/ truthy (dict_get r "has_period_activity") = true)))
  /\ (repositories_are_strings (or_empty commits) ->
      repositories_are_strings (or_empty pull_requests) ->
      repositories_are_strings (or_empty issues) ->
      repositories_are_strings (or_empty reviews) ->
      is_ok call).
Proof.
  intros call. subst call. unfold aggregate. split.
  - intros data H.
    destruct (_collect_repositories _ _ _ _) as [repos|e]; [|done].
    injection H as <-. intros r. simpl.
    rewrite !filter_by_date_elem, filter_prs_by_date_elem. done.
  - intros Hc Hp Hi Hr.
    destruct (collect_repositories_returns
      (_filter_by_date self_start_date self_end_date repr_container (or_empty commits) "date")
      (_filter_prs_by_date self_start_date self_end_date repr_container (or_empty pull_requests))
      (_filter_by_date self_start_date self_end_date repr_container (or_empty issues) "created_at")
      (_filter_by_date self_start_date self_end_date repr_container (or_empty reviews) "submitted_at"))
      as [repos Hrepos].
    + eapply repositories_are_strings_sub; [|exact Hc].
      intros r. rewrite filter_by_date_elem. tauto.
    + eapply repositories_are_strings_sub; [|exact Hp].
      intros r. rewrite filter_prs_by_date_elem. tauto.
    + eapply repositories_are_strings_sub; [|exact Hi].
      intros r. rewrite filter_by_date_elem. tauto.
    + eapply repositories_are_strings_sub; [|exact Hr].
      intros r. rewrite filter_by_date_elem. tauto.
    + rewrite Hrepos. by eexists.
Qed.
End AggregatorFacts.

(** The theorem for December 2024 on one commit of the 10th and one of the
    following January: the call returns, with the first and without the
    second. *)
Lemma aggregate_filters_witness :
  let inside : pydict :=
    <["date" := VStr "2024-12-10T09:00:00Z"]> (<["repository" := VStr "org/repo1"]> ∅) in
  let outside : pydict :=
    <["date" := VStr "2025-01-15T11:00:00Z"]> (<["repository" := VStr "org/repo1"]> ∅) in
  exists data,
    Aggregator.aggregate "octocat" 739221 739251 (fun _ => "")
      (Some [inside; outside]) None None None None = Ok data
    /\ inside ∈ Aggregator.commits data.
Proof.
  intros inside outside.
  destruct (aggregate_filters_by_date "octocat" 739221 739251 (fun _ => "")
              (Some [inside; outside]) None None None None) as [Hiff Hret].
  destruct Hret as [data Hdata].
  - repeat constructor. by exists "org/repo1".
    by exists "org/repo1".
  - constructor.
  - constructor.
  - constructor.
  - exists data. split; [exact Hdata|].
    apply (Hiff data Hdata inside). split.
    + simpl. left.
    + exists (VStr "2024-12-10T09:00:00Z"). split; reflexivity.
Defined.

(** ** Aggregator: the summary of data without dates or repositories *)

Section SummaryFacts.
Import Aggregator.

Lemma count_days_dateless field records : forall days,
  Forall (dateless field) records -> count_days field records days = Ok days.
Proof.
  induction records as [|record rest IH]; intros days H; [done|].
  apply Forall_cons in H as [Hr Hrest]. unfold dateless in Hr.
  simpl. unfold py_or. rewrite Hr. simpl. by apply IH.
Qed.

Lemma count_repos_repoless records : forall repos,
  Forall repoless records -> count_repos records repos = Ok repos.
Proof.
  induction records as [|record rest IH]; intros repos H; [done|].
  apply Forall_cons in H as [Hr Hrest]. unfold repoless in Hr.
  simpl. rewrite Hr. by apply IH.
Qed.

Lemma set_of_total vs : forall seen,
  Forall (fun v => is_Some (hash_key v)) vs -> is_ok (set_of seen vs).
Proof.
  induction vs as [|v rest IH]; intros seen H; simpl.
  - by eexists.
  - apply Forall_cons in H as [[k Hk] Hrest]. rewrite Hk.
    destruct (in_set k seen); [by apply IH|].
    destruct (IH (k :: seen) Hrest) as [elems He]. rewrite He. by eexists.
Qed.

Lemma most_active_day_dateless data :
  dateless_data data -> _get_most_active_day data = Ok (VStr "").
Proof.
  intros (Hc & Hp & Hi & Hr & Hm). unfold _get_most_active_day.
  rewrite (count_days_dateless _ _ _ Hc). simpl.
  rewrite (count_days_dateless _ _ _ Hp). simpl.
  rewrite (count_days_dateless _ _ _ Hi). simpl.
  rewrite (count_days_dateless _ _ _ Hr). simpl.
  rewrite (count_days_dateless _ _ _ Hm). done.
Qed.

Lemma most_active_repo_repoless data :
  repoless_data data -> _get_most_active_repo data = Ok (VStr "").
Proof.
  intros (Hc & Hp & Hi). unfold _get_most_active_repo.
  rewrite (count_repos_repoless _ _ Hc). simpl.
  rewrite (count_repos_repoless _ _ Hp). simpl.
  rewrite (count_repos_repoless _ _ Hi). done.
Qed.

(** C10. On data without dates, in particular on empty data,
    [most_active_day] is the empty string; on data whose commits, pull
    requests and issues carry no repository, [most_active_repo] is the
    empty string, and reviews and comments play no part in it; and
    [get_summary] then returns, with these two entries, as long as the
    [pr_number]s it collects in a set can be hashed. *)
Theorem summary_of_dateless_data (data : AggregatedData) :
  (dateless_data data -> _get_most_active_day data = Ok (VStr ""))
  /\ (repoless_data data -> _get_most_active_repo data = Ok (VStr ""))
  /\ (forall reviews' comments',
        _get_most_active_repo (with_reviews_comments data reviews' comments')
        = _get_most_active_repo data)
  /\ (dateless_data data -> repoless_data data -> pr_numbers_hashable data ->
      exists summary, get_summary data = Ok summary
                      /\ most_active_day summary = VStr ""
                      /\ most_active_repo summary = VStr "").
Proof.
  split; [apply most_active_day_dateless|].
  split; [apply most_active_repo_repoless|].
  split; [done|].
  intros Hd Hr Hh. unfold get_summary.
  destruct (set_of_total
              (List.filter truthy ((fun r => dict_get r "pr_number") <$> reviews data)) [])
    as [reviewed Hrev].
  { apply Forall_forall. intros v Hv.
    apply list_elem_of_In, filter_In in Hv as [Hv _].
    apply list_elem_of_In, list_elem_of_fmap in Hv as (r & -> & Hin).
    by apply (proj1 (Forall_forall _ _) Hh). }
  rewrite Hrev. simpl.
  rewrite (most_active_day_dateless _ Hd). simpl.
  rewrite (most_active_repo_repoless _ Hr). simpl.
  eexists. split; [reflexivity|]. done.
Qed.
End SummaryFacts.

(** The theorem on records that have a sha or a title and nothing else:
    the summary is computed, its two "most active" entries empty. *)
Lemma summary_of_dateless_witness :
  let data :=
    {| Aggregator.commits := [<["sha" := VStr "abc"]> ∅];
       Aggregator.pull_requests := [<["created_at" := VNone]> ∅];
       Aggregator.issues := [];
       Aggregator.reviews := [<["pr_number" := VInt 7]> ∅];
       Aggregator.comments := [<["created_at" := VStr ""]> ∅];
       Aggregator.start_date := None;
       Aggregator.end_date := None;
       Aggregator.username := "octocat";
       Aggregator.repositories := [] |} in
  exists summary, Aggregator.get_summary data = Ok summary
                  /\ Aggregator.most_active_day summary = VStr ""
                  /\ Aggregator.most_active_repo summary = VStr "".
Proof.
  intros data.
  destruct (summary_of_dateless_data data) as (_ & _ & _ & H).
  apply H.
  - unfold Aggregator.dateless_data, Aggregator.dateless. simpl.
    repeat split; repeat constructor.
  - unfold Aggregator.repoless_data, Aggregator.repoless. simpl.
    repeat split; repeat constructor.
  - unfold Aggregator.pr_numbers_hashable. simpl. repeat constructor. by eexists.
Defined.

(** ** Period resolution *)

Section PeriodFacts.
Import Date DateUtils.

Lemma days_in_month_bounds year month :
  1 <= month <= 12 -> 28 <= days_in_month year month <= 31.
Proof.
  intros H. unfold days_in_month.
  assert (Hm : month = 1 \/ month = 2 \/ month = 3 \/ month = 4 \/ month = 5
               \/ month = 6 \/ month = 7 \/ month = 8 \/ month = 9
               \/ month = 10 \/ month = 11 \/ month = 12) by lia.
  destruct (is_leap year);
    repeat (destruct Hm as [->|Hm]; [simpl; lia|]); subst; simpl; lia.
Qed.

Lemma mk_date_valid year month day :
  1 <= year <= 9999 -> 1 <= month <= 12 -> 1 <= day <= days_in_month year month ->
  mk_date year month day = Ok (ymd2ord year month day).
Proof.
  intros Hy Hm Hd. unfold mk_date, MINYEAR, MAXYEAR.
  repeat match goal with
         | |- context [(?a <=? ?b)%Z] =>
             destruct (Z.leb_spec a b); [|lia]
         end.
  done.
Qed.

(** The day after the last day of a month is the first of the next. *)
Lemma month_end_next year month :
  1 <= month <= 12 ->
  ymd2ord year month (days_in_month year month) + 1
  = if (month =? 12)%Z then ymd2ord (year + 1) 1 1 else ymd2ord year (month + 1) 1.
Proof.
  intros H. unfold ymd2ord, days_before_month, days_in_month.
  assert (Hm : month = 1 \/ month = 2 \/ month = 3 \/ month = 4 \/ month = 5
               \/ month = 6 \/ month = 7 \/ month = 8 \/ month = 9
               \/ month = 10 \/ month = 11 \/ month = 12) by lia.
  assert (Hleap : days_before_year (year + 1)
                  = days_before_year year + 365 + (if is_leap year then 1 else 0)).
  { unfold days_before_year, is_leap.
    replace (year + 1 - 1) with year by lia.
    destruct (year mod 4 =? 0)%Z eqn:E4; destruct (year mod 100 =? 0)%Z eqn:E100;
      destruct (year mod 400 =? 0)%Z eqn:E400; simpl;
      rewrite ?Z.eqb_eq, ?Z.eqb_neq in *; Z.div_mod_to_equations; lia. }
  repeat (destruct Hm as [->|Hm]; [destruct (is_leap year); simpl in *; lia|]).
  subst. destruct (is_leap year); simpl in *; lia.
Qed.

(** C7, as stated, fails for a year no date can hold: the month is in
    range and the call still raises, from the [date] constructor. *)
Lemma period_range_year_counterexample :
  get_period_range 0 "monthly" 6 = Raise ValueError
  /\ get_period_range 10000 "quarterly" 2 = Raise ValueError.
Proof. split; reflexivity. Qed.

(** C7, amended. For every year from 1 to 9999: a month from 1 to 12 gives
    the first day of that month and its last day (the day before the first
    of the next month); a quarter from 1 to 4 gives the fixed boundaries;
    any other month or quarter value raises [ValueError], and nothing else
    does. *)
Theorem get_period_range_valid_year (year value : Z) :
  1 <= year <= 9999 ->
  (1 <= value <= 12 ->
     exists first last,
       get_period_range year "monthly" value = Ok (first, last)
       /\ mk_date year value 1 = Ok first
       /\ mk_date year value (days_in_month year value) = Ok last
       /\ first <= last
       /\ last + 1 = (if (value =? 12)%Z then ymd2ord (year + 1) 1 1
                      else ymd2ord year (value + 1) 1))
  /\ (~ 1 <= value <= 12 -> get_period_range year "monthly" value = Raise ValueError)
  /\ (1 <= value <= 4 ->
      exists first last,
        get_period_range year "quarterly" value = Ok (first, last)
        /\ mk_date year (match value with 1 => 1 | 2 => 4 | 3 => 7 | _ => 10 end) 1
           = Ok first
        /\ mk_date year (match value with 1 => 3 | 2 => 6 | 3 => 9 | _ => 12 end)
                        (match value with 1 => 31 | 2 => 30 | 3 => 30 | _ => 31 end)
           = Ok last)
  /\ (~ 1 <= value <= 4 -> get_period_range year "quarterly" value = Raise ValueError).
Proof.
  intros Hy. repeat split.
  - intros Hv. unfold get_period_range. simpl.
    destruct (Z.leb_spec 1 value); [|lia].
    destruct (Z.leb_spec value 12); [|lia]. simpl.
    pose proof (days_in_month_bounds year value Hv) as Hd.
    unfold monthrange.
    destruct (Z.leb_spec 1 value); [|lia].
    destruct (Z.leb_spec value 12); [|lia]. simpl.
    rewrite !mk_date_valid by lia. simpl.
    do 2 eexists. repeat split.
    + unfold ymd2ord. lia.
    + by apply month_end_next.
  - intros Hv. unfold get_period_range. simpl.
    destruct (Z.leb_spec 1 value); destruct (Z.leb_spec value 12); simpl; try done; lia.
  - intros Hv. unfold get_period_range. simpl.
    destruct (Z.leb_spec 1 value); [|lia].
    destruct (Z.leb_spec value 4); [|lia]. simpl.
    rewrite !mk_date_valid by (try (unfold days_in_month; destruct (is_leap year)); simpl; lia).
    simpl.
    assert (Hq : value = 1 \/ value = 2 \/ value = 3 \/ value = 4) by lia.
    destruct Hq as [-> | [-> | [-> | ->]]]; simpl;
      rewrite !mk_date_valid
        by (try (unfold days_in_month; destruct (is_leap year)); simpl; lia);
      eauto.
  - intros Hv. unfold get_period_range. simpl.
    destruct (Z.leb_spec 1 value); destruct (Z.leb_spec value 4); simpl; try done; lia.
Qed.
End PeriodFacts.

(** The theorem for 2024: June runs from the 1st to the 30th. *)
Lemma get_period_range_witness :
  exists first last,
    DateUtils.get_period_range 2024 "monthly" 6 = Ok (first, last)
    /\ Date.mk_date 2024 6 1 = Ok first
    /\ Date.mk_date 2024 6 30 = Ok last.
Proof.
  destruct (get_period_range_valid_year 2024 6) as (H & _); [lia|].
  destruct H as (first & last & H1 & H2 & H3 & _); [lia|].
  exists first, last. auto.
Defined.

Example get_period_range_ex :
  (Date.isoformat <$> [738977; 739067]) = ["2024-04-01"; "2024-06-30"]
  /\ DateUtils.get_period_range 2024 "quarterly" 2 = Ok (738977, 739067).
Proof. split; reflexivity. Qed.

(** ** Adaptive fetching *)

Section FetchFacts.
Import Date BaseFetcher.
Context {W : Type}.
Variable _fetch_range : date -> date -> M W (list pydict).
Variable get_event_id : pydict -> val.
Variable high_activity_threshold : Z.

Lemma add_days_in_range d n :
  0 < d + n <= MAXORDINAL -> add_days d n = Ok (d + n).
Proof.
  intros H. unfold add_days.
  destruct (Z.ltb_spec 0 (d + n)); [|lia].
  destruct (Z.leb_spec (d + n) MAXORDINAL); [done|lia].
Qed.

Lemma days_of_cons current week_end :
  current <= week_end ->
  days_of current week_end = (current, current) :: days_of (current + 1) week_end.
Proof.
  intros H. unfold days_of.
  rewrite seqZ_cons by lia. simpl. do 3 f_equal; lia.
Qed.

Lemma days_of_nil current week_end :
  week_end < current -> days_of current week_end = [].
Proof.
  intros H. unfold days_of. by rewrite seqZ_nil by lia.
Qed.

Lemma days_of_length week_start week_end :
  week_start <= week_end ->
  length (days_of week_start week_end) = Z.to_nat (week_end - week_start + 1).
Proof.
  intros H. unfold days_of. by rewrite length_fmap, length_seqZ.
Qed.

(** Away from [date.max] the daily loop is one call per day. *)
Lemma days_loop_fetch_each {W' : Type} (fetch : date -> date -> M W' (list pydict))
    (n : nat) : forall current week_end w,
  Z.to_nat (week_end - current + 1) = n ->
  0 < current -> week_end < MAXORDINAL ->
  days_loop fetch week_end w current
  = fetch_each fetch (days_of current week_end) w.
Proof.
  induction n as [|n IH]; intros current week_end w Hn Hpos Hmax;
    rewrite days_loop_equation.
  - destruct (Z.leb_spec current week_end); [lia|].
    by rewrite days_of_nil by lia.
  - destruct (Z.leb_spec current week_end); [|lia].
    rewrite days_of_cons by lia. unfold fetch_each. simpl. unfold bindM at 1.
    destruct (fetch current current w) as [[day_events|e] w1]; [|done].
    rewrite add_days_in_range by lia.
    rewrite (IH (current + 1) week_end w1) by lia.
    unfold fetch_each, bindM, liftM.
    destruct (for_extend _ (days_of (current + 1) week_end) w1) as [[rest|e] w2];
      reflexivity.
Qed.

(** A run of calls that all return leaves each of them in the log. *)
Lemma fetch_each_logged ranges : forall w log evs w' log',
  fetch_each (logged_fetch_range _fetch_range) ranges (w, log) = (Ok evs, (w', log')) ->
  log' = log ++ ranges.
Proof.
  induction ranges as [|[range_start range_end] rest IH]; intros w log evs w' log'.
  - unfold fetch_each. simpl. unfold liftM. intros H. simplify_eq.
    by rewrite app_nil_r.
  - unfold fetch_each. simpl. unfold bindM at 1. unfold logged_fetch_range at 1.
    destruct (_fetch_range range_start range_end w) as [[out|e] w1]; [|done].
    unfold bindM at 1.
    destruct (for_extend _ rest (w1, log ++ [(range_start, range_end)]))
      as [[outs|e] [w2 log2]] eqn:E; [|done].
    unfold liftM. intros H. simplify_eq.
    apply IH in E. rewrite E, <- app_assoc. done.
Qed.

Lemma iter_weeks_from_shape (n : nat) : forall end_date current,
  Z.to_nat (end_date - current + 1) = n ->
  0 < current -> end_date + 6 <= MAXORDINAL ->
  exists weeks,
    iter_weeks_from end_date current = (weeks, None)
    /\ Forall (fun '(week_start, week_end) =>
                 current <= week_start <= week_end /\ week_end <= end_date
                 /\ week_end = Z.min (week_start + 6) end_date) weeks.
Proof.
  induction n as [n IH] using lt_wf_ind. intros end_date current Hn Hpos Hmax.
  rewrite iter_weeks_from_equation.
  destruct (Z.leb_spec current end_date); [|by eexists].
  rewrite add_days_in_range by lia.
  rewrite add_days_in_range by lia.
  destruct (IH (Z.to_nat (end_date - (Z.min (current + 6) end_date + 1) + 1))
              ltac:(lia) end_date (Z.min (current + 6) end_date + 1)
              eq_refl ltac:(lia) Hmax) as (weeks & -> & Hweeks).
  eexists. split; [reflexivity|].
  constructor; [lia|].
  eapply Forall_impl; [exact Hweeks|]. intros [week_start week_end]. lia.
Qed.

(** When the generator ends without overflow, every window it yielded
    lies clear of [date.max]. *)
Lemma iter_weeks_from_clear (n : nat) : forall end_date current weeks,
  Z.to_nat (end_date - current + 1) = n ->
  0 < current ->
  iter_weeks_from end_date current = (weeks, None) ->
  Forall (fun '(week_start, week_end) =>
            0 < week_start /\ week_start <= week_end /\ week_end < MAXORDINAL) weeks.
Proof.
  induction n as [n IH] using lt_wf_ind. intros end_date current weeks Hn Hpos.
  rewrite iter_weeks_from_equation.
  destruct (Z.leb_spec current end_date); [|by intros [= <-]].
  unfold add_days at 1.
  destruct (Z.ltb_spec 0 (current + 6)); [|done].
  destruct (Z.leb_spec (current + 6) MAXORDINAL); [|done]. simpl.
  unfold add_days at 1.
  destruct (Z.ltb_spec 0 (Z.min (current + 6) end_date + 1)); [|done].
  destruct (Z.leb_spec (Z.min (current + 6) end_date + 1) MAXORDINAL); [|done]. simpl.
  destruct (iter_weeks_from end_date (Z.min (current + 6) end_date + 1))
    as [weeks' stop] eqn:E.
  intros [= <- ->]. constructor; [lia|].
  apply (IH (Z.to_nat (end_date - (Z.min (current + 6) end_date + 1) + 1))
            ltac:(lia) end_date (Z.min (current + 6) end_date + 1) weeks'
            eq_refl ltac:(lia) E).
Qed.

(** C5. In [fetch_period], a window whose [_fetch_range] result reaches
    [high_activity_threshold] contributes the concatenation of one
    [_fetch_range(d, d)] call per day of the window and nothing of the
    weekly result: when all calls return, the calls made are the weekly one
    followed by one per day, seven for a full week.  A window below the
    threshold contributes its weekly result unchanged.  The output of
    [fetch_period] is [_deduplicate] of the windows' contributions, the
    windows being those of [_iter_weeks], at most seven days each; the
    bounds asked of a window hold for every window of a call in which the
    date arithmetic does not overflow. *)
Theorem high_activity_week_refetched_daily :
  (forall week_start week_end w week_result w1,
     0 < week_start -> week_start <= week_end -> week_end < MAXORDINAL ->
     _fetch_range week_start week_end w = (Ok week_result, w1) ->
     (high_activity_threshold <= Z.of_nat (length week_result) ->
        week_events _fetch_range high_activity_threshold week_start week_end w
        = fetch_each _fetch_range (days_of week_start week_end) w1
        /\ length (days_of week_start week_end) = Z.to_nat (week_end - week_start + 1)
        /\ (week_end = week_start + 6 -> length (days_of week_start week_end) = 7%nat)
        /\ (forall log evs w2 log',
              week_events (logged_fetch_range _fetch_range) high_activity_threshold
                week_start week_end (w, log) = (Ok evs, (w2, log')) ->
              log' = log ++ (week_start, week_end) :: days_of week_start week_end))
     /\ (Z.of_nat (length week_result) < high_activity_threshold ->
         week_events _fetch_range high_activity_threshold week_start week_end w
         = (Ok week_result, w1)))
  /\ (forall start end_date,
        0 < start -> end_date + 6 <= MAXORDINAL ->
        exists weeks,
          _iter_weeks start end_date = (weeks, None)
          /\ Forall (fun '(week_start, week_end) =>
                       start <= week_start <= week_end /\ week_end <= end_date
                       /\ week_end = Z.min (week_start + 6) end_date) weeks
          /\ forall w,
               fetch_period _fetch_range get_event_id high_activity_threshold
                 start end_date w
               = bindM (for_extend
                          (fun '(week_start, week_end) =>
                             week_events _fetch_range high_activity_threshold
                               week_start week_end) weeks)
                       (fun all_events => liftM (_deduplicate get_event_id all_events)) w)
  /\ (forall start end_date weeks,
        0 < start -> _iter_weeks start end_date = (weeks, None) ->
        Forall (fun '(week_start, week_end) =>
                  0 < week_start /\ week_start <= week_end
                  /\ week_end < MAXORDINAL) weeks).
Proof.
  split; [|split].
  - intros week_start week_end w week_result w1 Hpos Hle Hmax Hweek. split.
    + intros Hhigh. repeat split.
      * unfold week_events, bindM. rewrite Hweek.
        destruct (Z.leb_spec high_activity_threshold (Z.of_nat (length week_result)));
          [|lia].
        unfold _fetch_week_by_days.
        by apply (days_loop_fetch_each _ (Z.to_nat (week_end - week_start + 1))).
      * by apply days_of_length.
      * intros ->. rewrite days_of_length by lia.
        replace (week_start + 6 - week_start + 1) with 7 by lia. done.
      * intros log evs w2 log'. unfold week_events, bindM.
        unfold logged_fetch_range at 1. rewrite Hweek.
        destruct (Z.leb_spec high_activity_threshold (Z.of_nat (length week_result)));
          [|lia].
        unfold _fetch_week_by_days.
        rewrite (days_loop_fetch_each (logged_fetch_range _fetch_range)
                   (Z.to_nat (week_end - week_start + 1))) by done.
        intros Hlog%fetch_each_logged. rewrite Hlog, <- app_assoc. done.
    + intros Hlow. unfold week_events, bindM. rewrite Hweek.
      destruct (Z.leb_spec high_activity_threshold (Z.of_nat (length week_result)));
        [lia|done].
  - intros start end_date Hpos Hmax.
    destruct (iter_weeks_from_shape (Z.to_nat (end_date - start + 1)) end_date start
                eq_refl Hpos Hmax) as (weeks & Hweeks & Hshape).
    exists weeks. repeat split; [done..|].
    intros w. unfold fetch_period, _iter_weeks. rewrite Hweeks. done.
  - intros start end_date weeks Hpos Hweeks.
    by apply (iter_weeks_from_clear (Z.to_nat (end_date - start + 1))
                end_date start weeks eq_refl Hpos).
Qed.
End FetchFacts.

(** The theorem for a fetcher that returns two records per call, with the
    threshold at two: the week of 1 December 2024 is fetched again day by
    day, in seven calls. *)
Lemma high_activity_week_witness :
  let fetch : Date.date -> Date.date -> M unit (list pydict) :=
    fun range_start range_end w =>
      (Ok [<["id" := VInt range_start]> ∅; <["id" := VInt range_end]> ∅], w) in
  BaseFetcher.week_events fetch 2 739221 739227 tt
  = BaseFetcher.fetch_each fetch (BaseFetcher.days_of 739221 739227) tt
  /\ length (BaseFetcher.days_of 739221 739227) = 7%nat.
Proof.
  intros fetch.
  destruct (high_activity_week_refetched_daily fetch BaseFetcher._get_event_id 2)
    as (Hweek & _ & _).
  destruct (Hweek 739221 739227 tt
              [<["id" := VInt 739221]> ∅; <["id" := VInt 739227]> ∅] tt)
    as [Hhigh _]; [done..|].
  destruct Hhigh as (Heq & _ & Hseven & _); [done|].
  split; [exact Heq|by apply Hseven].
Defined.

(** ** Host failures *)

Lemma for_extend_skip {W A B} (body : A -> M W (list B)) x rest w w1 :
  body x w = (Ok [], w1) ->
  for_extend body (x :: rest) w = for_extend body rest w1.
Proof.
  intros H. simpl. unfold bindM at 1. rewrite H. unfold bindM, liftM.
  destruct (for_extend body rest w1) as [[outs|e] w2]; reflexivity.
Qed.

Section HostFailureFacts.
Import Date.
Context {W : Type}.
Variable gh_api : string -> bool -> M W val.
Variable quote : string -> string.
Variable repr_container : val -> string.
Variable username : string.

End HostFailureFacts.

(** December 2024 with a host that fails on the first week and returns one
    pull request for every other window: the fetch returns the four pull
    requests of the four other windows. *)
Example fetch_period_partial_failure_ex :
  let failing :=
    PullRequestsFetcher.created_endpoint (fun q => q) "octocat" 739221 739227 in
  let gh_api : string -> bool -> M nat val :=
    fun endpoint paginate calls =>
      if String.eqb endpoint failing then (Raise HostError, S calls)
      else (Ok (VDict (<["items" :=
                  VList [VDict (<["html_url" := VStr endpoint]> ∅)]]> ∅)), S calls) in
  exists prs,
    PullRequestsFetcher.fetch_period gh_api (fun q => q) "octocat" 100
      739221 739251 0%nat = (Ok prs, 5%nat)
    /\ length prs = 4%nat.
Proof. eexists. split; vm_compute; reflexivity. Qed.


(** ** Review metrics *)

Section ReviewMetricsFacts.
Import Metrics.

Lemma count_where_cons {A} (p : A -> bool) x l :
  count_where p (x :: l) = (if p x then 1 else 0) + count_where p l.
Proof. unfold count_where. simpl. destruct (p x); simpl; lia. Qed.

Lemma count_where_none {A} (p : A -> bool) l :
  (forall x, p x = false) -> count_where p l = 0.
Proof.
  intros H. induction l as [|x l IH]; [done|].
  by rewrite count_where_cons, H, IH.
Qed.

Lemma review_counts_loop_counts reviews : forall approved requested commented r,
  review_counts_loop reviews (approved, requested, commented) = Ok r ->
  r = (approved + count_where (has_state "APPROVED") reviews,
       requested + count_where (has_state "CHANGES_REQUESTED") reviews,
       commented + count_where has_comment reviews).
Proof.
  induction reviews as [|review rest IH]; intros approved requested commented r.
  - simpl. intros [= <-]. unfold count_where. simpl. repeat (match goal with |- (_, _) = (_, _) => f_equal end); lia.
  - rewrite !count_where_cons. simpl. unfold has_comment, has_state.
    assert (Hstate : val_eq_str (dict_get_or review "state" (VStr "")) "APPROVED" = true ->
                     val_eq_str (dict_get_or review "state" (VStr "")) "CHANGES_REQUESTED"
                     = false).
    { destruct (dict_get_or review "state" (VStr "")); try done. simpl.
      by intros ->%String.eqb_eq. }
    destruct (val_eq_str (dict_get_or review "state" (VStr "")) "APPROVED") eqn:Ea;
      [rewrite (Hstate eq_refl)|];
      destruct (val_eq_str (dict_get_or review "state" (VStr "")) "CHANGES_REQUESTED");
      (destruct (body_length_of review) as [body_length|e]; [|done]); simpl;
      (destruct (py_positive body_length) as [positive|e]; [|done]); simpl;
      intros H%IH; rewrite H; unfold has_state, has_comment; destruct positive;
      repeat (match goal with |- (_, _) = (_, _) => f_equal end); lia.
Qed.

Lemma review_counts_loop_returns reviews : forall acc,
  body_lengths_typed reviews -> is_ok (review_counts_loop reviews acc).
Proof.
  induction reviews as [|review rest IH]; intros [[approved requested] commented] H.
  - by eexists.
  - apply Forall_cons in H as [[positive Hp] Hrest]. simpl.
    destruct (val_eq_str _ "APPROVED"); [|destruct (val_eq_str _ "CHANGES_REQUESTED")];
      (destruct (body_length_of review) as [body_length|e]; [|done]); simpl in *;
      rewrite Hp; simpl; by apply IH.
Qed.


End ReviewMetricsFacts.


(** ** Pull-request metrics *)

Lemma set_of_keys vs : forall seen elems,
  set_of seen vs = Ok elems ->
  NoDup elems.*1
  /\ forall k, k ∈ elems.*1 <-> k ∈ omap hash_key vs /\ k ∉ seen.
Proof.
  induction vs as [|v rest IH]; intros seen elems; simpl.
  - intros [= <-]. split; [constructor|]. set_solver.
  - destruct (hash_key v) as [k|] eqn:Hk; [|done].
    destruct (in_set k seen) eqn:Hin.
    + intros H. destruct (IH _ _ H) as [Hnd Hiff]. split; [done|].
      apply in_set_true in Hin. intros k'. rewrite Hiff, elem_of_cons.
      split; [naive_solver|]. intros [[->|?] ?]; done.
    + destruct (set_of (k :: seen) rest) as [elems'|] eqn:E; [|done].
      intros [= <-]. destruct (IH _ _ E) as [Hnd Hiff].
      apply in_set_false in Hin. simpl. split.
      * constructor; [|done]. rewrite Hiff. set_solver.
      * intros k'. rewrite !elem_of_cons, Hiff, elem_of_cons.
        destruct (decide (k' = k)) as [->|]; naive_solver.
Qed.

Lemma omap_fmap_compose {A B C} (f : B -> option C) (g : A -> B) (l : list A) :
  omap f (g <$> l) = omap (fun x => f (g x)) l.
Proof.
  induction l as [|x l IH]; [done|]. csimpl. by rewrite IH.
Qed.

(** The size of the set is the number of distinct keys. *)
Lemma set_of_length vs elems :
  set_of [] vs = Ok elems ->
  length elems = length (remove_dups (omap hash_key vs)).
Proof.
  intros H. destruct (set_of_keys _ _ _ H) as [Hnd Hiff].
  rewrite <- (length_fmap fst elems).
  apply Permutation_length, NoDup_Permutation; [done|apply NoDup_remove_dups|].
  intros k. rewrite Hiff, elem_of_remove_dups. set_solver.
Qed.

Section PRMetricsFacts.
Import Metrics.
Variable repr_container : val -> string.

Local Abbreviation pr_key_of := (pr_key_of repr_container).
Local Abbreviation matching_reviews := (matching_reviews repr_container).

(** Grouping by key and looking a key up is filtering by that key. *)
Lemma group_reviews_lookup reviews : forall reviews_by_pr pr_key,
  default [] (group_reviews repr_container reviews reviews_by_pr !! pr_key)
  = default [] (reviews_by_pr !! pr_key)
    ++ List.filter (fun r => String.eqb (pr_key_of "pr_number" r) pr_key) reviews.
Proof.
  induction reviews as [|review rest IH]; intros reviews_by_pr pr_key; simpl.
  - by rewrite app_nil_r.
  - rewrite IH.
    destruct (String.eqb_spec (pr_key_of "pr_number" review) pr_key) as [->|Hne].
    + rewrite lookup_insert_eq. simpl. by rewrite <- app_assoc.
    + by rewrite lookup_insert_ne.
Qed.

Lemma group_reviews_matching to_use pr :
  default [] (group_reviews repr_container to_use ∅ !! pr_key_of "number" pr)
  = matching_reviews to_use pr.
Proof. by rewrite group_reviews_lookup, lookup_empty. Qed.

Lemma total_reviewers_cons to_use pr prs :
  total_reviewers repr_container (pr :: prs) to_use
  = distinct_reviewers (matching_reviews to_use pr)
    + total_reviewers repr_container prs to_use.
Proof. reflexivity. Qed.

Lemma review_stats_loop_counts to_use prs : forall iterations requested merged r,
  review_stats_loop repr_container (group_reviews repr_container to_use ∅) prs
    (iterations, requested, merged) = Ok r ->
  r = (iterations + total_reviewers repr_container prs to_use,
       requested + count_where (counts_as_requested repr_container to_use) prs,
       merged + count_where (counts_as_merged repr_container to_use) prs).
Proof.
  induction prs as [|pr rest IH]; intros iterations requested merged r.
  - simpl. intros [= <-]. unfold total_reviewers, count_where. simpl.
    repeat (match goal with |- (_, _) = (_, _) => f_equal end); lia.
  - rewrite !count_where_cons, total_reviewers_cons.
    set (T := total_reviewers repr_container rest to_use) in *.
    set (C1 := count_where (counts_as_requested repr_container to_use) rest) in *.
    set (C2 := count_where (counts_as_merged repr_container to_use) rest) in *.
    simpl. rewrite group_reviews_matching.
    unfold counts_as_requested, counts_as_merged, distinct_reviewers.
    destruct (matching_reviews to_use pr) as [|review pr_reviews] eqn:Hm.
    + simpl. intros H%IH. rewrite H.
      repeat (match goal with |- (_, _) = (_, _) => f_equal end); lia.
    + rewrite bool_decide_eq_false_2 by done.
      destruct (set_of [] (get_reviewer <$> review :: pr_reviews))
        as [reviewers|e] eqn:Hset; [|done].
      apply set_of_length in Hset. rewrite omap_fmap_compose in Hset.
      rewrite <- Hset.
      cbn [mbind result_bind rbind negb andb].
      destruct (has_changes_requested (review :: pr_reviews));
        [|destruct (truthy (dict_get pr "merged_at"))];
        intros H%IH; rewrite H; cbn [negb andb];
        repeat (match goal with |- (_, _) = (_, _) => f_equal end); lia.
Qed.

Lemma py_sum_returns values :
  Forall (fun v => is_ok (py_int v)) values -> is_ok (py_sum values).
Proof.
  induction values as [|v rest IH]; intros H; simpl.
  - by eexists.
  - apply Forall_cons in H as [[n Hn] Hrest].
    destruct (IH Hrest) as [total Ht]. rewrite Hn, Ht. by eexists.
Qed.

Lemma matching_reviews_sub to_use pr :
  Forall (fun r => r ∈ to_use) (matching_reviews to_use pr).
Proof.
  apply Forall_forall. intros r Hr.
  by apply list_elem_of_In, filter_In in Hr as [Hr%list_elem_of_In _].
Qed.

Lemma review_stats_loop_returns to_use prs : forall acc,
  reviewers_hashable to_use ->
  is_ok (review_stats_loop repr_container (group_reviews repr_container to_use ∅) prs acc).
Proof.
  induction prs as [|pr rest IH]; intros [[iterations requested] merged] Hh.
  - by eexists.
  - simpl. rewrite group_reviews_matching.
    pose proof (matching_reviews_sub to_use pr) as Hsub.
    destruct (matching_reviews to_use pr) as [|review pr_reviews]; [by apply IH|].
    destruct (set_of_total (get_reviewer <$> review :: pr_reviews) []) as [rs Hrs].
    { apply Forall_fmap. eapply Forall_impl; [exact Hsub|].
      intros r Hr. by apply (proj1 (Forall_forall _ _) Hh). }
    rewrite Hrs. cbn [mbind result_bind rbind].
    destruct (has_changes_requested (review :: pr_reviews)); [by apply IH|].
    destruct (truthy (dict_get pr "merged_at")); by apply IH.
Qed.

(** What [calculate_pr_metrics] puts in the three review fields. *)
Lemma calculate_pr_metrics_fields prs reviews reviews_on_authored_prs metrics :
  calculate_pr_metrics repr_container true prs reviews reviews_on_authored_prs
    = Ok (Some metrics) ->
  let to_use := reviews_to_use reviews reviews_on_authored_prs in
  prs <> []
  /\ (to_use <> [] ->
      avg_review_iterations metrics
      = fraction (total_reviewers repr_container prs to_use) (length prs))
  /\ (to_use = [] -> avg_review_iterations metrics = 0%Q)
  /\ prs_with_requested_changes metrics
     = count_where (counts_as_requested repr_container to_use) prs
  /\ prs_merged_without_changes metrics
     = count_where (counts_as_merged repr_container to_use) prs.
Proof.
  unfold calculate_pr_metrics. cbn [negb orb].
  destruct prs as [|pr rest]; [done|].
  rewrite bool_decide_eq_false_2 by done.
  destruct (py_sum _) as [total_commits|e]; [|done].
  cbn [mbind result_bind rbind].
  destruct (reviews_to_use reviews reviews_on_authored_prs) as [|review to_use] eqn:Hu.
  - intros [= <-]. cbn [avg_review_iterations prs_with_requested_changes
                        prs_merged_without_changes].
    repeat split; try done; symmetry; by apply count_where_none.
  - destruct (review_stats_loop repr_container _ (pr :: rest) (0, 0, 0))
      as [[[iterations requested] merged]|e] eqn:E; [|done].
    apply review_stats_loop_counts in E. simplify_eq.
    cbn [mbind result_bind rbind]. intros [= <-].
    cbn [avg_review_iterations prs_with_requested_changes
         prs_merged_without_changes].
    repeat split; done.
Qed.
End PRMetricsFacts.

Section PRMetricsClaims.
Import Metrics.
Variable repr_container : val -> string.

Lemma calculate_pr_metrics_returns prs reviews reviews_on_authored_prs :
  prs <> [] -> commit_counts_numeric prs ->
  reviewers_hashable (reviews_to_use reviews reviews_on_authored_prs) ->
  exists metrics,
    calculate_pr_metrics repr_container true prs reviews reviews_on_authored_prs
    = Ok (Some metrics).
Proof.
  intros Hne Hnum Hhash. unfold calculate_pr_metrics. cbn [negb orb].
  rewrite bool_decide_eq_false_2 by done.
  destruct (py_sum_returns
              ((fun pr => dict_get_or pr "commits_count"
                            (dict_get_or pr "commits" (VInt 0))) <$> prs))
    as [total Htotal].
  { by apply Forall_fmap. }
  rewrite Htotal. cbn [mbind result_bind rbind].
  destruct (reviews_to_use reviews reviews_on_authored_prs) as [|review to_use] eqn:Hu.
  - by eexists.
  - destruct (review_stats_loop_returns repr_container (review :: to_use) prs (0, 0, 0) Hhash)
      as [[[iterations requested] merged] Hr].
    rewrite Hr. by eexists.
Qed.


End PRMetricsClaims.





(** ** Further properties of the fetchers, the aggregator and the merges *)

Section DedupKeys.
Import BaseFetcher.
Variable get_event_id : pydict -> val.

Lemma has_key_falsy k event :
  truthy (get_event_id event) = false -> has_key get_event_id k event = false.
Proof. unfold has_key. by intros ->. Qed.

Lemma has_key_truthy k k' event :
  truthy (get_event_id event) = true -> hash_key (get_event_id event) = Some k' ->
  has_key get_event_id k event = bool_decide (k' = k).
Proof.
  unfold has_key. intros -> ->. simpl.
  apply bool_decide_ext. split; congruence.
Qed.

Lemma dedup_loop_first events : forall seen unique,
  dedup_loop get_event_id seen events = Ok unique ->
  NoDup (event_keys get_event_id unique)
  /\ (forall k, k ∈ seen -> k ∉ event_keys get_event_id unique)
  /\ (forall k, k ∉ seen ->
        List.find (has_key get_event_id k) unique
        = List.find (has_key get_event_id k) events).
Proof.
  induction events as [|event rest IH]; intros seen unique; simpl.
  - intros [= <-]. split; [constructor|]. split; [set_solver|done].
  - destruct (truthy (get_event_id event)) eqn:Ht.
    + destruct (hash_key (get_event_id event)) as [k|] eqn:Hk; [|done].
      destruct (in_set k seen) eqn:Hin.
      * intros H. destruct (IH _ _ H) as (Hnd & Hseen & Hfind).
        apply in_set_true in Hin.
        split; [done|]. split; [done|]. intros k' Hk'.
        rewrite (has_key_truthy k' k) by done.
        rewrite bool_decide_eq_false_2 by (intros ->; done).
        by apply Hfind.
      * destruct (dedup_loop get_event_id (k :: seen) rest) as [u|] eqn:E; [|done].
        intros [= <-]. destruct (IH _ _ E) as (Hnd & Hseen & Hfind).
        apply in_set_false in Hin.
        unfold event_keys. simpl. rewrite Ht, Hk.
        fold (event_keys get_event_id u). split; [|split].
        -- constructor; [|done]. apply Hseen. left.
        -- intros k' Hk'. rewrite not_elem_of_cons. split.
           ++ intros ->. done.
           ++ apply Hseen. by right.
        -- intros k' Hk'. rewrite (has_key_truthy k' k) by done.
           destruct (decide (k = k')) as [->|Hne].
           ++ by rewrite bool_decide_eq_true_2.
           ++ rewrite bool_decide_eq_false_2 by done.
              apply Hfind. rewrite not_elem_of_cons. split; [congruence|done].
    + destruct (dedup_loop get_event_id seen rest) as [u|] eqn:E; [|done].
      intros [= <-]. destruct (IH _ _ E) as (Hnd & Hseen & Hfind).
      unfold event_keys. simpl. rewrite Ht. fold (event_keys get_event_id u).
      split; [done|]. split; [done|]. intros k' Hk'.
      rewrite !has_key_falsy by done. by apply Hfind.
Qed.

(** X1. The output of [_deduplicate] holds no two records with the same
    key; for every key the record it holds is the first record of the
    input with that key; and the records without a key are all kept. *)
Theorem deduplicate_first_seen_wins (events unique : list pydict) :
  _deduplicate get_event_id events = Ok unique ->
  NoDup (event_keys get_event_id unique)
  /\ (forall k, List.find (has_key get_event_id k) unique
                = List.find (has_key get_event_id k) events)
  /\ List.filter (keyless get_event_id) unique
     = List.filter (keyless get_event_id) events.
Proof.
  intros H. destruct (dedup_loop_first _ _ _ H) as (Hnd & _ & Hfind).
  split; [done|]. split; [|by eapply dedup_loop_keyless].
  intros k. apply Hfind. apply not_elem_of_nil.
Qed.
End DedupKeys.

Lemma deduplicate_first_seen_witness :
  let old : pydict := <["sha" := VStr "abc"]> (<["message" := VStr "first"]> ∅) in
  let new : pydict := <["sha" := VStr "abc"]> (<["message" := VStr "second"]> ∅) in
  List.find (BaseFetcher.has_key BaseFetcher._get_event_id (HStr "abc")) [old] = Some old.
Proof.
  intros old new.
  destruct (deduplicate_first_seen_wins BaseFetcher._get_event_id [old; new] [old])
    as (_ & H & _); [reflexivity|].
  rewrite (H (HStr "abc")). reflexivity.
Defined.

Section WeekFacts.
Import Date BaseFetcher DateUtils.

Lemma week_ranges_from_iter_weeks (n : nat) : forall end_date current,
  Z.to_nat (end_date - current + 1) = n ->
  week_ranges_from end_date current = iter_weeks_from end_date current.
Proof.
  induction n as [n IH] using lt_wf_ind. intros end_date current Hn.
  rewrite week_ranges_from_equation, iter_weeks_from_equation.
  destruct (Z.leb_spec current end_date); [|done].
  unfold add_days at 1 3.
  destruct (Z.ltb_spec 0 (current + 6)); [|done].
  destruct (Z.leb_spec (current + 6) MAXORDINAL); [|done]. simpl.
  unfold add_days at 1 2.
  destruct (Z.ltb_spec 0 (Z.min (current + 6) end_date + 1)); [|done].
  destruct (Z.leb_spec (Z.min (current + 6) end_date + 1) MAXORDINAL); [|done]. simpl.
  rewrite (IH (Z.to_nat (end_date - (Z.min (current + 6) end_date + 1) + 1)));
    [done|lia|done].
Qed.

Lemma days_of_app a b c :
  a <= b + 1 -> b <= c ->
  days_of a c = days_of a b ++ days_of (b + 1) c.
Proof.
  intros Hab Hbc. unfold days_of.
  replace (c - a + 1) with ((b - a + 1) + (c - (b + 1) + 1)) by lia.
  rewrite seqZ_app by lia. rewrite fmap_app. do 3 f_equal. lia.
Qed.

Lemma iter_weeks_from_partition (n : nat) : forall end_date current,
  Z.to_nat (end_date - current + 1) = n ->
  0 < current -> end_date + 6 <= MAXORDINAL ->
  exists weeks,
    iter_weeks_from end_date current = (weeks, None)
    /\ concat ((fun '(week_start, week_end) => days_of week_start week_end) <$> weeks)
       = days_of current end_date
    /\ Forall (fun '(week_start, week_end) =>
                 week_start <= week_end <= week_start + 6) weeks
    /\ (forall i week_start week_end,
          weeks !! i = Some (week_start, week_end) -> is_Some (weeks !! S i) ->
          week_end = week_start + 6).
Proof.
  induction n as [n IH] using lt_wf_ind. intros end_date current Hn Hpos Hmax.
  rewrite iter_weeks_from_equation.
  destruct (Z.leb_spec current end_date) as [Hle|Hgt].
  - rewrite add_days_in_range by lia. simpl.
    rewrite add_days_in_range by lia.
    set (week_end := Z.min (current + 6) end_date).
    destruct (IH (Z.to_nat (end_date - (week_end + 1) + 1))
                ltac:(subst week_end; lia) end_date (week_end + 1) eq_refl
                ltac:(subst week_end; lia) Hmax)
      as (weeks & -> & Hcat & Hall & Hfull).
    exists ((current, week_end) :: weeks). split; [done|]. split; [|split].
    + rewrite fmap_cons, concat_cons, Hcat. symmetry.
      apply days_of_app; subst week_end; lia.
    + constructor; [subst week_end; lia|done].
    + intros [|i] week_start week_end'; simpl.
      * intros [= <- <-] [[s e] Hnext].
        destruct (Z.leb_spec (current + 6) end_date) as [|Hshort];
          [subst week_end; lia|].
        exfalso. assert (Hnil : days_of (week_end + 1) end_date = [])
          by (apply days_of_nil; subst week_end; lia).
        rewrite Hnil in Hcat. destruct weeks as [|[s' e'] weeks']; [done|].
        simpl in Hcat. apply Forall_cons in Hall as [Hse _].
        rewrite days_of_cons in Hcat by lia. done.
      * apply Hfull.
  - exists []. split; [done|]. split; [|split].
    + simpl. symmetry. apply days_of_nil. lia.
    + constructor.
    + intros i ? ?. by rewrite lookup_nil.
Qed.

(** X2. Away from [date.max], the windows of [_iter_weeks] cut the range
    into consecutive pieces: their days, in order, are exactly the days
    from [start] to [end_date]; every window holds one to seven days, and
    every window but the last holds seven.  [get_week_ranges] of
    [utils/date_utils.py] yields the same windows. *)
Theorem iter_weeks_partitions_range (start end_date : date) :
  0 < start -> end_date + 6 <= MAXORDINAL ->
  exists weeks,
    _iter_weeks start end_date = (weeks, None)
    /\ get_week_ranges start end_date = (weeks, None)
    /\ concat ((fun '(week_start, week_end) => days_of week_start week_end) <$> weeks)
       = days_of start end_date
    /\ Forall (fun '(week_start, week_end) =>
                 week_start <= week_end <= week_start + 6) weeks
    /\ (forall i week_start week_end,
          weeks !! i = Some (week_start, week_end) -> is_Some (weeks !! S i) ->
          week_end = week_start + 6).
Proof.
  intros Hpos Hmax.
  destruct (iter_weeks_from_partition _ end_date start eq_refl Hpos Hmax)
    as (weeks & Hw & Hrest).
  exists weeks. split; [done|]. split; [|done].
  unfold get_week_ranges. by rewrite (week_ranges_from_iter_weeks _ _ _ eq_refl).
Qed.
End WeekFacts.

Lemma iter_weeks_partitions_witness :
  exists weeks,
    BaseFetcher._iter_weeks 738977 738990 = (weeks, None)
    /\ concat ((fun '(week_start, week_end) => BaseFetcher.days_of week_start week_end)
                 <$> weeks)
       = BaseFetcher.days_of 738977 738990.
Proof.
  destruct (iter_weeks_partitions_range 738977 738990) as (weeks & H1 & _ & H2 & _).
  - lia.
  - unfold Date.MAXORDINAL. lia.
  - exists weeks. auto.
Defined.

Section PeriodCalls.
Import Date BaseFetcher.

Lemma for_extend_ext {W A B} (f g : A -> M W (list B)) (xs : list A) :
  (forall x w, x ∈ xs -> f x w = g x w) ->
  forall w, for_extend f xs w = for_extend g xs w.
Proof.
  induction xs as [|x rest IH]; intros Hfg w; [done|].
  simpl. unfold bindM at 1 3. rewrite Hfg by left.
  destruct (g x w) as [[out|e] w1]; [|done].
  unfold bindM. rewrite IH; [done|]. intros y w' Hy. apply Hfg. by right.
Qed.

Lemma week_events_low {W} (fetch : date -> date -> M W (list pydict))
    (threshold : Z) :
  (forall range_start range_end w evs w1,
     fetch range_start range_end w = (Ok evs, w1) ->
     Z.of_nat (length evs) < threshold) ->
  forall week_start week_end w,
    week_events fetch threshold week_start week_end w = fetch week_start week_end w.
Proof.
  intros Hlow week_start week_end w. unfold week_events, bindM.
  destruct (fetch week_start week_end w) as [[evs|e] w1] eqn:E; [|done].
  apply Hlow in E. destruct (Z.leb_spec threshold (Z.of_nat (length evs))); [lia|done].
Qed.

Lemma fetch_period_low {W} (fetch : date -> date -> M W (list pydict))
    (get_event_id : pydict -> val) (threshold : Z) (start end_date : date) :
  (forall range_start range_end w evs w1,
     fetch range_start range_end w = (Ok evs, w1) ->
     Z.of_nat (length evs) < threshold) ->
  forall weeks, _iter_weeks start end_date = (weeks, None) ->
  forall w,
    fetch_period fetch get_event_id threshold start end_date w
    = bindM (fetch_each fetch weeks)
        (fun all_events => liftM (_deduplicate get_event_id all_events)) w.
Proof.
  intros Hlow weeks Hweeks w. unfold fetch_period. rewrite Hweeks.
  unfold bindM, fetch_each.
  rewrite (for_extend_ext _ (fun '(range_start, range_end) =>
                               fetch range_start range_end)); [done|].
  intros [week_start week_end] w' _. by apply week_events_low.
Qed.

Context {W : Type}.
Variable _fetch_range : date -> date -> M W (list pydict).
Variable get_event_id : pydict -> val.
Variable high_activity_threshold : Z.

(** X3. When no call returns as many records as the threshold, and away
    from [date.max], [fetch_period] is one [_fetch_range] call per window
    of [_iter_weeks], in order, followed by [_deduplicate]: a run that
    returns has made exactly those calls.  On an empty range it returns
    the empty list without any call. *)
Theorem fetch_period_one_call_per_week (start end_date : date) :
  (end_date < start ->
   forall w, fetch_period _fetch_range get_event_id high_activity_threshold
               start end_date w = (Ok [], w))
  /\ (0 < start -> end_date + 6 <= MAXORDINAL ->
      (forall range_start range_end w evs w1,
         _fetch_range range_start range_end w = (Ok evs, w1) ->
         Z.of_nat (length evs) < high_activity_threshold) ->
      exists weeks,
        _iter_weeks start end_date = (weeks, None)
        /\ (forall w,
              fetch_period _fetch_range get_event_id high_activity_threshold
                start end_date w
              = bindM (fetch_each _fetch_range weeks)
                  (fun all_events => liftM (_deduplicate get_event_id all_events)) w)
        /\ (forall w log evs w' log',
              fetch_period (logged_fetch_range _fetch_range) get_event_id
                high_activity_threshold start end_date (w, log)
              = (Ok evs, (w', log')) ->
              log' = log ++ weeks)).
Proof.
  split.
  - intros Hlt w. unfold fetch_period, _iter_weeks.
    rewrite iter_weeks_from_equation.
    by destruct (Z.leb_spec start end_date); [lia|].
  - intros Hpos Hmax Hlow.
    destruct (iter_weeks_from_shape _ end_date start eq_refl Hpos Hmax)
      as (weeks & Hweeks & _).
    exists weeks. split; [done|]. split.
    + intros w. by apply fetch_period_low.
    + intros w log evs w' log'.
      assert (Hlow' : forall range_start range_end w0 evs0 w1,
                logged_fetch_range _fetch_range range_start range_end w0 = (Ok evs0, w1) ->
                Z.of_nat (length evs0) < high_activity_threshold).
      { intros range_start range_end [w0 log0] evs0 [w1 log1].
        unfold logged_fetch_range.
        destruct (_fetch_range range_start range_end w0) as [r w2] eqn:E.
        intros H. simplify_eq. by eapply Hlow. }
      rewrite (fetch_period_low _ get_event_id _ _ _ Hlow' weeks Hweeks).
      unfold bindM.
      destruct (fetch_each _ weeks (w, log)) as [[all_events|e] [w2 log2]] eqn:E;
        [|done].
      apply fetch_each_logged in E. unfold liftM. intros H. by simplify_eq.
Qed.
End PeriodCalls.

Lemma fetch_period_one_call_witness :
  let fetch : Date.date -> Date.date -> M unit (list pydict) :=
    fun _ _ => liftM (Ok [∅]) in
  exists evs log,
    BaseFetcher.fetch_period (BaseFetcher.logged_fetch_range fetch)
      BaseFetcher._get_event_id 100 738977 738990 (tt, []) = (Ok evs, (tt, log))
    /\ log = [(738977, 738983); (738984, 738990)].
Proof.
  intros fetch.
  destruct (fetch_period_one_call_per_week fetch BaseFetcher._get_event_id 100
              738977 738990) as [_ H].
  destruct H as (weeks & Hweeks & _ & Hlog).
  - lia.
  - unfold Date.MAXORDINAL. lia.
  - intros ? ? ? ? ? [= <- _]. simpl. lia.
  - exists [∅; ∅], weeks.
    assert (weeks = [(738977, 738983); (738984, 738990)]) as ->.
    { vm_compute in Hweeks. congruence. }
    split; reflexivity.
Defined.

Section ReviewsPeriod.
Import Date BaseFetcher.
Context {W : Type}.
Variable repr_container : val -> string.
Variable high_activity_threshold : Z.

Lemma fetch_each_empty ranges (w : W) :
  fetch_each (ReviewsFetcher._fetch_range (W := W)) ranges w = (Ok [], w).
Proof.
  unfold fetch_each. induction ranges as [|[range_start range_end] rest IH]; [done|].
  simpl. unfold bindM at 1. unfold ReviewsFetcher._fetch_range at 1, liftM at 1.
  unfold bindM. by rewrite IH.
Qed.

(** X5. [ReviewsFetcher.fetch_period] finds nothing: away from
    [date.max] it returns the empty list for every range and every
    threshold, and leaves the host untouched. *)
Theorem reviews_fetch_period_is_empty (start end_date : date) (w : W) :
  0 < start -> end_date + 6 <= MAXORDINAL ->
  ReviewsFetcher.fetch_period repr_container high_activity_threshold
    start end_date w = (Ok [], w).
Proof.
  intros Hpos Hmax. unfold ReviewsFetcher.fetch_period, fetch_period.
  destruct (iter_weeks_from_shape _ end_date start eq_refl Hpos Hmax)
    as (weeks & Hweeks & _).
  unfold _iter_weeks. rewrite Hweeks.
  pose proof (iter_weeks_from_clear _ _ _ _ eq_refl Hpos Hweeks) as Hclear.
  unfold bindM.
  rewrite (for_extend_ext _ (fun '(range_start, range_end) =>
     ReviewsFetcher._fetch_range range_start range_end)).
  - fold (fetch_each (ReviewsFetcher._fetch_range (W := W)) weeks).
    by rewrite fetch_each_empty.
  - intros [week_start week_end] w' Hin.
    rewrite Forall_forall in Hclear. specialize (Hclear _ Hin). simpl in Hclear.
    unfold week_events, bindM.
    unfold ReviewsFetcher._fetch_range at 1 3, liftM at 1 3.
    change (Z.of_nat (length (@nil pydict))) with 0.
    destruct (Z.leb_spec high_activity_threshold 0); [|done].
    unfold _fetch_week_by_days.
    rewrite (days_loop_fetch_each _ _ _ _ _ eq_refl) by lia.
    apply fetch_each_empty.
Qed.
End ReviewsPeriod.

Lemma reviews_fetch_period_witness :
  ReviewsFetcher.fetch_period (fun _ => "") 0 738977 738990 tt = (Ok [], tt).
Proof.
  apply reviews_fetch_period_is_empty; [lia|unfold Date.MAXORDINAL; lia].
Defined.

Section ReviewRecords.
Import Date ReviewsFetcher.
Context {W : Type}.
Variable gh_api : string -> bool -> M W val.
Variable repr_container : val -> string.
Variable username : string.

Lemma for_extend_Forall {A B} (P : B -> Prop) (body : A -> M W (list B)) xs :
  (forall x w out w', x ∈ xs -> body x w = (Ok out, w') -> Forall P out) ->
  forall w outs w', for_extend body xs w = (Ok outs, w') -> Forall P outs.
Proof.
  induction xs as [|x rest IH]; intros Hbody w outs w'; simpl.
  - unfold liftM. intros [= <- _]. constructor.
  - unfold bindM at 1. destruct (body x w) as [[out|e] w1] eqn:E; [|done].
    unfold bindM at 1.
    destruct (for_extend body rest w1) as [[outs'|e] w2] eqn:E'; [|done].
    unfold liftM. intros [= <- _]. apply Forall_app. split.
    + eapply Hbody; [left|done].
    + eapply IH; [|done]. intros y ? ? ? Hy. apply Hbody. by right.
Qed.

Lemma for_extend_pure_Forall {A B} (P : B -> Prop) (body : A -> result (list B)) xs :
  (forall x out, x ∈ xs -> body x = Ok out -> Forall P out) ->
  forall outs, for_extend_pure body xs = Ok outs -> Forall P outs.
Proof.
  induction xs as [|x rest IH]; intros Hbody outs; simpl.
  - intros [= <-]. constructor.
  - destruct (body x) as [out|e] eqn:E; [|done]. simpl.
    destruct (for_extend_pure body rest) as [outs'|e] eqn:E'; [|done]. simpl.
    intros [= <-]. apply Forall_app. split.
    + eapply Hbody; [left|done].
    + eapply IH; [|done]. intros y ? Hy. apply Hbody. by right.
Qed.

Lemma py_len_nonneg v n : py_len v = Ok n -> 0 <= n.
Proof. destruct v; simpl; intros [= <-]; lia. Qed.

(** One kept review: the record built from it. *)
Lemma kept_review_record (mine : bool) prs pr start end_date review recs :
  pr ∈ prs ->
  let repo := dict_get_or pr "repository" (VStr "") in
  let pr_number := dict_get pr "number" in
  truthy repo = true -> truthy pr_number = true ->
  (if mine then keep_review username repo pr_number start end_date review
   else keep_review_by_other username repo pr_number start end_date review) = Ok recs ->
  Forall (fun record =>
            review_record prs start end_date record
            /\ val_eq_str (dict_get record "user") username = mine) recs.
Proof.
  intros Hpr repo pr_number Hrepo Hnum.
  assert (Hboth : forall test : val -> bool,
    (raw ← py_get review "submitted_at" (VStr "");
     submitted_at ← py_slice_to 10 raw;
     user ← py_get review "user" (VDict ∅);
     review_user ← py_get user "login" (VStr "");
     if negb (truthy submitted_at) then Ok []
     else
       in_range ← py_between (isoformat start) (isoformat end_date) submitted_at;
       if in_range && test review_user then
         full_date ← py_get review "submitted_at" VNone;
         id ← py_get review "id" VNone;
         state ← py_get review "state" (VStr "");
         body ← py_get review "body" (VStr "");
         body_length ← py_len (py_or body (VStr ""));
         Ok [ <["id" := id]>
             (<["pr_number" := pr_number]>
             (<["repository" := repo]>
             (<["state" := state]>
             (<["submitted_at" := full_date]>
             (<["body_length" := VInt body_length]>
             (<["user" := review_user]> ∅)))))) ]
       else Ok []) = Ok recs ->
    Forall (fun record =>
              review_record prs start end_date record
              /\ test (dict_get record "user") = true) recs).
  { intros test. destruct review as [| | | | |rv]; try done. simpl.
    unfold dict_get_or at 1 6.
    destruct (rv !! "submitted_at") as [raw|] eqn:Hraw; simpl.
    2:{ destruct (dict_get_or rv "user" (VDict ∅)); try done. simpl.
        intros [= <-]. constructor. }
    destruct raw as [| | |s|l|]; try done; simpl.
    2:{ destruct (dict_get_or rv "user" (VDict ∅)); try done. simpl.
        destruct (negb _); [intros [= <-]; constructor|done]. }
    destruct (dict_get_or rv "user" (VDict ∅)) as [| | | | |user]; try done. simpl.
    destruct (negb _); [intros [= <-]; constructor|].
    destruct (String.leb (isoformat start) (str_take 10 s)) eqn:Hlo; simpl;
      [|intros [= <-]; constructor].
    destruct (String.leb (str_take 10 s) (isoformat end_date)) eqn:Hhi; simpl;
      [|intros [= <-]; constructor].
    destruct (test _) eqn:Htest; [|intros [= <-]; constructor].
    destruct (py_len _) as [n|] eqn:Hlen; [|done]. simpl.
    intros [= <-]. constructor; [|constructor].
    split; [|unfold dict_get; by simplify_map_eq]. split; [|split; [|split]].
    - exists pr. unfold dict_get. by simplify_map_eq.
    - exists s. unfold dict_get, dict_get_or. by simplify_map_eq.
    - exists n. unfold dict_get. simplify_map_eq. split; [done|].
      by eapply py_len_nonneg.
    - rewrite !dom_insert_L, dom_empty_L. set_solver. }
  destruct mine.
  - intros H. specialize (Hboth (fun v => val_eq_str v username) H).
    eapply Forall_impl; [exact Hboth|]. simpl. tauto.
  - intros H. specialize (Hboth (fun v => negb (val_eq_str v username)) H).
    eapply Forall_impl; [exact Hboth|]. simpl.
    intros record [? Hn]. split; [done|]. by apply negb_true_iff.
Qed.

Lemma fetched_review_records (mine : bool) prs start end_date w out w' :
  (if mine then fetch_reviews_for_prs gh_api repr_container username prs start end_date w
   else fetch_reviews_on_authored_prs gh_api repr_container username prs
          start end_date w) = (Ok out, w') ->
  Forall (fun record =>
            review_record prs start end_date record
            /\ val_eq_str (dict_get record "user") username = mine) out.
Proof.
  intros H.
  assert (Hbody : forall pr w0 out0 w1, pr ∈ prs ->
    (let repo := dict_get_or pr "repository" (VStr "") in
     let pr_number := dict_get pr "number" in
     if negb (truthy repo) || negb (truthy pr_number) then liftM (Ok [])
     else
       bindM (_fetch_pr_reviews gh_api repr_container repo pr_number) (fun reviews =>
       liftM (for_extend_pure
                (fun review =>
                   if mine
                   then keep_review username repo pr_number start end_date review
                   else keep_review_by_other username repo pr_number
                          start end_date review) reviews))) w0 = (Ok out0, w1) ->
    Forall (fun record =>
              review_record prs start end_date record
              /\ val_eq_str (dict_get record "user") username = mine) out0).
  { intros pr w0 out0 w1 Hpr. simpl.
    destruct (truthy (dict_get_or pr "repository" (VStr ""))) eqn:Hrepo; simpl;
      [|unfold liftM; intros [= <- _]; constructor].
    destruct (truthy (dict_get pr "number")) eqn:Hnum; simpl;
      [|unfold liftM; intros [= <- _]; constructor].
    unfold bindM. destruct (_fetch_pr_reviews _ _ _ _ w0) as [[reviews|e] w2]; [|done].
    unfold liftM. intros [= Hout _]. revert Hout.
    apply for_extend_pure_Forall. intros review recs _.
    by apply kept_review_record. }
  destruct mine; (eapply for_extend_Forall; [|exact H]); intros pr w0 out0 w1 Hpr Hrun;
    by eapply Hbody.
Qed.

(** X8. Every record [fetch_reviews_for_prs] returns is by the user, and
    every record [fetch_reviews_on_authored_prs] returns is by somebody
    else; either way the record belongs to one of the given pull requests
    with a repository and a number, was submitted on a day within the
    period, carries a non-negative [body_length], and has the seven
    fields of a review. *)
Theorem fetched_reviews_by_user_in_period (prs : list pydict)
    (start end_date : date) (w : W) :
  (forall out w',
     fetch_reviews_for_prs gh_api repr_container username prs start end_date w
     = (Ok out, w') ->
     Forall (fun record =>
               review_record prs start end_date record
               /\ dict_get record "user" = VStr username) out)
  /\ (forall out w',
        fetch_reviews_on_authored_prs gh_api repr_container username prs
          start end_date w = (Ok out, w') ->
        Forall (fun record =>
                  review_record prs start end_date record
                  /\ dict_get record "user" <> VStr username) out).
Proof.
  split; intros out w' H.
  - eapply Forall_impl; [exact (fetched_review_records true _ _ _ _ _ _ H)|].
    simpl. intros record [? Hu]. split; [done|].
    destruct (dict_get record "user"); try done. simpl in Hu.
    apply String.eqb_eq in Hu. by subst.
  - eapply Forall_impl; [exact (fetched_review_records false _ _ _ _ _ _ H)|].
    simpl. intros record [? Hu]. split; [done|]. intros Heq.
    rewrite Heq in Hu. simpl in Hu. by rewrite String.eqb_refl in Hu.
Qed.
End ReviewRecords.

Section ReviewsDownstream.
Import Date ReviewsFetcher Aggregator Metrics.
Context {W : Type}.
Variable gh_api : string -> bool -> M W val.
Variable repr_container : val -> string.
Variable username : string.

Lemma review_record_kept prs start end_date repr record :
  review_record prs start end_date record ->
  kept_by_date start end_date repr record "submitted_at" = true.
Proof.
  intros (_ & (s & Hs & Hlo & Hhi) & _).
  assert (Hin : in_period start end_date (str_take 10 s) = true).
  { unfold in_period. by rewrite Hlo, Hhi. }
  assert (Hne : s <> "").
  { intros ->. by apply (in_period_nonempty start end_date repr) in Hin. }
  unfold kept_by_date, _extract_date, dict_get_or. unfold dict_get in Hs.
  destruct (record !! "submitted_at") as [v|]; simpl in Hs; [|done]. subst v. simpl.
  apply String.eqb_neq in Hne. rewrite Hne. simpl. rewrite Hin.
  apply in_period_nonempty with (repr_container := repr) in Hin.
  apply String.eqb_neq in Hin. by rewrite Hin.
Qed.

Lemma review_record_typed prs start end_date record :
  review_record prs start end_date record ->
  is_ok (body_length_of record ≫= py_positive).
Proof.
  intros (_ & _ & (n & Hn & _) & _). unfold body_length_of, dict_get_or.
  unfold dict_get in Hn. destruct (record !! "body_length") as [v|]; simpl in Hn; [|done].
  subst v. simpl. by eexists.
Qed.

End ReviewsDownstream.


Section OpenPRFacts.
Import Date PullRequestsFetcher Aggregator.
Context {W : Type}.
Variable gh_api : string -> bool -> M W val.
Variable quote : string -> string.
Variable repr_container : val -> string.
Variable username : string.

Lemma open_pr_record_flagged start end_date item w out w' :
  open_pr_record gh_api repr_container start end_date item w = (Ok out, w') ->
  Forall flagged_pr out.
Proof.
  unfold open_pr_record. destruct item as [| | | | |it]; try done.
  destruct (if truthy (dict_get_or it "repository_url" (VStr "")) then _ else _)
    as [repo_name|e]; [|done].
  destruct (truthy (VStr repo_name)) eqn:Hrepo; simpl; [|intros [= <- _]; constructor].
  destruct (truthy (dict_get it "number")) eqn:Hnum; simpl;
    [|intros [= <- _]; constructor].
  destruct (_check_pr_activity_in_period _ _ _ _ _ _ _) as [[] w1];
    [|intros [= <- _]; constructor].
  destruct (if truthy (dict_get_or it "pull_request" (VDict ∅)) then _ else _)
    as [merged_at|e]; [|done]. simpl.
  intros [= <- _]. constructor; [|constructor].
  unfold flagged_pr, dict_get. simplify_map_eq. split; [done|]. split; [|done].
  exists repo_name. split; [done|]. intros ->. done.
Qed.

(** X7. Every pull request [fetch_open_prs_with_activity] returns carries
    [has_period_activity = True], a non-empty repository name and a
    number.  So the aggregator's [_filter_prs_by_date] keeps all of them,
    whatever its period and whatever their [created_at], and their
    repositories are strings. *)
Theorem open_prs_with_activity_survive (start end_date : date) (w w' : W)
    (out : list pydict) :
  fetch_open_prs_with_activity gh_api quote repr_container username
    start end_date w = (Ok out, w') ->
  Forall (fun pr => dict_get pr "has_period_activity" = VBool true
                    /\ (exists repo, dict_get pr "repository" = VStr repo /\ repo <> "")
                    /\ truthy (dict_get pr "number") = true) out
  /\ (forall period_start period_end repr,
        _filter_prs_by_date period_start period_end repr out = out)
  /\ repositories_are_strings out.
Proof.
  unfold fetch_open_prs_with_activity.
  destruct (gh_api _ false w) as [[result|e] w1].
  2:{ intros [= <- _]. split; [constructor|]. split; [done|constructor]. }
  destruct (py_iter (items_of result)) as [items|e]; [|done].
  intros H.
  assert (Hall : Forall flagged_pr out).
  { eapply for_extend_Forall; [|exact H]. intros item w0 out0 w2 _.
    apply open_pr_record_flagged. }
  split; [done|]. split.
  - intros period_start period_end repr. clear H.
    induction Hall as [|pr rest (Hflag & _) _ IH]; [done|].
    simpl. rewrite Hflag. simpl. by rewrite IH.
  - eapply Forall_impl; [exact Hall|]. simpl.
    intros pr (_ & (repo & Hrepo & _) & _). exists repo.
    unfold dict_get in Hrepo. unfold dict_get_or.
    destruct (pr !! "repository"); simpl in *; [done|congruence].
Qed.
End OpenPRFacts.

Lemma open_prs_with_activity_witness :
  let gh_api : string -> bool -> M unit val := fun endpoint _ =>
    if String.prefix "/search" endpoint then
      liftM (Ok (VDict (<["items" :=
        VList [VDict (<["repository_url" := VStr "https://api.github.com/repos/o/r"]>
                     (<["number" := VInt 7]>
                     (<["created_at" := VStr "2023-01-01T00:00:00Z"]> ∅)))]]> ∅)))
    else
      liftM (Ok (VList [VDict (<["submitted_at" := VStr "2024-06-15T10:00:00Z"]> ∅)])) in
  let out : list pydict :=
    [ <["number" := VInt 7]>
     (<["title" := VStr ""]>
     (<["state" := VStr ""]>
     (<["repository" := VStr "o/r"]>
     (<["created_at" := VStr "2023-01-01T00:00:00Z"]>
     (<["updated_at" := VNone]>
     (<["merged_at" := VNone]>
     (<["closed_at" := VNone]>
     (<["url" := VStr ""]>
     (<["has_period_activity" := VBool true]> ∅))))))))) ] in
  PullRequestsFetcher.fetch_open_prs_with_activity gh_api (fun q => q) (fun _ => "")
    "octocat" 739038 739067 tt = (Ok out, tt)
  /\ forall period_start period_end repr,
       Aggregator._filter_prs_by_date period_start period_end repr out = out.
Proof.
  intros gh_api out.
  assert (H : PullRequestsFetcher.fetch_open_prs_with_activity gh_api (fun q => q)
                (fun _ => "") "octocat" 739038 739067 tt = (Ok out, tt))
    by (vm_compute; reflexivity).
  split; [exact H|].
  exact (proj1 (proj2 (open_prs_with_activity_survive gh_api (fun q => q)
                         (fun _ => "") "octocat" 739038 739067 tt tt out H))).
Defined.

Section FetchedRecords.
Import Date BaseFetcher.
Context {W : Type}.
Variable _fetch_range : date -> date -> M W (list pydict).
Variable get_event_id : pydict -> val.
Variable high_activity_threshold : Z.
Variable P : pydict -> Prop.
Hypothesis fetched : forall range_start range_end w out w',
  _fetch_range range_start range_end w = (Ok out, w') -> Forall P out.

Lemma days_loop_all (n : nat) : forall week_end w current out w',
  Z.to_nat (week_end - current + 1) = n ->
  days_loop _fetch_range week_end w current = (Ok out, w') -> Forall P out.
Proof.
  induction n as [n IH] using lt_wf_ind. intros week_end w current out w' Hn.
  rewrite days_loop_equation.
  destruct (Z.leb_spec current week_end); [|by intros [= <- _]].
  destruct (_fetch_range current current w) as [[day_events|e] w1] eqn:E; [|done].
  unfold add_days. destruct (_ && _) eqn:Hb; [|done].
  destruct (days_loop _ week_end w1 (current + 1)) as [[daily|e] w2] eqn:E'; [|done].
  intros [= <- _]. apply Forall_app. split; [by eapply fetched|].
  eapply (IH (Z.to_nat (week_end - (current + 1) + 1))); [lia|done..].
Qed.

Lemma fetch_period_all (start end_date : date) (w w' : W) (out : list pydict) :
  fetch_period _fetch_range get_event_id high_activity_threshold start end_date w
    = (Ok out, w') ->
  Forall P out /\ NoDup (event_keys get_event_id out).
Proof.
  unfold fetch_period. destruct (_iter_weeks start end_date) as [weeks stop].
  unfold bindM at 1.
  destruct (for_extend _ weeks w) as [[all_events|e] w1] eqn:E; [|done].
  destruct stop as [e|]; [done|]. unfold liftM.
  destruct (_deduplicate get_event_id all_events) as [unique|] eqn:Hd; [|done].
  intros [= <- _].
  assert (Hall : Forall P all_events).
  { eapply for_extend_Forall; [|exact E]. intros [week_start week_end] w0 out0 w2 _.
    unfold week_events, bindM.
    destruct (_fetch_range week_start week_end w0) as [[evs|e] w3] eqn:E0; [|done].
    destruct (_ <=? _).
    - unfold _fetch_week_by_days. by apply (days_loop_all _ _ _ _ _ _ eq_refl).
    - unfold liftM. intros [= <- _]. by eapply fetched. }
  split.
  - apply dedup_loop_sublist in Hd. rewrite Forall_forall in Hall |- *.
    intros x Hx. apply Hall. by eapply elem_of_sublist.
  - by destruct (dedup_loop_first _ _ _ _ Hd) as (? & _).
Qed.

End FetchedRecords.

Section FetchedOnly.
Import Date BaseFetcher.
Context {W : Type}.
Variable _fetch_range : date -> date -> M W (list pydict).
Variable get_event_id : pydict -> val.
Variable high_activity_threshold : Z.

(** X4. [fetch_period] invents no records: every record it returns
    is in the list [_fetch_range] returns for some range and some state of
    the host, and no two records it returns have the same key. *)
Theorem fetch_period_returns_fetched (start end_date : date) (w w' : W)
    (out : list pydict) :
  fetch_period _fetch_range get_event_id high_activity_threshold start end_date w
    = (Ok out, w') ->
  Forall (fun record =>
            exists range_start range_end w0 evs w1,
              _fetch_range range_start range_end w0 = (Ok evs, w1)
              /\ record ∈ evs) out
  /\ NoDup (event_keys get_event_id out).
Proof.
  apply fetch_period_all.
  intros range_start range_end w0 evs w1 Hcall. apply Forall_forall.
  intros record Hin. by exists range_start, range_end, w0, evs, w1.
Qed.
End FetchedOnly.

Lemma fetch_period_returns_fetched_witness :
  let fetch : Date.date -> Date.date -> M unit (list pydict) :=
    fun _ _ => liftM (Ok [<["sha" := VStr "abc"]> ∅]) in
  let out : list pydict := [<["sha" := VStr "abc"]> ∅] in
  BaseFetcher.fetch_period fetch BaseFetcher._get_event_id 100 738977 738990 tt
  = (Ok out, tt)
  /\ NoDup (BaseFetcher.event_keys BaseFetcher._get_event_id out).
Proof.
  intros fetch out.
  assert (H : BaseFetcher.fetch_period fetch BaseFetcher._get_event_id 100
                738977 738990 tt = (Ok out, tt)) by (vm_compute; reflexivity).
  split; [exact H|].
  exact (proj2 (fetch_period_returns_fetched fetch BaseFetcher._get_event_id 100
                  738977 738990 tt tt out H)).
Defined.

Section PRRecords.
Import Date PullRequestsFetcher Aggregator.
Context {W : Type}.
Variable gh_api : string -> bool -> M W val.
Variable quote : string -> string.
Variable username : string.

Lemma transform_item_record item pr :
  transform_item item = Ok pr -> pr_record pr.
Proof.
  unfold transform_item. destruct item as [| | | | |it]; try done.
  destruct (if truthy (dict_get_or it "repository_url" (VStr "")) then _ else _)
    as [repo_name|e]; [|done]. simpl.
  destruct (if truthy (dict_get_or it "pull_request" (VDict ∅)) then _ else _)
    as [merged_at|e]; [|done]. simpl.
  intros [= <-]. unfold pr_record, dict_get. split; [|split].
  - rewrite !dom_insert_L, dom_empty_L. set_solver.
  - exists repo_name. by simplify_map_eq.
  - simplify_map_eq. by intros ->.
Qed.

Lemma fetch_range_records start end_date w out w' :
  _fetch_range gh_api quote username start end_date w = (Ok out, w') ->
  Forall pr_record out.
Proof.
  unfold _fetch_range. destruct (gh_api _ false w) as [[result|e] w1].
  2:{ intros [= <- _]. constructor. }
  destruct (py_iter (items_of result)) as [items|e]; simpl; [|done].
  intros [= H _]. revert H. apply for_extend_pure_Forall.
  intros item recs _. destruct (transform_item item) as [pr|] eqn:E; [|done].
  simpl. intros [= <-]. constructor; [|constructor]. by eapply transform_item_record.
Qed.

End PRRecords.


Section CounterFacts.

Lemma counter_keys_cons k v n c : counter_keys ((k, v, n) :: c) = k :: counter_keys c.
Proof. done. Qed.

Lemma counter_incr_keys k v c :
  counter_keys (counter_incr k v c)
  = if decide (k ∈ counter_keys c) then counter_keys c else counter_keys c ++ [k].
Proof.
  induction c as [|[[k' v'] n] rest IH].
  - destruct (decide _) as [H|_]; [by apply elem_of_nil in H|done].
  - cbn [counter_incr]. rewrite counter_keys_cons.
    destruct (decide (k = k')) as [->|Hne].
    + rewrite counter_keys_cons. clear IH. destruct (decide _) as [_|H]; [done|].
      exfalso. apply H. left.
    + rewrite counter_keys_cons, IH.
      destruct (decide (k ∈ counter_keys rest)) as [Hin|Hnin];
        destruct (decide (k ∈ k' :: counter_keys rest)) as [Hin'|Hnin']; try done.
      * exfalso. apply Hnin'. by right.
      * apply elem_of_cons in Hin' as [?|?]; done.
Qed.

Lemma counter_incr_get k v c k' :
  counter_get k' (counter_incr k v c)
  = (counter_get k' c + if decide (k' = k) then 1 else 0)%nat.
Proof.
  induction c as [|[[k0 v0] n] rest IH]; simpl.
  - destruct (decide (k' = k)); simpl; lia.
  - destruct (decide (k = k0)) as [->|Hne]; simpl.
    + destruct (decide (k' = k0)); simpl; lia.
    + destruct (decide (k' = k0)) as [->|Hne'].
      * rewrite decide_False by done. lia.
      * apply IH.
Qed.

Lemma counter_incr_entries k v c entry :
  entry ∈ counter_incr k v c ->
  entry.1 = (k, v) \/ exists entry', entry' ∈ c /\ entry'.1 = entry.1.
Proof.
  induction c as [|[[k0 v0] n] rest IH]; simpl.
  - rewrite list_elem_of_singleton. intros ->. by left.
  - destruct (decide (k = k0)) as [->|Hne].
    + rewrite elem_of_cons. intros [->|Hin]; right.
      * exists (k0, v0, n). split; [left|done].
      * exists entry. split; [by right|done].
    + rewrite elem_of_cons. intros [->|Hin].
      * right. exists (k0, v0, n). split; [left|done].
      * destruct (IH Hin) as [?|(entry' & ? & ?)]; [by left|].
        right. exists entry'. split; [by right|done].
Qed.

Lemma counter_get_entry c entry :
  NoDup (counter_keys c) -> entry ∈ c -> counter_get entry.1.1 c = entry.2.
Proof.
  induction c as [|[[k0 v0] n] rest IH].
  - by intros _ ?%elem_of_nil.
  - rewrite counter_keys_cons. intros [Hnin Hnd]%NoDup_cons.
    rewrite elem_of_cons. intros [->|Hin]; simpl.
    + by rewrite decide_True.
    + rewrite decide_False; [by apply IH|].
      intros Heq. apply Hnin. rewrite <- Heq.
      unfold counter_keys. apply list_elem_of_fmap. by exists entry.
Qed.

Lemma first_occurrences_ext ks : forall seen seen',
  (forall k, k ∈ seen <-> k ∈ seen') ->
  first_occurrences seen ks = first_occurrences seen' ks.
Proof.
  induction ks as [|k rest IH]; intros seen seen' Hs; [done|]. simpl.
  assert (in_set k seen = in_set k seen') as ->.
  { unfold in_set. apply bool_decide_ext, Hs. }
  destruct (in_set k seen'); [by apply IH|].
  f_equal. apply IH. intros k0. rewrite !elem_of_cons, Hs. done.
Qed.

Lemma first_occurrences_spec ks : forall seen,
  NoDup (first_occurrences seen ks)
  /\ (forall k, k ∈ first_occurrences seen ks <-> k ∈ ks /\ k ∉ seen)
  /\ (forall pre k post, first_occurrences seen ks = pre ++ k :: post ->
        exists before after, ks = before ++ k :: after
          /\ forall k', k' ∈ before -> k' ∈ seen \/ k' ∈ pre).
Proof.
  induction ks as [|k0 rest IH]; intros seen; simpl.
  - split; [constructor|]. split; [set_solver|].
    intros pre k post H. by destruct pre.
  - destruct (in_set k0 seen) eqn:Hin.
    + apply in_set_true in Hin. destruct (IH seen) as (Hnd & Hel & Hord).
      split; [done|]. split.
      * intros k. rewrite Hel. set_solver.
      * intros pre k post H. destruct (Hord _ _ _ H) as (before & after & -> & Hb).
        exists (k0 :: before), after. split; [done|].
        intros k' [->|?]%elem_of_cons; [by left|by apply Hb].
    + apply in_set_false in Hin. destruct (IH (k0 :: seen)) as (Hnd & Hel & Hord).
      split; [|split].
      * constructor; [|done]. rewrite Hel. set_solver.
      * intros k. rewrite elem_of_cons, Hel.
        destruct (decide (k = k0)) as [->|]; set_solver.
      * intros [|k1 pre] k post H; simpl in H; injection H as <- H.
        -- exists [], rest. split; [done|]. by intros ? ?%elem_of_nil.
        -- destruct (Hord _ _ _ H) as (before & after & -> & Hb).
           exists (k0 :: before), after. split; [done|].
           intros k' [->|Hk']%elem_of_cons; [right; left|].
           destruct (Hb _ Hk') as [[->|?]%elem_of_cons|?];
             [right; left|by left|right; by right].
Qed.

(** What counting does to a counter. *)
Lemma count_all_spec kvs : forall c,
  NoDup (counter_keys c) ->
  NoDup (counter_keys (count_all kvs c))
  /\ counter_keys (count_all kvs c)
     = counter_keys c ++ first_occurrences (counter_keys c) kvs.*1
  /\ (forall k, counter_get k (count_all kvs c)
                = (counter_get k c + count_occ hkey_eq_dec kvs.*1 k)%nat)
  /\ (forall entry, entry ∈ count_all kvs c ->
        (exists entry', entry' ∈ c /\ entry'.1 = entry.1) \/ entry.1 ∈ kvs).
Proof.
  induction kvs as [|[k v] rest IH]; intros c Hnd.
  - split; [done|]. split; [by rewrite app_nil_r|].
    split; [intros; simpl; lia|]. intros; left; eauto.
  - assert (Hnd1 : NoDup (counter_keys (counter_incr k v c))).
    { rewrite counter_incr_keys. destruct (decide (k ∈ counter_keys c)); [done|].
      apply NoDup_app. split; [done|]. split; [|apply NoDup_singleton].
      intros x Hx ->%list_elem_of_singleton. done. }
    destruct (IH _ Hnd1) as (Hnd' & Hkeys & Hget & Hent).
    change (count_all ((k, v) :: rest) c) with (count_all rest (counter_incr k v c)).
    split; [done|]. split; [|split].
    + rewrite Hkeys, counter_incr_keys. rewrite fmap_cons. cbn [first_occurrences fst].
      destruct (decide (k ∈ counter_keys c)) as [Hin|Hnin].
      * apply in_set_true in Hin. by rewrite Hin.
      * pose proof Hnin as Hnin'. apply in_set_false in Hnin'. rewrite Hnin'.
        rewrite <- app_assoc. simpl. do 2 f_equal.
        apply first_occurrences_ext. intros k0. set_solver.
    + intros k0. rewrite Hget, counter_incr_get. rewrite fmap_cons. simpl.
      destruct (hkey_eq_dec k k0) as [->|Hne].
      * rewrite decide_True by done. lia.
      * rewrite decide_False by done. lia.
    + intros entry Hin. destruct (Hent _ Hin) as [(entry' & Hin' & Heq)|Hin'].
      * destruct (counter_incr_entries _ _ _ _ Hin') as [Hkv|(entry0 & ? & ?)].
        -- right. rewrite <- Heq, Hkv. left.
        -- left. exists entry0. split; [done|congruence].
      * right. by right.
Qed.

Lemma first_max_spec rest : forall best,
  let e := first_max best rest in
  (e = best /\ Forall (fun x => (x.2 <= best.2)%nat) rest)
  \/ (exists r1 r2, rest = r1 ++ e :: r2
        /\ Forall (fun x => (x.2 < e.2)%nat) (best :: r1)
        /\ Forall (fun x => (x.2 <= e.2)%nat) r2).
Proof.
  induction rest as [|entry rest IH]; intros best; simpl.
  - left. split; [done|constructor].
  - destruct (Nat.ltb_spec best.2 entry.2) as [Hlt|Hge].
    + right. destruct (IH entry) as [[He Hall]|(r1 & r2 & Hr & H1 & H2)].
      * exists [], rest. rewrite He. split; [done|]. split; [|done].
        constructor; [done|constructor].
      * exists (entry :: r1), r2. split; [by rewrite Hr at 1|]. split; [|done].
        apply Forall_cons in H1 as [? ?]. constructor; [lia|by constructor].
    + destruct (IH best) as [[He Hall]|(r1 & r2 & Hr & H1 & H2)].
      * left. split; [done|]. by constructor.
      * right. exists (entry :: r1), r2. split; [by rewrite Hr at 1|]. split; [|done].
        apply Forall_cons in H1 as [? ?]. constructor; [done|]. constructor; [lia|done].
Qed.

Lemma most_common_key_split c v :
  most_common_key c = Some v ->
  exists k n l1 l2, c = l1 ++ (k, v, n) :: l2
    /\ Forall (fun x => (x.2 < n)%nat) l1 /\ Forall (fun x => (x.2 <= n)%nat) l2.
Proof.
  destruct c as [|entry rest]; [done|]. simpl. intros [= <-].
  destruct (first_max_spec rest entry) as [[He Hall]|(r1 & r2 & Hr & H1 & H2)].
  - rewrite He. destruct entry as [[k v] n]. exists k, n, [], rest. done.
  - destruct (first_max entry rest) as [[k v] n]. simpl in *.
    exists k, n, (entry :: r1), r2. by rewrite Hr.
Qed.

(** The most common key of a counter filled from the empty one. *)
Lemma most_common_first_mode (vs : list val) :
  Forall (fun v => is_Some (hash_key v)) vs ->
  match most_common_key (count_all (omap keyed vs) []) with
  | None => vs = []
  | Some v => first_mode vs v
  end.
Proof.
  intros Hh.
  assert (Hkeys : (omap keyed vs).*1 = omap hash_key vs).
  { clear Hh. induction vs as [|v vs IH]; [done|]. cbn [omap list_omap].
    unfold keyed at 1. destruct (hash_key v); cbn; [f_equal|]; exact IH. }
  assert (Hvals : forall kv, kv ∈ omap keyed vs -> kv.2 ∈ vs /\ hash_key kv.2 = Some kv.1).
  { intros kv (v & Hv & Hkv)%list_elem_of_omap. unfold keyed in Hkv.
    destruct (hash_key v) eqn:E; simpl in Hkv; simplify_eq. simpl. done. }
  destruct (count_all_spec (omap keyed vs) [] (NoDup_nil_2))
    as (Hnd & Hck & Hget & Hent).
  rewrite Hkeys in Hck, Hget. simpl in Hck.
  destruct (most_common_key _) as [v|] eqn:Hm.
  - destruct (most_common_key_split _ _ Hm) as (k & n & l1 & l2 & Hc & H1 & H2).
    assert (Hin : (k, v, n) ∈ count_all (omap keyed vs) []).
    { rewrite Hc. apply elem_of_app. right. left. }
    destruct (Hent _ Hin) as [(? & ?%elem_of_nil & _)|Hkv]; [done|].
    destruct (Hvals _ Hkv) as [Hv Hk]. simpl in *.
    assert (Hn : forall entry, entry ∈ count_all (omap keyed vs) [] ->
                 entry.2 = count_occ hkey_eq_dec (omap hash_key vs) entry.1.1).
    { intros entry He. rewrite <- (counter_get_entry _ _ Hnd He). apply Hget. }
    pose proof (Hn _ Hin) as Hnk. simpl in Hnk.
    split; [done|]. exists k. split; [done|]. split.
    + intros k'. destruct (decide (k' ∈ omap hash_key vs)) as [Hk'|Hk'].
      * assert (Hk'' : k' ∈ counter_keys (count_all (omap keyed vs) [])).
        { rewrite Hck. apply first_occurrences_spec. split; [done|apply not_elem_of_nil]. }
        apply list_elem_of_fmap in Hk'' as (entry & -> & He).
        rewrite <- (Hn _ He), <- Hnk. rewrite Hc in He.
        apply elem_of_app in He as [He|He].
        -- rewrite Forall_forall in H1. specialize (H1 _ He). lia.
        -- apply elem_of_cons in He as [->|He]; [done|].
           rewrite Forall_forall in H2. by apply H2.
      * rewrite (proj1 (count_occ_not_In _ _ _)); [lia|].
        by rewrite <- list_elem_of_In.
    + intros k' Hne Hcount.
      assert (Hsplit : first_occurrences [] (omap hash_key vs)
                       = counter_keys l1 ++ k :: counter_keys l2).
      { rewrite <- Hck, Hc. unfold counter_keys. by rewrite fmap_app. }
      destruct (proj2 (proj2 (first_occurrences_spec _ _)) _ _ _ Hsplit)
        as (before & after & Hks & Hb).
      exists before, after. split; [done|]. intros Hk'.
      destruct (Hb _ Hk') as [?%elem_of_nil|Hpre]; [done|].
      apply list_elem_of_fmap in Hpre as (entry & -> & He).
      assert (He' : entry ∈ count_all (omap keyed vs) []).
      { rewrite Hc. apply elem_of_app. by left. }
      rewrite Forall_forall in H1. specialize (H1 _ He).
      rewrite (Hn _ He') in H1. lia.
  - destruct (count_all (omap keyed vs) []) as [|? ?] eqn:Hc; [|done].
    destruct vs as [|v vs]; [done|]. exfalso.
    apply Forall_cons in Hh as [[k Hk] _].
    assert (Hin : k ∈ counter_keys []).
    { rewrite Hck. apply first_occurrences_spec. split; [|apply not_elem_of_nil].
      simpl. rewrite Hk. left. }
    by apply elem_of_nil in Hin.
Qed.
End CounterFacts.

Section MostActiveFacts.
Import Aggregator.

Lemma count_all_app kvs1 kvs2 c :
  count_all (kvs1 ++ kvs2) c = count_all kvs2 (count_all kvs1 c).
Proof. unfold count_all. apply foldl_app. Qed.

Lemma omap_keyed_hashable vs :
  Forall (fun v => is_Some (hash_key v)) vs -> (omap keyed vs).*2 = vs.
Proof.
  induction 1 as [|v vs [k Hk] _ IH]; [done|].
  cbn [omap list_omap]. unfold keyed at 1. rewrite Hk. cbn. by f_equal.
Qed.

Lemma count_days_counts field records : forall days days',
  count_days field records days = Ok days' ->
  days' = count_all (omap keyed (date_strs field records)) days
  /\ Forall (fun v => is_Some (hash_key v)) (date_strs field records).
Proof.
  induction records as [|record rest IH]; intros days days'; simpl.
  - intros [= <-]. split; [done|constructor].
  - unfold date_strs. cbn [omap list_omap].
    destruct (py_slice_to 10 _) as [date_str|e]; [|done]. simpl.
    destruct (truthy date_str); [|apply IH].
    destruct (hash_key date_str) as [k|] eqn:Hk; [|done].
    intros H. destruct (IH _ _ H) as [-> Hall].
    cbn [omap list_omap]. unfold keyed at 2. rewrite Hk. split; [done|].
    constructor; [by eexists|done].
Qed.

Lemma count_days_total field records : forall days,
  Forall (date_is_string field) records -> is_ok (count_days field records days).
Proof.
  induction records as [|record rest IH]; intros days Hs; simpl; [by eexists|].
  apply Forall_cons in Hs as [Hr Hrest]. unfold py_or.
  destruct Hr as [Hf|[s Hs]].
  - rewrite Hf. simpl. by apply IH.
  - rewrite Hs. destruct (truthy (VStr s)); simpl.
    + destruct (negb _); by apply IH.
    + by apply IH.
Qed.

Lemma count_repos_counts records : forall repos repos',
  count_repos records repos = Ok repos' ->
  repos' = count_all (omap keyed (repos_of records)) repos
  /\ Forall (fun v => is_Some (hash_key v)) (repos_of records).
Proof.
  induction records as [|record rest IH]; intros repos repos'; simpl.
  - intros [= <-]. split; [done|constructor].
  - unfold repos_of. cbn [fmap list_fmap List.filter].
    destruct (truthy _); [|apply IH].
    destruct (hash_key _) as [k|] eqn:Hk; [|done].
    intros H. destruct (IH _ _ H) as [-> Hall].
    cbn [omap list_omap]. unfold keyed at 2. rewrite Hk. split; [done|].
    constructor; [by eexists|done].
Qed.

Lemma count_repos_total records : forall repos,
  repositories_are_strings records -> is_ok (count_repos records repos).
Proof.
  induction records as [|record rest IH]; intros repos Hs; simpl; [by eexists|].
  apply Forall_cons in Hs as [[s Hr] Hrest]. rewrite Hr.
  destruct (truthy (VStr s)); simpl; by apply IH.
Qed.

(** X15. [_get_most_active_day] returns the most frequent of the dates it
    counts, and among equally frequent dates the one met first, going
    through commits, pull requests, issues, reviews and comments in that
    order; it returns the empty string exactly when nothing was counted.
    It returns whenever every date field read is a string or falsy. *)
Theorem most_active_day_is_first_mode (data : AggregatedData) :
  (dates_are_strings data -> is_ok (_get_most_active_day data))
  /\ (forall v, _get_most_active_day data = Ok v ->
        (counted_days data = [] /\ v = VStr "")
        \/ first_mode (counted_days data) v).
Proof.
  split.
  - intros (Hc & Hp & Hi & Hr & Hm). unfold _get_most_active_day.
    destruct (count_days_total "date" _ [] Hc) as [d1 ->]. simpl.
    destruct (count_days_total "created_at" _ d1 Hp) as [d2 ->]. simpl.
    destruct (count_days_total "created_at" _ d2 Hi) as [d3 ->]. simpl.
    destruct (count_days_total "submitted_at" _ d3 Hr) as [d4 ->]. simpl.
    destruct (count_days_total "created_at" _ d4 Hm) as [d5 ->]. simpl.
    by eexists.
  - intros v. unfold _get_most_active_day.
    destruct (count_days "date" _ _) as [d1|] eqn:E1; [|done]. simpl.
    destruct (count_days "created_at" (pull_requests data) _) as [d2|] eqn:E2; [|done].
    simpl.
    destruct (count_days "created_at" (issues data) _) as [d3|] eqn:E3; [|done]. simpl.
    destruct (count_days "submitted_at" _ _) as [d4|] eqn:E4; [|done]. simpl.
    destruct (count_days "created_at" (comments data) _) as [d5|] eqn:E5; [|done].
    simpl. intros [= <-].
    apply count_days_counts in E1 as [-> H1], E2 as [-> H2], E3 as [-> H3],
      E4 as [-> H4], E5 as [-> H5].
    match goal with |- context [most_common_key ?c] =>
      replace c with (count_all (omap keyed (counted_days data)) [])
        by (unfold counted_days; by rewrite !omap_app, !count_all_app) end.
    assert (Hall : Forall (fun v => is_Some (hash_key v)) (counted_days data)).
    { unfold counted_days. rewrite !Forall_app. done. }
    pose proof (most_common_first_mode _ Hall) as Hmode.
    destruct (most_common_key _) as [v|]; simpl; [by right|by left].
Qed.

(** X16. [_get_most_active_repo] returns the most frequent of the
    repositories of commits, pull requests and issues, counted in that
    order, and among equally frequent ones the one met first; it returns
    the empty string exactly when no record has a repository.  It returns
    whenever every repository is a string. *)
Theorem most_active_repo_is_first_mode (data : AggregatedData) :
  (repositories_are_strings (commits data) ->
   repositories_are_strings (pull_requests data) ->
   repositories_are_strings (issues data) ->
   is_ok (_get_most_active_repo data))
  /\ (forall v, _get_most_active_repo data = Ok v ->
        (counted_repos data = [] /\ v = VStr "")
        \/ first_mode (counted_repos data) v).
Proof.
  split.
  - intros Hc Hp Hi. unfold _get_most_active_repo.
    destruct (count_repos_total _ [] Hc) as [r1 ->]. simpl.
    destruct (count_repos_total _ r1 Hp) as [r2 ->]. simpl.
    destruct (count_repos_total _ r2 Hi) as [r3 ->]. simpl.
    by eexists.
  - intros v. unfold _get_most_active_repo.
    destruct (count_repos (commits data) _) as [r1|] eqn:E1; [|done]. simpl.
    destruct (count_repos (pull_requests data) _) as [r2|] eqn:E2; [|done]. simpl.
    destruct (count_repos (issues data) _) as [r3|] eqn:E3; [|done]. simpl.
    intros [= <-].
    apply count_repos_counts in E1 as [-> H1], E2 as [-> H2], E3 as [-> H3].
    match goal with |- context [most_common_key ?c] =>
      replace c with (count_all (omap keyed (counted_repos data)) [])
        by (unfold counted_repos; by rewrite !omap_app, !count_all_app) end.
    assert (Hall : Forall (fun v => is_Some (hash_key v)) (counted_repos data)).
    { unfold counted_repos. rewrite !Forall_app. done. }
    pose proof (most_common_first_mode _ Hall) as Hmode.
    destruct (most_common_key _) as [v|]; simpl; [by right|by left].
Qed.
End MostActiveFacts.

Example most_active_day_tie_ex :
  let on (d : string) : pydict := <["date" := VStr d]> ∅ in
  Aggregator._get_most_active_day
    {| Aggregator.commits := [on "2024-05-02T10:00:00Z"; on "2024-05-01T09:00:00Z";
                              on "2024-05-01T11:00:00Z"; on "2024-05-02T12:00:00Z"];
       Aggregator.pull_requests := []; Aggregator.issues := [];
       Aggregator.reviews := []; Aggregator.comments := [];
       Aggregator.start_date := None; Aggregator.end_date := None;
       Aggregator.username := ""; Aggregator.repositories := [] |}
  = Ok (VStr "2024-05-02").
Proof. reflexivity. Qed.

Section TallyFacts.
Import Metrics ReviewCounts.

Lemma counter_total_cons k v n c :
  counter_total ((k, v, n) :: c) = Z.of_nat n + counter_total c.
Proof. done. Qed.

Lemma counter_incr_total k v c :
  counter_total (counter_incr k v c) = counter_total c + 1.
Proof.
  induction c as [|[[k' v'] n] rest IH]; [done|]. cbn [counter_incr].
  destruct (decide (k = k')); rewrite !counter_total_cons; [|rewrite IH]; lia.
Qed.

Lemma count_all_total kvs : forall c,
  counter_total (count_all kvs c) = counter_total c + Z.of_nat (length kvs).
Proof.
  induction kvs as [|[k v] rest IH]; intros c; simpl; [lia|].
  change (foldl _ _ rest) with (count_all rest (counter_incr k v c)).
  rewrite IH, counter_incr_total. lia.
Qed.

Lemma omap_keyed_length vs :
  Forall (fun v => is_Some (hash_key v)) vs -> length (omap keyed vs) = length vs.
Proof.
  intros H. rewrite <- (omap_keyed_hashable vs H) at 2. by rewrite length_fmap.
Qed.

Lemma omap_keyed_keys vs : (omap keyed vs).*1 = omap hash_key vs.
Proof.
  induction vs as [|v vs IH]; [done|]. cbn [omap list_omap].
  unfold keyed at 1. destruct (hash_key v); cbn; [f_equal|]; exact IH.
Qed.

Lemma reaction_loop_counts reactions : forall counts total r,
  reaction_loop reactions counts total = Ok r ->
  r = (count_all (omap keyed (contents reactions)) counts,
       total + Z.of_nat (length reactions))
  /\ Forall (fun v => is_Some (hash_key v)) (contents reactions).
Proof.
  induction reactions as [|reaction rest IH]; intros counts total r; simpl.
  - intros [= <-]. split; [f_equal; lia|constructor].
  - destruct (hash_key _) as [k|] eqn:Hk; [|done].
    intros H. destruct (IH _ _ _ H) as [-> Hall].
    unfold contents. cbn [fmap list_fmap omap list_omap]. unfold keyed at 2.
    rewrite Hk. split; [cbn; f_equal; lia|].
    constructor; [by eexists|done].
Qed.

Lemma reaction_loop_returns reactions : forall counts total,
  Forall (fun v => is_Some (hash_key v)) (contents reactions) ->
  is_ok (reaction_loop reactions counts total).
Proof.
  induction reactions as [|reaction rest IH]; intros counts total H; simpl.
  - by eexists.
  - apply Forall_cons in H as [[k Hk] Hrest]. rewrite Hk. by apply IH.
Qed.

(** X17. [calculate_reaction_breakdown] returns [None] exactly when the
    option is off or there are no reactions.  Otherwise, provided every
    [content] can be hashed, it returns a breakdown whose [total] is the
    number of reactions and the sum of its counts, and whose count for
    each content is the number of reactions with it, a reaction without
    [content] counting as ["unknown"]. *)
Theorem reaction_breakdown_tallies (config_reaction_breakdown : bool)
    (reactions : list pydict) :
  (calculate_reaction_breakdown config_reaction_breakdown reactions = Ok None
   <-> config_reaction_breakdown = false \/ reactions = [])
  /\ (config_reaction_breakdown = true -> reactions <> [] ->
      Forall (fun v => is_Some (hash_key v)) (contents reactions) ->
      exists breakdown,
        calculate_reaction_breakdown config_reaction_breakdown reactions
        = Ok (Some breakdown))
  /\ (forall breakdown,
        calculate_reaction_breakdown config_reaction_breakdown reactions
        = Ok (Some breakdown) ->
        total breakdown = Z.of_nat (length reactions)
        /\ counter_total (counts breakdown) = total breakdown
        /\ NoDup (counter_keys (counts breakdown))
        /\ forall k, counter_get k (counts breakdown)
                     = count_occ hkey_eq_dec (omap hash_key (contents reactions)) k).
Proof.
  unfold calculate_reaction_breakdown. split; [|split].
  - destruct config_reaction_breakdown; simpl.
    + destruct (decide (reactions = [])) as [->|Hne]; [by split; auto|].
      rewrite bool_decide_eq_false_2 by done.
      destruct (reaction_loop _ _ _) as [[? ?]|]; simpl; split; try done.
      all: intros [?|?]; done.
    + split; auto.
  - intros -> Hne Hh. simpl. rewrite bool_decide_eq_false_2 by done.
    destruct (reaction_loop_returns reactions [] 0 Hh) as [[c t] ->]. simpl.
    by eexists.
  - intros breakdown.
    destruct (negb _ || _); [done|].
    destruct (reaction_loop _ _ _) as [[c t]|] eqn:E; [|done]. simpl.
    intros [= <-]. simpl.
    apply reaction_loop_counts in E as [[= -> ->] Hh].
    destruct (count_all_spec (omap keyed (contents reactions)) [] (NoDup_nil_2))
      as (Hnd & _ & Hget & _).
    rewrite omap_keyed_keys in Hget.
    split; [lia|]. split; [|split; [done|]].
    + rewrite count_all_total, omap_keyed_length by done.
      unfold contents. rewrite length_fmap. unfold counter_total. simpl. lia.
    + intros k. by rewrite Hget.
Qed.

Lemma count_states_counts reviews : forall counts r,
  count_states reviews counts = Ok r ->
  r = count_all (omap keyed (states reviews)) counts
  /\ Forall (fun v => is_Some (hash_key v)) (states reviews).
Proof.
  induction reviews as [|review rest IH]; intros counts r; simpl.
  - intros [= <-]. split; [done|constructor].
  - destruct (hash_key _) as [k|] eqn:Hk; [|done].
    intros H. destruct (IH _ _ H) as [-> Hall].
    unfold states. cbn [fmap list_fmap omap list_omap]. unfold keyed at 2.
    rewrite Hk. split; [done|]. constructor; [by eexists|done].
Qed.

Lemma count_states_returns reviews : forall counts,
  Forall (fun v => is_Some (hash_key v)) (states reviews) ->
  is_ok (count_states reviews counts).
Proof.
  induction reviews as [|review rest IH]; intros counts H; simpl.
  - by eexists.
  - apply Forall_cons in H as [[k Hk] Hrest]. rewrite Hk. by apply IH.
Qed.

Lemma count_occ_omap {A} (f : A -> option hkey) (l : list A) (k : hkey) :
  count_occ hkey_eq_dec (omap f l) k
  = length (List.filter (fun x => bool_decide (f x = Some k)) l).
Proof.
  induction l as [|x l IH]; [done|]. cbn [omap list_omap List.filter].
  destruct (f x) as [k'|]; simpl.
  - destruct (hkey_eq_dec k' k) as [->|Hne].
    + rewrite bool_decide_eq_true_2 by done. simpl. by rewrite IH.
    + rewrite bool_decide_eq_false_2 by congruence. done.
  - exact IH.
Qed.

Lemma count_occ_state state reviews :
  state <> "UNKNOWN" -> state <> "" ->
  Z.of_nat (count_occ hkey_eq_dec (omap hash_key (states reviews)) (HStr state))
  = count_where (has_state state) reviews.
Proof.
  intros Hu He. unfold count_where, states. rewrite omap_fmap_compose, count_occ_omap.
  do 2 f_equal. apply List.filter_ext. intros review. unfold has_state, dict_get_or.
  destruct (review !! "state") as [v|]; simpl.
  - destruct v as [|b|z|s|l|d]; simpl; try done.
    destruct (String.eqb_spec s state) as [->|Hne].
    + by rewrite bool_decide_eq_true_2.
    + rewrite bool_decide_eq_false_2; [done|]. congruence.
  - rewrite bool_decide_eq_false_2 by congruence. by destruct state.
Qed.

(** X10. [count_by_state] returns, for every state, the number of reviews
    in that state, a review without [state] counting as ["UNKNOWN"]; the
    counts add up to the number of reviews.  Its counts for ["APPROVED"]
    and ["CHANGES_REQUESTED"] are the [approvals] and [changes_requested] of
    [calculate_review_metrics] on the same reviews. *)
Theorem count_by_state_tallies (reviews : list pydict) :
  (Forall (fun v => is_Some (hash_key v)) (states reviews) ->
   is_ok (count_by_state reviews))
  /\ (forall counts, count_by_state reviews = Ok counts ->
        counter_total counts = Z.of_nat (length reviews)
        /\ NoDup (counter_keys counts)
        /\ (forall k, counter_get k counts
                      = count_occ hkey_eq_dec (omap hash_key (states reviews)) k)
        /\ (forall metrics,
              calculate_review_metrics true reviews = Ok (Some metrics) ->
              approvals metrics = Z.of_nat (counter_get (HStr "APPROVED") counts)
              /\ changes_requested metrics
                 = Z.of_nat (counter_get (HStr "CHANGES_REQUESTED") counts))).
Proof.
  unfold count_by_state. split; [apply count_states_returns|].
  intros counts [-> Hh]%count_states_counts.
  destruct (count_all_spec (omap keyed (states reviews)) [] (NoDup_nil_2))
    as (Hnd & _ & Hget & _).
  rewrite omap_keyed_keys in Hget.
  split; [|split; [done|split]].
  - rewrite count_all_total, omap_keyed_length by done.
    unfold states. rewrite length_fmap. unfold counter_total. simpl. lia.
  - intros k. by rewrite Hget.
  - intros metrics. unfold calculate_review_metrics.
    destruct (negb true || _); [done|].
    destruct (review_counts_loop _ _) as [[[a r] c]|] eqn:E; [|done]. simpl.
    intros [= <-]. simpl. apply review_counts_loop_counts in E. simplify_eq.
    rewrite !Hget. simpl. by rewrite !count_occ_state.
Qed.
End TallyFacts.

Example count_by_state_ex :
  ReviewCounts.count_by_state
    [<["state" := VStr "APPROVED"]> ∅; ∅; <["state" := VStr "APPROVED"]> ∅]
  = Ok [(HStr "APPROVED", VStr "APPROVED", 2%nat); (HStr "UNKNOWN", VStr "UNKNOWN", 1%nat)].
Proof. reflexivity. Qed.

Section CollectFacts.
Import Aggregator.

Lemma set_of_str_elems vs : forall seen,
  Forall (fun v => exists s, v = VStr s) vs ->
  exists names,
    set_of seen vs = Ok (str_elem <$> names)
    /\ NoDup names
    /\ forall s, s ∈ names <-> VStr s ∈ vs /\ HStr s ∉ seen.
Proof.
  induction vs as [|v rest IH]; intros seen Hs.
  - exists []. split; [done|]. split; [constructor|]. set_solver.
  - apply Forall_cons in Hs as [[s ->] Hrest]. simpl.
    destruct (in_set (HStr s) seen) eqn:Hin.
    + apply in_set_true in Hin.
      destruct (IH seen Hrest) as (names & -> & Hnd & Hel).
      exists names. split; [done|]. split; [done|].
      intros s'. rewrite Hel, elem_of_cons. split; [tauto|].
      intros [[[= ->]|?] ?]; done.
    + apply in_set_false in Hin.
      destruct (IH (HStr s :: seen) Hrest) as (names & -> & Hnd & Hel).
      exists (s :: names). split; [done|]. split.
      * constructor; [|done]. rewrite Hel. set_solver.
      * intros s'. rewrite !elem_of_cons, Hel, not_elem_of_cons.
        destruct (decide (s' = s)) as [->|Hne]; [tauto|].
        split.
        -- intros [?|[? [? ?]]]; [done|tauto].
        -- intros [[[= ?]|?] ?]; [done|]. right. split; [done|]. split; [congruence|done].
Qed.

#[local] Instance elem_le_total : Total elem_le.
Proof.
  intros [a ?] [b ?]. unfold elem_le. simpl.
  destruct a as [|x|s], b as [|y|t]; simpl; auto.
  - destruct (Z.leb_spec x y); [by left|right]. apply Z.leb_le. lia.
  - apply String.leb_total.
Qed.

Lemma sorted_str_elems names :
  Sorted elem_le (str_elem <$> names) ->
  Sorted (fun a b => String.leb a b = true) names.
Proof.
  induction names as [|s names IH]; [constructor|].
  rewrite fmap_cons. intros [Hs Hhd]%Sorted_inv. constructor; [by apply IH|].
  destruct names as [|t names]; [constructor|].
  rewrite fmap_cons in Hhd. apply HdRel_inv in Hhd. by constructor.
Qed.

Lemma str_elems_back elems names :
  elems ≡ₚ str_elem <$> names ->
  exists names', elems = str_elem <$> names' /\ names' ≡ₚ names.
Proof.
  intros Hp.
  exists ((fun e : hkey * val => match e.1 with HStr s => s | _ => "" end) <$> elems).
  split.
  - rewrite <- list_fmap_compose. rewrite <- (list_fmap_id elems) at 1.
    apply Forall_fmap_ext, Forall_forall. intros e He. rewrite Hp in He.
    apply list_elem_of_fmap in He as (s & -> & _). done.
  - rewrite Hp, <- list_fmap_compose. by rewrite list_fmap_id.
Qed.

(** X13. When every repository is a string, [_collect_repositories]
    returns the non-empty repository names of the commits, pull requests,
    issues and reviews it is given, each once, in ascending order. *)
Theorem collect_repositories_sorted_unique
    (commits pull_requests issues reviews : list pydict) :
  repositories_are_strings commits -> repositories_are_strings pull_requests ->
  repositories_are_strings issues -> repositories_are_strings reviews ->
  exists names,
    _collect_repositories commits pull_requests issues reviews = Ok (VStr <$> names)
    /\ Sorted (fun a b => String.leb a b = true) names
    /\ NoDup names
    /\ forall s, s ∈ names <->
         s <> "" /\ exists record,
           record ∈ commits ++ pull_requests ++ issues ++ reviews
           /\ dict_get_or record "repository" (VStr "") = VStr s.
Proof.
  intros Hc Hp Hi Hr. unfold _collect_repositories.
  set (vs := repos_of commits ++ repos_of pull_requests
               ++ repos_of issues ++ repos_of reviews).
  assert (Hvs : Forall (fun v => exists s, v = VStr s) vs).
  { unfold vs. rewrite !Forall_app. auto using repos_of_strings. }
  destruct (set_of_str_elems vs [] Hvs) as (names & -> & Hnd & Hel). simpl.
  unfold sorted_set.
  assert (forallb (fun e : hkey * val => is_HStr e.1) (str_elem <$> names) = true) as ->.
  { apply forallb_forall. intros e He. apply list_elem_of_In in He.
    apply list_elem_of_fmap in He as (s & -> & _). done. }
  rewrite !orb_true_r.
  destruct (str_elems_back _ _ (merge_sort_Permutation elem_le (str_elem <$> names)))
    as (names' & Hsorted & Hperm).
  exists names'. split; [|split; [|split]].
  - rewrite Hsorted, <- list_fmap_compose. done.
  - apply sorted_str_elems. rewrite <- Hsorted. apply Sorted_merge_sort, _.
  - by rewrite Hperm.
  - intros s. rewrite Hperm, Hel. unfold vs, repos_of.
    rewrite <- !List.filter_app, <- !fmap_app.
    split.
    + intros [Hin _]. apply list_elem_of_In, filter_In in Hin as [Hin Ht].
      apply list_elem_of_In, list_elem_of_fmap in Hin as (record & Hrec & Hin).
      split; [by intros ->|]. by exists record.
    + intros [Hne (record & Hin & Hrec)]. split; [|apply not_elem_of_nil].
      apply list_elem_of_In, filter_In. split.
      * apply list_elem_of_In, list_elem_of_fmap. by exists record.
      * simpl. by destruct s.
Qed.
End CollectFacts.

Lemma collect_repositories_sorted_witness :
  let at_repo (s : string) : pydict := <["repository" := VStr s]> ∅ in
  exists names,
    Aggregator._collect_repositories [at_repo "b/x"; at_repo "a/y"] [at_repo "b/x"] [∅] []
    = Ok (VStr <$> names)
    /\ NoDup names.
Proof.
  intros at_repo.
  destruct (collect_repositories_sorted_unique
              [at_repo "b/x"; at_repo "a/y"] [at_repo "b/x"] [∅] [])
    as (names & H & _ & Hnd & _).
  - repeat constructor; by eexists.
  - repeat constructor; by eexists.
  - repeat constructor; by eexists.
  - constructor.
  - exists names. auto.
Defined.

Section AggregateAgain.
Import Aggregator.
Variable self_username : string.
Variable self_start_date self_end_date : Date.date.
Variable repr_container : val -> string.

Lemma filter_by_date_filter items date_field :
  _filter_by_date self_start_date self_end_date repr_container items date_field
  = List.filter (fun item => kept_by_date self_start_date self_end_date
                               repr_container item date_field) items.
Proof.
  induction items as [|item rest IH]; [done|]. simpl. unfold kept_by_date at 1.
  rewrite IH. done.
Qed.

Lemma filter_prs_by_date_filter prs :
  _filter_prs_by_date self_start_date self_end_date repr_container prs
  = List.filter (fun pr => truthy (dict_get pr "has_period_activity")
                           || kept_by_date self_start_date self_end_date
                                repr_container pr "created_at") prs.
Proof.
  induction prs as [|pr rest IH]; [done|]. simpl. unfold kept_by_date at 1.
  rewrite IH. by destruct (truthy _).
Qed.

Lemma filter_filter_same {A} (p : A -> bool) (l : list A) :
  List.filter p (List.filter p l) = List.filter p l.
Proof.
  induction l as [|x l IH]; [done|]. simpl.
  destruct (p x) eqn:E; simpl; [rewrite E; by f_equal|done].
Qed.

Lemma filter_sublist {A} (p : A -> bool) (l : list A) : List.filter p l `sublist_of` l.
Proof.
  induction l as [|x l IH]; [done|]. simpl.
  destruct (p x); [by apply sublist_skip|by apply sublist_cons].
Qed.

(** X12. [aggregate] keeps the order of the records it is given and is
    idempotent: aggregating the lists of its own result again, with the
    same period, gives that result. *)
Theorem aggregate_idempotent
    (commits pull_requests issues reviews comments : option (list pydict))
    (data : AggregatedData) :
  aggregate self_username self_start_date self_end_date repr_container
    commits pull_requests issues reviews comments = Ok data ->
  aggregate self_username self_start_date self_end_date repr_container
    (Some (Aggregator.commits data)) (Some (Aggregator.pull_requests data))
    (Some (Aggregator.issues data)) (Some (Aggregator.reviews data))
    (Some (Aggregator.comments data)) = Ok data
  /\ Aggregator.commits data `sublist_of` or_empty commits
  /\ Aggregator.pull_requests data `sublist_of` or_empty pull_requests
  /\ Aggregator.issues data `sublist_of` or_empty issues
  /\ Aggregator.reviews data `sublist_of` or_empty reviews
  /\ Aggregator.comments data `sublist_of` or_empty comments.
Proof.
  unfold aggregate. intros H.
  destruct (_collect_repositories _ _ _ _) as [repos|e] eqn:Hrepos; [|done].
  injection H as <-. cbn [Aggregator.commits Aggregator.pull_requests
    Aggregator.issues Aggregator.reviews Aggregator.comments or_empty default].
  rewrite !filter_by_date_filter, !filter_prs_by_date_filter in *.
  unfold id. rewrite !filter_filter_same, Hrepos.
  repeat split; apply filter_sublist.
Qed.
End AggregateAgain.

Lemma aggregate_idempotent_witness :
  let commit : pydict := <["date" := VStr "2024-06-15T10:00:00Z"]> ∅ in
  let late : pydict := <["date" := VStr "2024-07-01T10:00:00Z"]> ∅ in
  let data := {| Aggregator.commits := [commit]; Aggregator.pull_requests := [];
                 Aggregator.issues := []; Aggregator.reviews := [];
                 Aggregator.comments := [];
                 Aggregator.start_date := Some 739038;
                 Aggregator.end_date := Some 739067;
                 Aggregator.username := "octocat";
                 Aggregator.repositories := [] |} in
  Aggregator.aggregate "octocat" 739038 739067 (fun _ => "")
    (Some [commit; late]) None None None None = Ok data
  /\ Aggregator.aggregate "octocat" 739038 739067 (fun _ => "")
       (Some [commit]) (Some []) (Some []) (Some []) (Some []) = Ok data.
Proof.
  intros commit late data.
  assert (H : Aggregator.aggregate "octocat" 739038 739067 (fun _ => "")
                (Some [commit; late]) None None None None = Ok data)
    by (vm_compute; reflexivity).
  split; [exact H|].
  exact (proj1 (aggregate_idempotent _ _ _ _ _ _ _ _ _ _ H)).
Defined.

Section SummaryBounds.
Import Aggregator.

Lemma len_filter_le {A} (p : A -> bool) (l : list A) : 0 <= len (List.filter p l) <= len l.
Proof. unfold len. pose proof (List.filter_length_le p l). lia. Qed.

Lemma set_of_length_le vs : forall seen elems,
  set_of seen vs = Ok elems -> (length elems <= length vs)%nat.
Proof.
  induction vs as [|v rest IH]; intros seen elems; simpl.
  - intros [= <-]. done.
  - destruct (hash_key v) as [k|]; [|done].
    destruct (in_set k seen).
    + intros H%IH. lia.
    + destruct (set_of (k :: seen) rest) as [elems'|] eqn:E; [|done].
      intros [= <-]. apply IH in E. simpl. lia.
Qed.

(** X14. In every summary [get_summary] returns, the merged pull requests
    are at most the opened ones, the closed issues at most the opened
    ones, and the reviewed pull requests at most the reviews; the other
    totals are the lengths of the lists. *)
Theorem summary_counts_bounded (data : AggregatedData) (summary : Summary) :
  get_summary data = Ok summary ->
  0 <= total_prs_merged summary <= total_prs_opened summary
  /\ 0 <= total_issues_closed summary <= total_issues_opened summary
  /\ 0 <= total_prs_reviewed summary <= len (reviews data)
  /\ total_commits summary = len (commits data)
  /\ total_prs_opened summary = len (pull_requests data)
  /\ total_issues_opened summary = len (issues data)
  /\ total_comments summary = len (comments data)
  /\ repos_contributed_to summary = len (repositories data).
Proof.
  unfold get_summary. intros H.
  destruct (set_of [] _) as [reviewed|] eqn:Hrev; [|done]. simpl in H.
  destruct (_get_most_active_day data) as [day|]; [|done]. simpl in H.
  destruct (_get_most_active_repo data) as [repo|]; [|done]. simpl in H.
  injection H as <-. simpl.
  split; [apply len_filter_le|]. split; [apply len_filter_le|].
  split; [|done].
  apply set_of_length_le in Hrev. unfold len.
  pose proof (List.filter_length_le truthy
                ((fun r => dict_get r "pr_number") <$> reviews data)) as Hf.
  rewrite length_fmap in Hf. lia.
Qed.
End SummaryBounds.

Lemma summary_counts_witness :
  let data := {| Aggregator.commits := [];
                 Aggregator.pull_requests :=
                   [<["merged_at" := VStr "2024-06-02T00:00:00Z"]> ∅; ∅];
                 Aggregator.issues := []; Aggregator.reviews := [];
                 Aggregator.comments := [];
                 Aggregator.start_date := None; Aggregator.end_date := None;
                 Aggregator.username := ""; Aggregator.repositories := [] |} in
  let summary := {| Aggregator.total_commits := 0;
                    Aggregator.total_prs_opened := 2;
                    Aggregator.total_prs_merged := 1;
                    Aggregator.total_prs_reviewed := 0;
                    Aggregator.total_issues_opened := 0;
                    Aggregator.total_issues_closed := 0;
                    Aggregator.total_comments := 0;
                    Aggregator.repos_contributed_to := 0;
                    Aggregator.most_active_day := VStr "";
                    Aggregator.most_active_repo := VStr "" |} in
  Aggregator.get_summary data = Ok summary
  /\ 0 <= Aggregator.total_prs_merged summary <= Aggregator.total_prs_opened summary.
Proof.
  intros data summary.
  assert (H : Aggregator.get_summary data = Ok summary) by (vm_compute; reflexivity).
  split; [exact H|].
  exact (proj1 (summary_counts_bounded data summary H)).
Defined.

Section QuarterFacts.
Import Date DateUtils.

Lemma monthly_range year month :
  1 <= year <= 9999 -> 1 <= month <= 12 ->
  get_period_range year "monthly" month
  = Ok (ymd2ord year month 1, ymd2ord year month (days_in_month year month)).
Proof.
  intros Hy Hm. unfold get_period_range. simpl.
  destruct (Z.leb_spec 1 month); [|lia].
  destruct (Z.leb_spec month 12); [|lia]. simpl.
  pose proof (days_in_month_bounds year month Hm) as Hd.
  unfold monthrange.
  destruct (Z.leb_spec 1 month); [|lia].
  destruct (Z.leb_spec month 12); [|lia]. simpl.
  by rewrite !mk_date_valid by lia.
Qed.

Lemma quarterly_range year quarter :
  1 <= year <= 9999 -> 1 <= quarter <= 4 ->
  get_period_range year "quarterly" quarter
  = Ok (ymd2ord year (3 * quarter - 2) 1,
        ymd2ord year (3 * quarter) (days_in_month year (3 * quarter))).
Proof.
  intros Hy Hq. unfold get_period_range. simpl.
  destruct (Z.leb_spec 1 quarter); [|lia].
  destruct (Z.leb_spec quarter 4); [|lia]. simpl.
  rewrite !mk_date_valid
    by (try (unfold days_in_month; destruct (is_leap year)); simpl; lia).
  simpl.
  assert (Hc : quarter = 1 \/ quarter = 2 \/ quarter = 3 \/ quarter = 4) by lia.
  destruct Hc as [-> | [-> | [-> | ->]]]; reflexivity.
Qed.

(** X18. For a year from 1 to 9999 a quarter is made of its three months:
    it starts on the first day of the first, each month starts the day
    after the one before ends, and the quarter ends with the third.  The
    quarter [get_current_quarter] gives for a month is the one that
    contains it. *)
Theorem quarter_spans_three_months (year quarter : Z) :
  1 <= year <= 9999 -> 1 <= quarter <= 4 ->
  (exists quarter_start quarter_end first_end second_end,
     get_period_range year "quarterly" quarter = Ok (quarter_start, quarter_end)
     /\ get_period_range year "monthly" (3 * quarter - 2)
        = Ok (quarter_start, first_end)
     /\ get_period_range year "monthly" (3 * quarter - 1)
        = Ok (first_end + 1, second_end)
     /\ get_period_range year "monthly" (3 * quarter)
        = Ok (second_end + 1, quarter_end))
  /\ (forall month, 1 <= month <= 12 ->
        get_current_quarter month = quarter
        <-> 3 * quarter - 2 <= month <= 3 * quarter).
Proof.
  intros Hy Hq. split.
  - do 4 eexists. rewrite quarterly_range, !monthly_range by lia.
    split; [reflexivity|]. split; [reflexivity|].
    rewrite (month_end_next year (3 * quarter - 2)) by lia.
    rewrite (month_end_next year (3 * quarter - 1)) by lia.
    destruct (Z.eqb_spec (3 * quarter - 2) 12); [lia|].
    destruct (Z.eqb_spec (3 * quarter - 1) 12); [lia|].
    split; do 3 f_equal; lia.
  - intros month Hm. unfold get_current_quarter.
    Z.div_mod_to_equations. lia.
Qed.
End QuarterFacts.

Lemma quarter_spans_three_months_witness :
  (exists quarter_start quarter_end first_end second_end,
     DateUtils.get_period_range 2024 "quarterly" 2 = Ok (quarter_start, quarter_end)
     /\ DateUtils.get_period_range 2024 "monthly" 4 = Ok (quarter_start, first_end)
     /\ DateUtils.get_period_range 2024 "monthly" 5 = Ok (first_end + 1, second_end)
     /\ DateUtils.get_period_range 2024 "monthly" 6 = Ok (second_end + 1, quarter_end))
  /\ DateUtils.get_current_quarter 5 = 2.
Proof.
  destruct (quarter_spans_three_months 2024 2) as [H Hq]; [lia..|].
  split; [exact H|]. apply Hq; lia.
Defined.

Section CalendarFacts.
Import Date.

(** The month and day of the [n]-th day of a year, counted from 0, as
    [_ord2ymd] finds them. *)
Lemma day_of_year_split (leapyear : bool) (n : Z) :
  0 <= n < 365 ->
  let month := Z.shiftr (n + 50) 5 in
  let preceding :=
    days_before_month_tbl month + (if (2 <? month)%Z && leapyear then 1 else 0) in
  let '(m, dd) :=
    if (n <? preceding)%Z then
      (month - 1,
       n - (preceding - (mdays (month - 1)
                         + (if (month - 1 =? 2)%Z && leapyear then 1 else 0))) + 1)
    else (month, n - preceding + 1) in
  1 <= m <= 12
  /\ 1 <= dd <= (if (m =? 2)%Z && leapyear then 29 else mdays m)
  /\ days_before_month_tbl m + (if (2 <? m)%Z && leapyear then 1 else 0) + dd = n + 1.
Proof.
  intros Hn. cbv zeta. rewrite Z.shiftr_div_pow2 by lia. change (2 ^ 5) with 32.
  assert (Hm : 32 * ((n + 50) / 32) <= n + 50 < 32 * ((n + 50) / 32) + 32)
    by (Z.div_mod_to_equations; lia).
  set (month := (n + 50) / 32) in *.
  assert (Hc : month = 1 \/ month = 2 \/ month = 3 \/ month = 4 \/ month = 5
               \/ month = 6 \/ month = 7 \/ month = 8 \/ month = 9
               \/ month = 10 \/ month = 11 \/ month = 12) by lia.
  clearbody month.
  destruct Hc as [-> | [-> | [-> | [-> | [-> | [-> | [-> | [-> | [-> | [-> | [-> | ->]]]]]]]]]]];
    match goal with |- context [mdays (?k - 1)] =>
      let v := eval vm_compute in (k - 1) in change (k - 1) with v end;
    destruct leapyear; cbn -[Z.ltb Z.add Z.sub];
    match goal with |- context [(n <? ?k)%Z] => destruct (Z.ltb_spec n k) end;
    cbn in *; lia.
Qed.

Lemma days_before_year_cycles n400 n100 n4 n1 :
  0 <= n100 <= 3 -> 0 <= n4 <= 24 -> 0 <= n1 <= 3 ->
  days_before_year (n400 * 400 + 1 + n100 * 100 + n4 * 4 + n1)
  = 146097 * n400 + 36524 * n100 + 1461 * n4 + 365 * n1.
Proof.
  intros H100 H4 H1. unfold days_before_year. Z.div_mod_to_equations. lia.
Qed.

Lemma is_leap_cycles n400 n100 n4 n1 :
  0 <= n100 <= 3 -> 0 <= n4 <= 24 -> 0 <= n1 <= 3 ->
  is_leap (n400 * 400 + 1 + n100 * 100 + n4 * 4 + n1)
  = (n1 =? 3)%Z && (negb (n4 =? 24)%Z || (n100 =? 3)%Z).
Proof.
  intros H100 H4 H1. unfold is_leap.
  destruct (Z.eqb_spec n1 3), (Z.eqb_spec n4 24), (Z.eqb_spec n100 3);
    repeat match goal with |- context [(?a mod ?b =? 0)%Z] =>
      destruct (Z.eqb_spec (a mod b) 0) end; simpl; try done;
    exfalso; Z.div_mod_to_equations; lia.
Qed.

(** [_ord2ymd] gives a valid date, and [_ymd2ord] takes it back. *)
Lemma ord2ymd_valid (d : Z) :
  1 <= d <= MAXORDINAL ->
  exists y m dd,
    ord2ymd d = (y, m, dd)
    /\ 1 <= y <= 9999 /\ 1 <= m <= 12 /\ 1 <= dd <= days_in_month y m
    /\ ymd2ord y m dd = d.
Proof.
  unfold MAXORDINAL. intros Hd. unfold ord2ymd. cbv zeta.
  set (n400 := (d - 1) / 146097). set (r1 := (d - 1) mod 146097).
  set (n100 := r1 / 36524). set (r2 := r1 mod 36524).
  set (n4 := r2 / 1461). set (r3 := r2 mod 1461).
  set (n1 := r3 / 365). set (r := r3 mod 365).
  assert (H1 : d - 1 = 146097 * n400 + r1 /\ 0 <= r1 < 146097)
    by (subst n400 r1; Z.div_mod_to_equations; lia).
  assert (H2 : r1 = 36524 * n100 + r2 /\ 0 <= r2 < 36524)
    by (subst n100 r2; Z.div_mod_to_equations; lia).
  assert (H3 : r2 = 1461 * n4 + r3 /\ 0 <= r3 < 1461)
    by (subst n4 r3; Z.div_mod_to_equations; lia).
  assert (H4 : r3 = 365 * n1 + r /\ 0 <= r < 365)
    by (subst n1 r; Z.div_mod_to_equations; lia).
  clearbody n400 r1 n100 r2 n4 r3 n1 r.
  destruct (Z.eqb_spec n1 4) as [E1|E1]; [|destruct (Z.eqb_spec n100 4) as [E100|E100]];
    cbn [orb].
  - exists (n400 * 400 + 1 + n100 * 100 + n4 * 4 + n1 - 1), 12, 31.
    split; [done|].
    replace (n400 * 400 + 1 + n100 * 100 + n4 * 4 + n1 - 1)
      with (n400 * 400 + 1 + n100 * 100 + n4 * 4 + 3) by lia.
    unfold ymd2ord, days_before_month, days_in_month.
    rewrite days_before_year_cycles, is_leap_cycles by lia. simpl.
    destruct (Z.eqb_spec n4 24), (Z.eqb_spec n100 3); simpl; lia.
  - exists (n400 * 400 + 1 + n100 * 100 + n4 * 4 + n1 - 1), 12, 31.
    split; [done|].
    replace (n400 * 400 + 1 + n100 * 100 + n4 * 4 + n1 - 1)
      with (n400 * 400 + 1 + 3 * 100 + 24 * 4 + 3) by lia.
    unfold ymd2ord, days_before_month, days_in_month.
    rewrite days_before_year_cycles, is_leap_cycles by lia. simpl. lia.
  - pose proof (day_of_year_split
                  ((n1 =? 3)%Z && (negb (n4 =? 24)%Z || (n100 =? 3)%Z)) r
                  ltac:(lia)) as Hsplit.
    cbv zeta in Hsplit.
    assert (Hleap := is_leap_cycles n400 n100 n4 n1 ltac:(lia) ltac:(lia) ltac:(lia)).
    assert (Hdby := days_before_year_cycles n400 n100 n4 n1
                      ltac:(lia) ltac:(lia) ltac:(lia)).
    set (year := n400 * 400 + 1 + n100 * 100 + n4 * 4 + n1) in *.
    assert (Hyear : 1 <= year <= 9999) by (subst year; lia).
    destruct (_ <? _)%Z; eexists year, _, _; (split; [reflexivity|]);
      unfold ymd2ord, days_before_month, days_in_month; rewrite Hleap, Hdby; lia.
Qed.

Lemma days_before_year_succ year :
  days_before_year (year + 1)
  = days_before_year year + 365 + (if is_leap year then 1 else 0).
Proof.
  unfold days_before_year, is_leap.
  replace (year + 1 - 1) with year by lia.
  repeat match goal with |- context [(?a mod ?b =? 0)%Z] =>
    destruct (Z.eqb_spec (a mod b) 0) end; simpl;
    Z.div_mod_to_equations; lia.
Qed.

Lemma days_before_year_mono y1 y2 :
  y1 <= y2 -> days_before_year y1 <= days_before_year y2.
Proof. intros H. unfold days_before_year. Z.div_mod_to_equations. lia. Qed.

Lemma month_cases month :
  1 <= month <= 12 ->
  month = 1 \/ month = 2 \/ month = 3 \/ month = 4 \/ month = 5 \/ month = 6
  \/ month = 7 \/ month = 8 \/ month = 9 \/ month = 10 \/ month = 11 \/ month = 12.
Proof. lia. Qed.

Lemma days_before_month_next year month :
  1 <= month <= 11 ->
  days_before_month year (month + 1)
  = days_before_month year month + days_in_month year month.
Proof.
  intros H. unfold days_before_month, days_in_month.
  destruct (month_cases month ltac:(lia))
    as [-> | [-> | [-> | [-> | [-> | [-> | [-> | [-> | [-> | [-> | [-> | ->]]]]]]]]]]];
    destruct (is_leap year); simpl; lia.
Qed.

Lemma days_before_month_mono year m1 m2 :
  1 <= m1 -> m1 <= m2 -> m2 <= 12 ->
  days_before_month year m1 <= days_before_month year m2.
Proof.
  intros H1 H12 H2.
  assert (forall k : nat, (k <= 11)%nat -> 1 <= m1 -> m1 + Z.of_nat k <= 12 ->
            days_before_month year m1 <= days_before_month year (m1 + Z.of_nat k))
    as Hk.
  { induction k as [|k IH]; intros Hk Hm1 Hm2.
    - replace (m1 + Z.of_nat 0) with m1 by lia. lia.
    - replace (m1 + Z.of_nat (S k)) with (m1 + Z.of_nat k + 1) by lia.
      rewrite days_before_month_next by lia.
      pose proof (days_in_month_bounds year (m1 + Z.of_nat k) ltac:(lia)).
      specialize (IH ltac:(lia) Hm1 ltac:(lia)). lia. }
  replace m2 with (m1 + Z.of_nat (Z.to_nat (m2 - m1))) by lia.
  apply Hk; lia.
Qed.

Lemma days_before_month_year_end year :
  days_before_month year 12 + days_in_month year 12
  = 365 + (if is_leap year then 1 else 0).
Proof.
  unfold days_before_month, days_in_month. destruct (is_leap year); simpl; lia.
Qed.

(** Dates in calendar order have ordinals in the same order. *)
Lemma ymd2ord_lt y1 m1 d1 y2 m2 d2 :
  1 <= m1 <= 12 -> 1 <= d1 <= days_in_month y1 m1 ->
  1 <= m2 <= 12 -> 1 <= d2 <= days_in_month y2 m2 ->
  y1 < y2 \/ (y1 = y2 /\ (m1 < m2 \/ (m1 = m2 /\ d1 < d2))) ->
  ymd2ord y1 m1 d1 < ymd2ord y2 m2 d2.
Proof.
  intros Hm1 Hd1 Hm2 Hd2 Hlt. unfold ymd2ord.
  assert (Hend : forall y m d, 1 <= m <= 12 -> 1 <= d <= days_in_month y m ->
            days_before_month y m + d <= 365 + (if is_leap y then 1 else 0)).
  { intros y m d Hm Hd. rewrite <- days_before_month_year_end.
    pose proof (days_before_month_mono y m 12 ltac:(lia) ltac:(lia) ltac:(lia)).
    destruct (decide (m = 12)) as [->|Hne]; [lia|].
    pose proof (days_before_month_next y m ltac:(lia)).
    pose proof (days_before_month_mono y (m + 1) 12 ltac:(lia) ltac:(lia) ltac:(lia)).
    pose proof (days_in_month_bounds y 12 ltac:(lia)). lia. }
  assert (Hpos : forall y m, 1 <= m <= 12 -> 0 <= days_before_month y m).
  { intros y m Hm.
    pose proof (days_before_month_mono y 1 m ltac:(lia) ltac:(lia) ltac:(lia)) as H.
    unfold days_before_month at 1 in H. simpl in H. lia. }
  destruct Hlt as [Hy | [-> [Hm | [-> Hd]]]].
  - pose proof (Hend y1 m1 d1 Hm1 Hd1).
    pose proof (days_before_year_succ y1).
    pose proof (days_before_year_mono (y1 + 1) y2 ltac:(lia)).
    pose proof (Hpos y2 m2 Hm2). lia.
  - pose proof (days_before_month_next y2 m1 ltac:(lia)).
    pose proof (days_before_month_mono y2 (m1 + 1) m2 ltac:(lia) ltac:(lia) ltac:(lia)).
    lia.
  - lia.
Qed.

(** [_ord2ymd] undoes [_ymd2ord] on valid dates. *)
Lemma ord2ymd_ymd2ord y m d :
  1 <= y <= 9999 -> 1 <= m <= 12 -> 1 <= d <= days_in_month y m ->
  1 <= ymd2ord y m d <= MAXORDINAL /\ ord2ymd (ymd2ord y m d) = (y, m, d).
Proof.
  intros Hy Hm Hd.
  assert (Hrange : 1 <= ymd2ord y m d <= MAXORDINAL).
  { split.
    - pose proof (ymd2ord_lt 0 12 31 y m d ltac:(lia) ltac:(by vm_compute)
                    Hm Hd ltac:(lia)) as H. vm_compute (ymd2ord 0 12 31) in H. lia.
    - pose proof (ymd2ord_lt y m d 10000 1 1 Hm Hd ltac:(lia) ltac:(by vm_compute)
                    ltac:(lia)) as H.
      change (ymd2ord 10000 1 1) with 3652060 in H. unfold MAXORDINAL. lia. }
  split; [done|].
  destruct (ord2ymd_valid _ Hrange) as (y' & m' & d' & -> & Hy' & Hm' & Hd' & Heq).
  destruct (Z.lt_trichotomy y' y) as [Hlt | [-> | Hgt]].
  - pose proof (ymd2ord_lt y' m' d' y m d Hm' Hd' Hm Hd ltac:(lia)). lia.
  - destruct (Z.lt_trichotomy m' m) as [Hlt | [-> | Hgt]].
    + pose proof (ymd2ord_lt y m' d' y m d Hm' Hd' Hm Hd ltac:(lia)). lia.
    + destruct (Z.lt_trichotomy d' d) as [Hlt | [-> | Hgt]]; [|done|].
      * pose proof (ymd2ord_lt y m d' y m d Hm' Hd' Hm Hd ltac:(lia)). lia.
      * pose proof (ymd2ord_lt y m d y m d' Hm Hd Hm' Hd' ltac:(lia)). lia.
    + pose proof (ymd2ord_lt y m d y m' d' Hm Hd Hm' Hd' ltac:(lia)). lia.
  - pose proof (ymd2ord_lt y m d y' m' d' Hm Hd Hm' Hd' ltac:(lia)). lia.
Qed.

Lemma digit_compare a b :
  Ascii.compare (digit a) (digit b) = (a mod 10 ?= b mod 10).
Proof.
  unfold Ascii.compare, digit.
  assert (Hn : forall x, N_of_ascii (ascii_of_nat (48 + Z.to_nat (x mod 10)))
                         = N.of_nat (48 + Z.to_nat (x mod 10))).
  { intros x. rewrite <- (N2Nat.id (N_of_ascii _)).
    change (N.to_nat (N_of_ascii ?c)) with (nat_of_ascii c).
    rewrite nat_ascii_embedding; [done|].
    pose proof (Z.mod_pos_bound x 10 ltac:(lia)). lia. }
  rewrite !Hn.
  pose proof (Z.mod_pos_bound a 10 ltac:(lia)).
  pose proof (Z.mod_pos_bound b 10 ltac:(lia)).
  destruct (Z.compare_spec (a mod 10) (b mod 10)) as [Heq|Hlt|Hgt].
  - rewrite Heq. apply N.compare_refl.
  - apply N.compare_lt_iff. lia.
  - apply N.compare_gt_iff. lia.
Qed.

Lemma append_cons c s t : (String c s ++ t)%string = String c (s ++ t)%string.
Proof. reflexivity. Qed.

Lemma append_nil t : ("" ++ t)%string = t.
Proof. reflexivity. Qed.

Lemma pad4_compare y1 y2 s1 s2 :
  0 <= y1 <= 9999 -> 0 <= y2 <= 9999 ->
  String.compare (pad4 y1 ++ s1) (pad4 y2 ++ s2)
  = match y1 ?= y2 with Eq => String.compare s1 s2 | c => c end.
Proof.
  intros H1 H2. unfold pad4. rewrite !append_cons, !append_nil.
  cbn [String.compare]. rewrite !digit_compare.
  repeat match goal with |- context [match (?a ?= ?b) with _ => _ end] =>
    destruct (Z.compare_spec a b) end; try reflexivity;
    exfalso; Z.div_mod_to_equations; lia.
Qed.

Lemma pad2_compare m1 m2 s1 s2 :
  0 <= m1 <= 99 -> 0 <= m2 <= 99 ->
  String.compare (pad2 m1 ++ s1) (pad2 m2 ++ s2)
  = match m1 ?= m2 with Eq => String.compare s1 s2 | c => c end.
Proof.
  intros H1 H2. unfold pad2. rewrite !append_cons, !append_nil.
  cbn [String.compare]. rewrite !digit_compare.
  repeat match goal with |- context [match (?a ?= ?b) with _ => _ end] =>
    destruct (Z.compare_spec a b) end; try reflexivity;
    exfalso; Z.div_mod_to_equations; lia.
Qed.

(** ISO dates compare as the days they name. *)
Lemma isoformat_compare d1 d2 :
  1 <= d1 <= MAXORDINAL -> 1 <= d2 <= MAXORDINAL ->
  String.compare (isoformat d1) (isoformat d2) = (d1 ?= d2).
Proof.
  intros H1 H2. unfold isoformat.
  destruct (ord2ymd_valid d1 H1) as (y1 & m1 & dd1 & -> & Hy1 & Hm1 & Hd1 & <-).
  destruct (ord2ymd_valid d2 H2) as (y2 & m2 & dd2 & -> & Hy2 & Hm2 & Hd2 & <-).
  pose proof (days_in_month_bounds y1 m1 Hm1).
  pose proof (days_in_month_bounds y2 m2 Hm2).
  rewrite pad4_compare by lia. rewrite !append_cons, !append_nil.
  cbn [String.compare]. change (Ascii.compare "-" "-") with Eq. cbv iota.
  rewrite pad2_compare by lia. rewrite ?append_cons, ?append_nil.
  cbn [String.compare]. change (Ascii.compare "-" "-") with Eq. cbv iota.
  change (pad2 dd1) with (pad2 dd1 ++ "")%string.
  change (pad2 dd2) with (pad2 dd2 ++ "")%string.
  rewrite pad2_compare by lia. cbn [String.compare].
  symmetry.
  destruct (Z.compare_spec y1 y2) as [->|Hy|Hy].
  - destruct (Z.compare_spec m1 m2) as [->|Hm|Hm].
    + destruct (Z.compare_spec dd1 dd2) as [->|Hd|Hd].
      * apply Z.compare_refl.
      * apply Z.compare_lt_iff, ymd2ord_lt; auto with lia.
      * apply Z.compare_gt_iff, ymd2ord_lt; auto with lia.
    + apply Z.compare_lt_iff, ymd2ord_lt; auto with lia.
    + apply Z.compare_gt_iff, ymd2ord_lt; auto with lia.
  - apply Z.compare_lt_iff, ymd2ord_lt; auto with lia.
  - apply Z.compare_gt_iff, ymd2ord_lt; auto with lia.
Qed.

Lemma isoformat_leb d1 d2 :
  1 <= d1 <= MAXORDINAL -> 1 <= d2 <= MAXORDINAL ->
  String.leb (isoformat d1) (isoformat d2) = (d1 <=? d2)%Z.
Proof.
  intros H1 H2. unfold String.leb, Z.leb. by rewrite isoformat_compare.
Qed.
End CalendarFacts.

Section FilterByDay.
Import Date Aggregator.
Variable self_start_date self_end_date : date.
Variable repr_container : val -> string.
Hypothesis start_valid : 1 <= self_start_date <= MAXORDINAL.
Hypothesis end_valid : 1 <= self_end_date <= MAXORDINAL.

Lemma dated_on_within field d record :
  1 <= d <= MAXORDINAL -> dated_on field d record ->
  dated_within self_start_date self_end_date repr_container field record
  <-> self_start_date <= d <= self_end_date.
Proof.
  intros Hd (s & Hs & Htake). unfold dated_within, in_period. split.
  - intros (v & Hv & Hin). rewrite Hs in Hv. injection Hv as <-.
    simpl in Hin. rewrite Htake, !isoformat_leb in Hin by done.
    apply andb_true_iff in Hin as [?%Z.leb_le ?%Z.leb_le]. lia.
  - intros Hr. exists (VStr s). split; [done|]. simpl.
    rewrite Htake, !isoformat_leb by done.
    apply andb_true_iff. split; apply Z.leb_le; lia.
Qed.

(** X11. The date filters compare strings, and these compare as the days
    they name: a record whose date field starts with the ISO form of a day
    is kept by [_filter_by_date] exactly when that day lies from
    [start_date] to [end_date], ends included; [_filter_prs_by_date] keeps
    a pull request so dated on the same condition, or when it carries
    [has_period_activity]. *)
Theorem date_filters_keep_days_in_period (field : string) (d : date)
    (record : pydict) (items : list pydict) :
  1 <= d <= MAXORDINAL ->
  (dated_on field d record ->
   record ∈ _filter_by_date self_start_date self_end_date repr_container items field
   <-> record ∈ items /\ self_start_date <= d <= self_end_date)
  /\ (dated_on "created_at" d record ->
      record ∈ _filter_prs_by_date self_start_date self_end_date repr_container items
      <-> record ∈ items
          /\ (self_start_date <= d <= self_end_date
              \/ truthy (dict_get record "has_period_activity") = true)).
Proof.
  intros Hd. split; intros Hon.
  - rewrite filter_by_date_elem, (dated_on_within _ d) by done. done.
  - rewrite filter_prs_by_date_elem, (dated_on_within _ d) by done. done.
Qed.
End FilterByDay.

Lemma date_filters_keep_days_witness :
  let commit : pydict := <["date" := VStr "2024-06-15T10:00:00Z"]> ∅ in
  commit ∈ Aggregator._filter_by_date 739038 739067 (fun _ => "") [commit] "date"
  <-> commit ∈ [commit] /\ 739038 <= 739052 <= 739067.
Proof.
  intros commit.
  apply (date_filters_keep_days_in_period 739038 739067 (fun _ => "")
           ltac:(unfold Date.MAXORDINAL; lia) ltac:(unfold Date.MAXORDINAL; lia)
           "date" 739052 commit [commit] ltac:(unfold Date.MAXORDINAL; lia)).
  exists "2024-06-15T10:00:00Z". split; reflexivity.
Defined.

Section PeriodStrings.
Import Date DateUtils.

Lemma isoformat_ymd2ord y m d :
  1 <= y <= 9999 -> 1 <= m <= 12 -> 1 <= d <= days_in_month y m ->
  isoformat (ymd2ord y m d) = (pad4 y ++ "-" ++ pad2 m ++ "-" ++ pad2 d)%string.
Proof.
  intros Hy Hm Hd. unfold isoformat.
  by destruct (ord2ymd_ymd2ord y m d Hy Hm Hd) as [_ ->].
Qed.

(** X19. For a year from 1 to 9999, [get_period_dates_str] gives the
    first and the last day of the month, or of the quarter, written
    [YYYY-MM-DD] with the year on four digits and month and day on two;
    the first string never sorts after the second. *)
Theorem period_dates_str_iso (year value : Z) :
  1 <= year <= 9999 ->
  (1 <= value <= 12 ->
   get_period_dates_str year "monthly" value
   = Ok ((pad4 year ++ "-" ++ pad2 value ++ "-01")%string,
         (pad4 year ++ "-" ++ pad2 value ++ "-"
            ++ pad2 (days_in_month year value))%string))
  /\ (1 <= value <= 4 ->
      get_period_dates_str year "quarterly" value
      = Ok ((pad4 year ++ "-" ++ pad2 (3 * value - 2) ++ "-01")%string,
            (pad4 year ++ "-" ++ pad2 (3 * value) ++ "-"
               ++ pad2 (days_in_month year (3 * value)))%string))
  /\ (forall period_type first last,
        get_period_dates_str year period_type value = Ok (first, last) ->
        String.leb first last = true).
Proof.
  intros Hy. split; [|split].
  - intros Hv. unfold get_period_dates_str.
    pose proof (days_in_month_bounds year value Hv).
    rewrite monthly_range by done. simpl.
    by rewrite !isoformat_ymd2ord by lia.
  - intros Hv. unfold get_period_dates_str.
    pose proof (days_in_month_bounds year (3 * value) ltac:(lia)).
    pose proof (days_in_month_bounds year (3 * value - 2) ltac:(lia)).
    rewrite quarterly_range by done. simpl.
    by rewrite !isoformat_ymd2ord by lia.
  - intros period_type first last. unfold get_period_dates_str.
    destruct (get_period_range year period_type value) as [[s e]|] eqn:Hr; [|done].
    simpl. intros [= <- <-].
    assert (Hse : 1 <= s <= MAXORDINAL /\ 1 <= e <= MAXORDINAL /\ s <= e).
    { destruct (String.eqb period_type "monthly") eqn:Hp.
      - apply String.eqb_eq in Hp. subst period_type.
        assert (Hv : 1 <= value <= 12).
        { unfold get_period_range in Hr. simpl in Hr.
          destruct (Z.leb_spec 1 value); [|done].
          destruct (Z.leb_spec value 12); [|done]. lia. }
        rewrite monthly_range in Hr by lia. injection Hr as <- <-.
        pose proof (days_in_month_bounds year value ltac:(lia)).
        destruct (ord2ymd_ymd2ord year value 1) as [? _]; [lia..|].
        destruct (ord2ymd_ymd2ord year value (days_in_month year value)) as [? _];
          [lia..|].
        split; [done|]. split; [done|]. unfold ymd2ord. lia.
      - assert (Hv : 1 <= value <= 4).
        { unfold get_period_range in Hr. rewrite Hp in Hr.
          destruct (Z.leb_spec 1 value); [|done].
          destruct (Z.leb_spec value 4); [|done]. lia. }
        assert (Hq : get_period_range year period_type value
                     = get_period_range year "quarterly" value).
        { unfold get_period_range. by rewrite Hp. }
        rewrite Hq, quarterly_range in Hr by lia. injection Hr as <- <-.
        pose proof (days_in_month_bounds year (3 * value) ltac:(lia)).
        pose proof (days_in_month_bounds year (3 * value - 2) ltac:(lia)).
        destruct (ord2ymd_ymd2ord year (3 * value - 2) 1) as [? _]; [lia..|].
        destruct (ord2ymd_ymd2ord year (3 * value) (days_in_month year (3 * value)))
          as [? _]; [lia..|].
        split; [done|]. split; [done|].
        apply Z.lt_le_incl, ymd2ord_lt; lia. }
    destruct Hse as (Hs & He & Hle).
    rewrite isoformat_leb by done. by apply Z.leb_le.
Qed.
End PeriodStrings.

Lemma period_dates_str_witness :
  DateUtils.get_period_dates_str 2024 "monthly" 2 = Ok ("2024-02-01", "2024-02-29")
  /\ DateUtils.get_period_dates_str 2024 "quarterly" 4 = Ok ("2024-10-01", "2024-12-31").
Proof.
  destruct (period_dates_str_iso 2024 2) as (Hm & _); [lia|].
  destruct (period_dates_str_iso 2024 4) as (_ & Hq & _); [lia|].
  split; [exact (Hm ltac:(lia))|exact (Hq ltac:(lia))].
Defined.

Section KeepFirstFacts.
Variable classify : pydict -> keying.

Lemma has_keying_key k k' record :
  classify record = Key k' -> has_keying classify k record = bool_decide (k' = k).
Proof.
  unfold has_keying. intros ->. apply bool_decide_ext. split; congruence.
Qed.

Lemma has_keying_other k record :
  (forall k', classify record <> Key k') -> has_keying classify k record = false.
Proof. intros H. unfold has_keying. by rewrite bool_decide_eq_false_2. Qed.

Lemma keep_first_spec records : forall seen kept,
  keep_first classify seen records = Ok kept ->
  kept `sublist_of` records
  /\ NoDup (keys_of classify kept)
  /\ Forall (fun record => exists k, classify record = Key k /\ k ∉ seen) kept
  /\ (forall k, k ∉ seen ->
        List.find (has_keying classify k) kept
        = List.find (has_keying classify k) records).
Proof.
  induction records as [|record rest IH]; intros seen kept; simpl.
  - intros [= <-]. split; [done|]. split; [constructor|]. split; [constructor|done].
  - destruct (classify record) as [| |k] eqn:Hc; [done| |].
    + intros H. destruct (IH _ _ H) as (Hsub & Hnd & Hall & Hfind).
      split; [by apply sublist_cons|]. split; [done|]. split; [done|].
      intros k Hk. rewrite has_keying_other by (intros ?; congruence). by apply Hfind.
    + destruct (in_set k seen) eqn:Hin.
      * apply in_set_true in Hin. intros H.
        destruct (IH _ _ H) as (Hsub & Hnd & Hall & Hfind).
        split; [by apply sublist_cons|]. split; [done|]. split; [done|].
        intros k' Hk'. rewrite (has_keying_key k' k) by done.
        rewrite bool_decide_eq_false_2 by (intros ->; done). by apply Hfind.
      * apply in_set_false in Hin.
        destruct (keep_first classify (k :: seen) rest) as [kept'|] eqn:E; [|done].
        intros [= <-]. destruct (IH _ _ E) as (Hsub & Hnd & Hall & Hfind).
        split; [by apply sublist_skip|]. split; [|split].
        -- unfold keys_of. cbn [omap list_omap]. rewrite Hc. simpl.
           constructor; [|done]. intros Hk.
           apply list_elem_of_omap in Hk as (r & Hr & Hkr).
           rewrite Forall_forall in Hall. destruct (Hall _ Hr) as (k' & Hk' & Hnin).
           rewrite Hk' in Hkr. simplify_eq. apply Hnin. left.
        -- constructor; [by exists k|]. eapply Forall_impl; [exact Hall|].
           simpl. intros r (k' & ? & Hnin). exists k'. split; [done|].
           intros ?. apply Hnin. by right.
        -- intros k' Hk'. simpl. rewrite !(has_keying_key k' k) by done.
           destruct (decide (k = k')) as [->|Hne].
           ++ by rewrite bool_decide_eq_true_2.
           ++ rewrite bool_decide_eq_false_2 by done.
              apply Hfind. rewrite not_elem_of_cons. split; [congruence|done].
Qed.

Lemma keep_first_app records1 records2 : forall seen,
  keep_first classify seen (records1 ++ records2)
  = (kept1 ← keep_first classify seen records1;
     kept2 ← keep_first classify (seen_after classify seen records1) records2;
     Ok (kept1 ++ kept2)).
Proof.
  induction records1 as [|record rest IH]; intros seen; simpl.
  - by destruct (keep_first classify seen records2).
  - destruct (classify record) as [| |k]; [done|apply IH|].
    destruct (in_set k seen); [apply IH|]. rewrite IH.
    destruct (keep_first classify (k :: seen) rest) as [kept1|]; [|done]. simpl.
    by destruct (keep_first classify _ records2).
Qed.

Lemma keep_first_returns records : forall seen,
  Forall (fun record => classify record <> Unhashable) records ->
  is_ok (keep_first classify seen records).
Proof.
  induction records as [|record rest IH]; intros seen H; simpl; [by eexists|].
  apply Forall_cons in H as [Hr Hrest].
  destruct (classify record) as [| |k]; [done|by apply IH|].
  destruct (in_set k seen); [by apply IH|].
  destruct (IH (k :: seen) Hrest) as [kept ->]. by eexists.
Qed.
End KeepFirstFacts.

Lemma find_app_first {A} (f : A -> bool) (l1 l2 : list A) :
  List.find f (l1 ++ l2)
  = match List.find f l1 with Some x => Some x | None => List.find f l2 end.
Proof.
  induction l1 as [|x l1 IH]; [done|]. simpl. by destruct (f x).
Qed.

Lemma find_unique {A B} (f : A -> bool) (g : A -> B) (l : list A) (x : A) :
  NoDup (g <$> l) -> x ∈ l -> (forall y, f y = true <-> g y = g x) ->
  List.find f l = Some x.
Proof.
  intros Hnd Hx Hf. induction l as [|y l IH]; [by apply elem_of_nil in Hx|].
  rewrite fmap_cons in Hnd. apply NoDup_cons in Hnd as [Hnin Hnd]. simpl.
  apply elem_of_cons in Hx as [->|Hx].
  - by rewrite (proj2 (Hf y) eq_refl).
  - destruct (f y) eqn:Hy; [|by apply IH].
    exfalso. apply Hnin. apply Hf in Hy. rewrite Hy.
    apply list_elem_of_fmap. by exists x.
Qed.

Section MergeFacts.
Import Orchestrator.
Variable repr_container : val -> string.

Lemma merge_prs_loop_keep_first prs : forall seen all_prs,
  Ok (merge_prs_loop repr_container prs seen all_prs)
  = (kept ← keep_first (pr_keying repr_container) seen prs; Ok (all_prs ++ kept)).
Proof.
  induction prs as [|pr rest IH]; intros seen all_prs; simpl.
  - by rewrite app_nil_r.
  - destruct (in_set _ seen); [apply IH|]. rewrite IH.
    destruct (keep_first _ _ rest) as [kept|]; simpl; [|done].
    by rewrite <- app_assoc.
Qed.

Lemma merge_comments_loop_keep_first comments : forall seen all_comments,
  merge_comments_loop repr_container comments seen all_comments
  = (kept ← keep_first (comment_keying repr_container) seen comments;
     Ok (seen_after (comment_keying repr_container) seen comments,
         all_comments ++ kept)).
Proof.
  induction comments as [|comment rest IH]; intros seen all_comments;
    cbn [merge_comments_loop keep_first seen_after].
  - simpl. by rewrite app_nil_r.
  - assert (Hc : comment_keying repr_container comment
                = if truthy (comment_id repr_container comment)
                  then match hash_key (comment_id repr_container comment) with
                       | None => Unhashable
                       | Some k => Key k
                       end
                  else NoKey) by done.
    rewrite Hc. clear Hc.
    destruct (truthy (comment_id repr_container comment)); [|apply IH].
    destruct (hash_key (comment_id repr_container comment)) as [k|]; [|done].
    destruct (in_set k seen); [apply IH|]. rewrite IH.
    destruct (keep_first _ _ rest) as [kept|]; simpl; [|done].
    by rewrite <- app_assoc.
Qed.

Lemma merge_commits_loop_keep_first commits : forall seen all_commits,
  merge_commits_loop commits seen all_commits
  = (kept ← keep_first commit_keying seen commits;
     Ok (seen_after commit_keying seen commits, all_commits ++ kept)).
Proof.
  induction commits as [|commit rest IH]; intros seen all_commits;
    cbn [merge_commits_loop keep_first seen_after].
  - simpl. by rewrite app_nil_r.
  - assert (Hc : commit_keying commit
                = match hash_key (dict_get_or commit "sha" (VStr "")) with
                  | None => Unhashable
                  | Some k => Key k
                  end) by done.
    rewrite Hc. clear Hc.
    destruct (hash_key (dict_get_or commit "sha" (VStr ""))) as [k|]; [|done].
    destruct (in_set k seen); [apply IH|]. rewrite IH.
    destruct (keep_first _ _ rest) as [kept|]; simpl; [|done].
    by rewrite <- app_assoc.
Qed.

Lemma merge_comments_keep_first api_comments event_comments :
  merge_comments repr_container api_comments event_comments
  = keep_first (comment_keying repr_container) [] (api_comments ++ event_comments).
Proof.
  unfold merge_comments. rewrite keep_first_app, merge_comments_loop_keep_first.
  destruct (keep_first _ [] api_comments) as [kept1|]; simpl; [|done].
  rewrite merge_comments_loop_keep_first.
  by destruct (keep_first _ _ event_comments).
Qed.

Lemma merge_commits_keep_first commits pr_commits :
  merge_commits commits pr_commits = keep_first commit_keying [] (commits ++ pr_commits).
Proof.
  unfold merge_commits. rewrite keep_first_app, merge_commits_loop_keep_first.
  destruct (keep_first _ [] commits) as [kept1|]; simpl; [|done].
  rewrite merge_commits_loop_keep_first.
  by destruct (keep_first _ _ pr_commits).
Qed.

(** X20. The merge of the three pull-request lists in [_fetch_all_data]
    keeps, for every ["repository#number"] key, the first record with it,
    taking the pull requests created in the period first, then the
    updated ones, then the open ones with activity; the result has each
    key once and keeps the order.  So an open pull request that also
    appears in one of the first two lists is represented by the record
    from there. *)
Theorem merge_prs_first_list_wins
    (pull_requests updated_prs open_prs_with_activity : list pydict) :
  let all := (pull_requests ++ updated_prs) ++ open_prs_with_activity in
  let merged := merge_prs repr_container pull_requests updated_prs
                  open_prs_with_activity in
  merged `sublist_of` all
  /\ NoDup (pr_key repr_container <$> merged)
  /\ (forall key, List.find (fun pr => String.eqb (pr_key repr_container pr) key) merged
                  = List.find (fun pr => String.eqb (pr_key repr_container pr) key) all)
  /\ (forall pr other, pr ∈ merged -> other ∈ pull_requests ++ updated_prs ->
        pr_key repr_container pr = pr_key repr_container other ->
        pr ∈ pull_requests ++ updated_prs).
Proof.
  intros all merged.
  assert (Hm : keep_first (pr_keying repr_container) [] all = Ok merged).
  { pose proof (merge_prs_loop_keep_first all [] []) as H.
    destruct (keep_first _ _ all) as [kept|]; simpl in H; [|done].
    subst merged. unfold merge_prs. fold all. by injection H as ->. }
  destruct (keep_first_spec _ _ _ _ Hm) as (Hsub & Hnd & _ & Hfind).
  assert (Hext : forall key (l : list pydict),
            List.find (fun pr => String.eqb (pr_key repr_container pr) key) l
            = List.find (has_keying (pr_keying repr_container) (HStr key)) l).
  { intros key l. induction l as [|pr l IH]; [done|]. simpl. rewrite IH.
    unfold has_keying, pr_keying.
    destruct (String.eqb_spec (pr_key repr_container pr) key) as [->|Hne].
    - by rewrite bool_decide_eq_true_2.
    - rewrite bool_decide_eq_false_2; [done|]. congruence. }
  assert (Hfind' : forall key,
            List.find (fun pr => String.eqb (pr_key repr_container pr) key) merged
            = List.find (fun pr => String.eqb (pr_key repr_container pr) key) all).
  { intros key. rewrite !Hext. apply Hfind, not_elem_of_nil. }
  assert (Hnd' : NoDup (pr_key repr_container <$> merged)).
  { clear -Hnd. unfold keys_of, pr_keying in Hnd.
    induction merged as [|pr l IH]; [constructor|]. cbn in Hnd |- *.
    apply NoDup_cons in Hnd as [Hnin Hnd]. constructor; [|by apply IH].
    intros Hin. apply Hnin. apply list_elem_of_fmap in Hin as (r & Hr & Hin).
    apply list_elem_of_omap. exists r. split; [done|]. by rewrite Hr. }
  split; [done|]. split; [done|]. split; [done|].
  intros pr other Hpr Hother Hkey.
    assert (Hpr' : List.find (fun r => String.eqb (pr_key repr_container r)
                                         (pr_key repr_container pr)) merged = Some pr).
    { apply (find_unique _ (pr_key repr_container)); [done..|].
      intros y. apply String.eqb_eq. }
    rewrite Hfind' in Hpr'. subst all. rewrite find_app_first in Hpr'.
    destruct (List.find _ (pull_requests ++ updated_prs)) as [r|] eqn:Hr.
    + injection Hpr' as ->. apply List.find_some in Hr as [Hr _].
      by apply list_elem_of_In.
    + exfalso. apply list_elem_of_In in Hother.
      pose proof (List.find_none _ _ Hr _ Hother) as Hno. simpl in Hno.
      apply String.eqb_neq in Hno. congruence.
Qed.

(** X21. The merge of the comments in [_fetch_all_data] is one pass over
    the API comments followed by the event comments that keeps the first
    comment of every identifier, [str(id)] or else [url]: the result has
    each identifier once, in order, an API comment winning over an event
    comment.  A comment with neither [id] nor [url] is left out. *)
Theorem merge_comments_first_seen (api_comments event_comments : list pydict) :
  let all := api_comments ++ event_comments in
  (Forall (fun comment => truthy (comment_id repr_container comment) = true ->
                          is_Some (hash_key (comment_id repr_container comment))) all ->
   is_ok (merge_comments repr_container api_comments event_comments))
  /\ (forall merged,
        merge_comments repr_container api_comments event_comments = Ok merged ->
        merged `sublist_of` all
        /\ NoDup (keys_of (comment_keying repr_container) merged)
        /\ Forall (fun comment => truthy (comment_id repr_container comment) = true)
                  merged
        /\ forall k, List.find (has_keying (comment_keying repr_container) k) merged
                     = List.find (has_keying (comment_keying repr_container) k) all).
Proof.
  intros all. rewrite merge_comments_keep_first. fold all. split.
  - intros Hh. apply keep_first_returns. eapply Forall_impl; [exact Hh|].
    simpl. intros comment Hc. unfold comment_keying.
    destruct (truthy _); [|done]. by destruct (Hc eq_refl) as [k ->].
  - intros merged Hm.
    destruct (keep_first_spec _ _ _ _ Hm) as (Hsub & Hnd & Hall & Hfind).
    split; [done|]. split; [done|]. split.
    + eapply Forall_impl; [exact Hall|]. simpl. intros comment (k & Hk & _).
      unfold comment_keying in Hk. by destruct (truthy _).
    + intros k. apply Hfind, not_elem_of_nil.
Qed.

Lemma filter_same_key classify (p : pydict -> bool) k records :
  NoDup (keys_of classify records) ->
  (forall record, p record = true -> classify record = Key k) ->
  (length (List.filter p records) <= 1)%nat.
Proof.
  intros Hnd Hp. induction records as [|record rest IH]; [simpl; lia|].
  unfold keys_of in Hnd. cbn [omap list_omap] in Hnd. simpl.
  destruct (p record) eqn:Hr.
  - rewrite (Hp _ Hr) in Hnd. apply NoDup_cons in Hnd as [Hnin Hnd].
    assert (List.filter p rest = []) as ->; [|simpl; lia].
    destruct (List.filter p rest) as [|other l] eqn:Hf; [done|]. exfalso.
    assert (Hin : In other (List.filter p rest)) by (rewrite Hf; left; done).
    apply filter_In in Hin as [Hin Ho]. apply Hnin.
    apply list_elem_of_omap. exists other. split; [by apply list_elem_of_In|].
    by rewrite (Hp _ Ho).
  - apply IH. destruct (classify record); [done..|]. by apply NoDup_cons in Hnd as [_ ?].
Qed.

(** X22. The merge of the commits in [_fetch_all_data] keeps the first
    commit of every [sha], the searched commits before those taken from
    pull requests, in order.  A missing [sha] counts as the empty one, so
    of the commits without [sha] only the first is kept. *)
Theorem merge_commits_first_seen (commits pr_commits : list pydict) :
  let all := commits ++ pr_commits in
  (Forall (fun commit => is_Some (hash_key (dict_get_or commit "sha" (VStr "")))) all ->
   is_ok (merge_commits commits pr_commits))
  /\ (forall merged,
        merge_commits commits pr_commits = Ok merged ->
        merged `sublist_of` all
        /\ NoDup (keys_of commit_keying merged)
        /\ (forall k, List.find (has_keying commit_keying k) merged
                      = List.find (has_keying commit_keying k) all)
        /\ (length (List.filter (fun commit => bool_decide (commit !! "sha" = None))
                                merged) <= 1)%nat).
Proof.
  intros all. rewrite merge_commits_keep_first. fold all. split.
  - intros Hh. apply keep_first_returns. eapply Forall_impl; [exact Hh|].
    simpl. intros commit [k Hk]. unfold commit_keying. by rewrite Hk.
  - intros merged Hm.
    destruct (keep_first_spec _ _ _ _ Hm) as (Hsub & Hnd & Hall & Hfind).
    split; [done|]. split; [done|]. split.
    + intros k. apply Hfind, not_elem_of_nil.
    + apply (filter_same_key commit_keying _ (HStr "")); [done|].
      intros commit Hc. apply bool_decide_eq_true in Hc.
      unfold commit_keying, dict_get_or. by rewrite Hc.
Qed.
End MergeFacts.

Example merge_prs_flag_lost_ex :
  let updated : pydict :=
    <["repository" := VStr "o/r"]> (<["number" := VInt 7]>
      (<["created_at" := VStr "2024-01-10T00:00:00Z"]> ∅)) in
  let open : pydict := <["has_period_activity" := VBool true]> updated in
  Orchestrator.merge_prs (fun _ => "") [] [updated] [open] = [updated]
  /\ Aggregator._filter_prs_by_date 739038 739067 (fun _ => "") [updated] = []
  /\ Aggregator._filter_prs_by_date 739038 739067 (fun _ => "") [open] = [open].
Proof. intros updated open. split; [|split]; vm_compute; reflexivity. Qed.

Example merge_comments_ex :
  Orchestrator.merge_comments (fun _ => "")
    [<["id" := VInt 1]> ∅; <["body" := VStr "no id, no url"]> ∅]
    [<["id" := VInt 1]> (<["body" := VStr "from events"]> ∅)]
  = Ok [<["id" := VInt 1]> ∅].
Proof. vm_compute. reflexivity. Qed.

(** ** The breakdown by repository *)
Example get_repo_breakdown_ex :
  let at_ (s : string) : pydict := <["repository" := VStr s]> ∅ in
  Aggregator.get_repo_breakdown
    {| Aggregator.commits := [at_ "b/x"; at_ "a/y"; at_ "b/x"; at_ "c/z"];
       Aggregator.pull_requests := [at_ "a/y"]; Aggregator.issues := [];
       Aggregator.reviews := []; Aggregator.comments := [];
       Aggregator.start_date := None; Aggregator.end_date := None;
       Aggregator.username := ""; Aggregator.repositories := [VStr "b/x"; VStr "a/y"] |}
  = Ok [ <["name" := VStr "a/y"]> (Aggregator.stats_of 1 1 0 0);
         <["name" := VStr "b/x"]> (Aggregator.stats_of 2 0 0 0) ].
Proof. vm_compute. reflexivity. Qed.

Section BreakdownFacts.
Import Aggregator.

Lemma stats_set_fresh f names name stats :
  name ∉ names ->
  stats_set (HStr name) (VStr name) stats (stats_items f names)
  = stats_items f names ++ [(HStr name, VStr name, stats)].
Proof.
  unfold stats_items. induction names as [|n names IH]; intros Hnin; [done|].
  apply not_elem_of_cons in Hnin as [Hne Hnin]. cbn [fmap list_fmap stats_set].
  rewrite decide_False by congruence. cbn. by rewrite <- IH.
Qed.

Lemma init_stats_names names : forall seen,
  NoDup (seen ++ names) ->
  init_stats (VStr <$> names) (stats_items (fun _ => zero_stats) seen)
  = Ok (stats_items (fun _ => zero_stats) (seen ++ names)).
Proof.
  induction names as [|name names IH]; intros seen Hnd.
  - by rewrite app_nil_r.
  - cbn [fmap list_fmap init_stats hash_key].
    rewrite stats_set_fresh.
    + change (stats_items (fun _ => zero_stats) seen ++ [(HStr name, VStr name, zero_stats)])
        with (stats_items (fun _ => zero_stats) seen
              ++ stats_items (fun _ => zero_stats) [name]).
      unfold stats_items at 1 2. rewrite <- fmap_app.
      fold (stats_items (fun _ => zero_stats) (seen ++ [name])).
      rewrite IH by (by rewrite <- app_assoc). by rewrite <- app_assoc.
    + apply NoDup_app in Hnd as (_ & Hd & _). intros Hin. apply (Hd _ Hin). left.
Qed.

Lemma in_stats_items f names name :
  in_stats (HStr name) (stats_items f names) = bool_decide (name ∈ names).
Proof.
  unfold in_stats, stats_items. apply bool_decide_ext.
  rewrite <- list_fmap_compose. split.
  - intros (n & [= ->] & Hn)%list_elem_of_fmap. done.
  - intros Hin. apply list_elem_of_fmap. by exists name.
Qed.

Lemma stats_incr_items field f names name :
  NoDup names ->
  stats_incr (HStr name) field (stats_items f names)
  = stats_items (fun n => if decide (n = name) then stat_incr field (f n) else f n)
                names.
Proof.
  unfold stats_items. induction names as [|n names IH]; intros Hnd; [done|].
  apply NoDup_cons in Hnd as [Hnin Hnd]. cbn [fmap list_fmap stats_incr].
  destruct (decide (n = name)) as [->|Hne].
  - rewrite decide_True by done. f_equal.
    apply Forall_fmap_ext, Forall_forall. intros m Hm.
    rewrite decide_False; [done|]. intros ->. done.
  - rewrite decide_False by congruence. f_equal. by apply IH.
Qed.

Lemma stat_add_incr field k stats n :
  stats !! field = Some (VInt n) ->
  stat_add field k (stat_incr field stats) = stat_add field (1 + k) stats.
Proof.
  intros H. unfold stat_add, stat_incr. rewrite H, lookup_insert_eq, insert_insert_eq.
  do 2 f_equal. lia.
Qed.

Lemma stat_add_zero field stats n :
  stats !! field = Some (VInt n) -> stat_add field 0 stats = stats.
Proof.
  intros H. unfold stat_add. rewrite H. rewrite Z.add_0_r. by apply insert_id.
Qed.

Lemma at_repo_string record s name :
  dict_get_or record "repository" (VStr "") = VStr s ->
  at_repo name record = bool_decide (s = name) && negb (String.eqb s "").
Proof.
  intros H. unfold at_repo. rewrite H. simpl.
  destruct (String.eqb_spec s name) as [->|Hne].
  - by rewrite bool_decide_eq_true_2.
  - by rewrite bool_decide_eq_false_2.
Qed.

(** One counting loop adds, for every repository, the number of records
    of that repository to its count. *)
Lemma count_kind_items field records names : forall f,
  NoDup names -> repositories_are_strings records ->
  (forall n, exists z, f n !! field = Some (VInt z)) ->
  count_kind field records (stats_items f names)
  = Ok (stats_items
          (fun n => stat_add field (len (List.filter (at_repo n) records)) (f n))
          names).
Proof.
  induction records as [|record rest IH]; intros f Hnd Hs Hf.
  - cbn [count_kind List.filter]. f_equal. unfold stats_items.
    apply Forall_fmap_ext, Forall_forall. intros n _.
    destruct (Hf n) as [z Hz]. change (len (@nil pydict)) with 0.
    by rewrite (stat_add_zero _ _ _ Hz).
  - apply Forall_cons in Hs as [[s Hrepo] Hrest].
    cbn [count_kind]. rewrite Hrepo. cbn [truthy hash_key].
    assert (Hat : forall n, at_repo n record
                            = bool_decide (s = n) && negb (String.eqb s ""))
      by (intros n; by apply at_repo_string).
    assert (Hlen : forall n, len (List.filter (at_repo n) (record :: rest))
                   = (if at_repo n record then 1 else 0)
                     + len (List.filter (at_repo n) rest)).
    { intros n. unfold len. cbn [List.filter]. destruct (at_repo n record); simpl; lia. }
    destruct (String.eqb_spec s "") as [->|Hne]; cbn [negb].
    + rewrite IH by done. f_equal. unfold stats_items.
      apply Forall_fmap_ext, Forall_forall. intros n _.
      rewrite Hlen, Hat. by rewrite andb_false_r.
    + rewrite in_stats_items. destruct (decide (s ∈ names)) as [Hin|Hnin].
      * rewrite bool_decide_eq_true_2 by done.
        rewrite stats_incr_items by done. rewrite IH; [|done..|].
        -- f_equal. unfold stats_items.
           apply Forall_fmap_ext, Forall_forall. intros n _.
           rewrite Hlen, Hat, andb_true_r. destruct (Hf n) as [z Hz].
           destruct (decide (n = s)) as [->|Hns].
           ++ rewrite bool_decide_eq_true_2 by done. f_equal.
              by eapply stat_add_incr.
           ++ rewrite bool_decide_eq_false_2 by congruence. done.
        -- intros n. destruct (Hf n) as [z Hz]. destruct (decide (n = s)); [|eauto].
           exists (z + 1). unfold stat_incr. by rewrite Hz, lookup_insert_eq.
      * rewrite bool_decide_eq_false_2 by done. rewrite IH by done.
        f_equal. unfold stats_items.
        apply Forall_fmap_ext, Forall_forall. intros n Hn.
        rewrite Hlen, Hat.
        rewrite bool_decide_eq_false_2; [done|]. intros ->. done.
Qed.

Lemma stat_add_stats_of k c p i r :
  stat_add "commits" k (stats_of c p i r) = stats_of (c + k) p i r
  /\ stat_add "prs" k (stats_of c p i r) = stats_of c (p + k) i r
  /\ stat_add "issues" k (stats_of c p i r) = stats_of c p (i + k) r
  /\ stat_add "reviews" k (stats_of c p i r) = stats_of c p i (r + k).
Proof. repeat split; vm_compute; reflexivity. Qed.

Lemma stats_of_lookup c p i r :
  stats_of c p i r !! "commits" = Some (VInt c)
  /\ stats_of c p i r !! "prs" = Some (VInt p)
  /\ stats_of c p i r !! "issues" = Some (VInt i)
  /\ stats_of c p i r !! "reviews" = Some (VInt r).
Proof. repeat split; vm_compute; reflexivity. Qed.

Lemma stats_items_ext f g names :
  (forall n, f n = g n) -> stats_items f names = stats_items g names.
Proof.
  intros H. unfold stats_items. apply Forall_fmap_ext, Forall_forall.
  intros n _. by rewrite H.
Qed.

#[local] Instance item_le_total : Total item_le.
Proof.
  intros [[a ?] ?] [[b ?] ?]. unfold item_le. simpl.
  destruct a as [|x|s], b as [|y|t]; simpl; auto.
  - destruct (Z.leb_spec x y); [by left|right]. apply Z.leb_le. lia.
  - apply String.leb_total.
Qed.

Lemma sorted_stats_items f names :
  Sorted item_le (stats_items f names) ->
  Sorted (fun a b => String.leb a b = true) names.
Proof.
  unfold stats_items. induction names as [|s names IH]; [constructor|].
  rewrite fmap_cons. intros [Hs Hhd]%Sorted_inv. constructor; [by apply IH|].
  destruct names as [|t names]; [constructor|].
  rewrite fmap_cons in Hhd. apply HdRel_inv in Hhd. by constructor.
Qed.

Lemma stats_items_back f items names :
  items ≡ₚ stats_items f names ->
  exists names', items = stats_items f names' /\ names' ≡ₚ names.
Proof.
  intros Hp. unfold stats_items in *.
  exists ((fun e : hkey * val * pydict =>
             match e.1.1 with HStr s => s | _ => "" end) <$> items).
  split.
  - rewrite <- list_fmap_compose. rewrite <- (list_fmap_id items) at 1.
    apply Forall_fmap_ext, Forall_forall. intros e He. rewrite Hp in He.
    apply list_elem_of_fmap in He as (s & -> & _). done.
  - rewrite Hp, <- list_fmap_compose. by rewrite list_fmap_id.
Qed.

(** X23. When the repositories of the data are distinct strings and every
    record's repository is a string, [get_repo_breakdown] returns one
    entry per repository of the data, in ascending order of name, each
    with the numbers of commits, pull requests, issues and reviews of
    that repository.  Records of a repository that is not among those of
    the data are not counted, nor are comments. *)
Theorem repo_breakdown_counts (data : AggregatedData) (names : list string) :
  repositories data = VStr <$> names -> NoDup names ->
  repositories_are_strings (commits data) ->
  repositories_are_strings (pull_requests data) ->
  repositories_are_strings (issues data) ->
  repositories_are_strings (reviews data) ->
  exists sorted_names,
    get_repo_breakdown data = Ok (breakdown_entry data <$> sorted_names)
    /\ sorted_names ≡ₚ names
    /\ Sorted (fun a b => String.leb a b = true) sorted_names.
Proof.
  intros Hrepos Hnd Hc Hp Hi Hr. unfold get_repo_breakdown. rewrite Hrepos.
  pose proof (init_stats_names names [] Hnd) as Hinit.
  change (stats_items (fun _ => zero_stats) []) with (@nil (hkey * val * pydict)) in Hinit.
  rewrite Hinit. cbn [mbind result_bind rbind app].
  change zero_stats with (stats_of 0 0 0 0).
  rewrite (count_kind_items "commits") by
    (try done; intros n; eexists; apply stats_of_lookup).
  cbn [mbind result_bind rbind].
  rewrite (stats_items_ext _
             (fun n => stats_of (len (List.filter (at_repo n) (commits data))) 0 0 0))
    by (intros n; exact (proj1 (stat_add_stats_of _ 0 0 0 0))).
  rewrite (count_kind_items "prs") by
    (try done; intros n; eexists; apply stats_of_lookup).
  cbn [mbind result_bind rbind].
  rewrite (stats_items_ext _
             (fun n => stats_of (len (List.filter (at_repo n) (commits data)))
                                (len (List.filter (at_repo n) (pull_requests data)))
                                0 0))
    by (intros n; exact (proj1 (proj2 (stat_add_stats_of _ _ 0 0 0)))).
  rewrite (count_kind_items "issues") by
    (try done; intros n; eexists; apply stats_of_lookup).
  cbn [mbind result_bind rbind].
  rewrite (stats_items_ext _
             (fun n => stats_of (len (List.filter (at_repo n) (commits data)))
                                (len (List.filter (at_repo n) (pull_requests data)))
                                (len (List.filter (at_repo n) (issues data))) 0))
    by (intros n; exact (proj1 (proj2 (proj2 (stat_add_stats_of _ _ _ 0 0))))).
  rewrite (count_kind_items "reviews") by
    (try done; intros n; eexists; apply stats_of_lookup).
  cbn [mbind result_bind rbind].
  rewrite (stats_items_ext _
             (fun n => stats_of (len (List.filter (at_repo n) (commits data)))
                                (len (List.filter (at_repo n) (pull_requests data)))
                                (len (List.filter (at_repo n) (issues data)))
                                (len (List.filter (at_repo n) (reviews data)))))
    by (intros n; exact (proj2 (proj2 (proj2 (stat_add_stats_of _ _ _ _ 0))))).
  set (f := fun n => stats_of (len (List.filter (at_repo n) (commits data)))
                              (len (List.filter (at_repo n) (pull_requests data)))
                              (len (List.filter (at_repo n) (issues data)))
                              (len (List.filter (at_repo n) (reviews data)))).
  unfold sorted_items.
  assert (forallb (fun e : hkey * val * pydict => is_HStr e.1.1) (stats_items f names)
          = true) as ->.
  { apply forallb_forall. intros e He. apply list_elem_of_In in He.
    apply list_elem_of_fmap in He as (s & -> & _). done. }
  rewrite !orb_true_r. cbn [mbind result_bind rbind].
  destruct (stats_items_back f _ _ (merge_sort_Permutation item_le (stats_items f names)))
    as (names' & Hsorted & Hperm).
  exists names'. split; [|split; [done|]].
  - rewrite Hsorted. unfold named_stats, stats_items. rewrite <- list_fmap_compose.
    done.
  - apply (sorted_stats_items f). rewrite <- Hsorted. apply Sorted_merge_sort, _.
Qed.
End BreakdownFacts.

Lemma repo_breakdown_counts_witness :
  let at_ (s : string) : pydict := <["repository" := VStr s]> ∅ in
  let data :=
    {| Aggregator.commits := [at_ "b/x"; at_ "a/y"; at_ "b/x"];
       Aggregator.pull_requests := [at_ "a/y"]; Aggregator.issues := [];
       Aggregator.reviews := []; Aggregator.comments := [];
       Aggregator.start_date := None; Aggregator.end_date := None;
       Aggregator.username := ""; Aggregator.repositories := [VStr "b/x"; VStr "a/y"] |} in
  exists sorted_names,
    Aggregator.get_repo_breakdown data
    = Ok (Aggregator.breakdown_entry data <$> sorted_names)
    /\ sorted_names ≡ₚ ["b/x"; "a/y"].
Proof.
  intros at_ data.
  destruct (repo_breakdown_counts data ["b/x"; "a/y"]) as (sorted_names & H & Hp & _).
  - reflexivity.
  - apply NoDup_cons. split; [|apply NoDup_singleton].
    intros [=]%list_elem_of_singleton.
  - repeat constructor; by eexists.
  - repeat constructor; by eexists.
  - constructor.
  - constructor.
  - exists sorted_names. auto.
Defined.

(** ** Host calls of the open-PR search *)
Section OpenPRCalls.
Import Date PullRequestsFetcher.
Context {W : Type}.
Variable gh_api : string -> bool -> M W val.
Variable quote : string -> string.
Variable repr_container : val -> string.
Variable username : string.

Lemma probe_calls (endpoint : string) (date_of : val -> result val)
    (start_str end_str : string) (w w' : W) (log log' : list string) (found : bool) :
  probe (logged_api gh_api) endpoint date_of start_str end_str (w, log)
  = (found, (w', log')) ->
  log' = log ++ [endpoint].
Proof.
  unfold probe, logged_api.
  destruct (gh_api endpoint false w) as [[[]|e] w1]; by intros [= _ _ <-].
Qed.

Lemma check_pr_activity_calls (repo : string) (pr_number : val) (start end_date : date)
    (w w' : W) (log log' : list string) (found : bool) :
  _check_pr_activity_in_period (logged_api gh_api) repr_container repo pr_number
    start end_date (w, log) = (found, (w', log')) ->
  exists calls, log' = log ++ calls /\ (1 <= length calls <= 3)%nat
                /\ (found = false -> length calls = 3%nat).
Proof.
  unfold _check_pr_activity_in_period. cbv zeta.
  destruct (probe _ _ review_date_of _ _ (w, log)) as [found1 [w1 log1]] eqn:E1.
  apply probe_calls in E1 as ->.
  destruct found1.
  { intros [= <- _ <-]. eexists. split; [done|]. cbn. split; [lia|done]. }
  destruct (probe _ _ comment_date_of _ _ _) as [found2 [w2 log2]] eqn:E2.
  apply probe_calls in E2 as ->.
  destruct found2.
  { intros [= <- _ <-]. eexists. rewrite <- app_assoc. split; [done|].
    cbn. split; [lia|done]. }
  intros ->%probe_calls. eexists. rewrite <- !app_assoc. split; [done|].
  cbn. split; [lia|done].
Qed.

Lemma open_pr_record_calls (start end_date : date) (item : val)
    (w w' : W) (log log' : list string) (r : result (list pydict)) :
  open_pr_record (logged_api gh_api) repr_container start end_date item (w, log)
  = (r, (w', log')) ->
  exists calls, log' = log ++ calls /\ (length calls <= 3)%nat.
Proof.
  assert (Hnone : forall r0 : result (list pydict),
            (r0, (w, log)) = (r, (w', log')) ->
            exists calls, log' = log ++ calls /\ (length calls <= 3)%nat).
  { intros r0 [= _ _ <-]. exists []. rewrite app_nil_r. split; [done|cbn; lia]. }
  unfold open_pr_record. destruct item as [| | | | |it]; try apply Hnone.
  destruct (if truthy _ then _ else _) as [repo_name|e]; [|apply Hnone].
  destruct (_ || _); [apply Hnone|].
  destruct (_check_pr_activity_in_period _ _ _ _ _ _ _) as [found [w1 log1]] eqn:E.
  apply check_pr_activity_calls in E as (calls & -> & Hlen & _).
  destruct found.
  - destruct (if truthy _ then _ else _); intros [= _ _ <-]; exists calls;
      (split; [done|lia]).
  - intros [= _ _ <-]. exists calls. split; [done|lia].
Qed.

Lemma for_extend_calls {A B} (body : A -> M (W * list string) (list B)) (k : nat) :
  (forall x w log r w' log', body x (w, log) = (r, (w', log')) ->
     exists calls, log' = log ++ calls /\ (length calls <= k)%nat) ->
  forall xs w log r w' log', for_extend body xs (w, log) = (r, (w', log')) ->
     exists calls, log' = log ++ calls /\ (length calls <= k * length xs)%nat.
Proof.
  intros Hbody. induction xs as [|x rest IH]; intros w log r w' log'.
  - intros [= _ _ <-]. exists []. rewrite app_nil_r. split; [done|cbn; lia].
  - cbn [for_extend]. unfold bindM at 1.
    destruct (body x (w, log)) as [[out|e] [w1 log1]] eqn:E;
      apply Hbody in E as (calls1 & -> & Hlen1).
    + unfold bindM at 1.
      destruct (for_extend body rest (w1, log ++ calls1)) as [[outs|e] [w2 log2]] eqn:E';
        apply IH in E' as (calls2 & -> & Hlen2);
        intros [= _ _ <-]; exists (calls1 ++ calls2);
        (split; [by rewrite app_assoc|rewrite length_app; cbn [length]; lia]).
    + intros [= _ _ <-]. exists calls1. split; [done|cbn [length]; lia].
Qed.

(** X24. [fetch_open_prs_with_activity] asks the host first for the search
    and then at most three times for each search hit; when the search
    fails, it asks nothing more and returns the empty list. *)
Theorem open_prs_call_bound (start end_date : date) (w w' : W)
    (log log' : list string) (r : result (list pydict)) :
  fetch_open_prs_with_activity (logged_api gh_api) quote repr_container username
    start end_date (w, log) = (r, (w', log')) ->
  exists calls,
    log' = log ++ open_endpoint quote username :: calls
    /\ (forall found w1 hits,
          gh_api (open_endpoint quote username) false w = (Ok found, w1) ->
          py_iter (items_of found) = Ok hits ->
          (length calls <= 3 * length hits)%nat)
    /\ (forall e w1,
          gh_api (open_endpoint quote username) false w = (Raise e, w1) ->
          calls = [] /\ r = Ok []).
Proof.
  unfold fetch_open_prs_with_activity. unfold logged_api at 1.
  destruct (gh_api (open_endpoint quote username) false w) as [[found|e] w1] eqn:E.
  - destruct (py_iter (items_of found)) as [hits|e] eqn:Ehits.
    + intros H. eapply for_extend_calls in H as (calls & -> & Hlen);
        [|intros x w0 log0 r0 w0' log0'; apply open_pr_record_calls].
      exists calls. rewrite <- app_assoc. split; [done|]. split; [|done].
      intros found' w1' hits' [= <- _]. rewrite Ehits. by intros [= <-].
    + intros [= _ _ <-]. exists []. split; [done|]. split; [|done].
      intros found' w1' hits' [= <- _]. by rewrite Ehits.
  - intros [= <- _ <-]. exists []. split; [done|]. split; [done|]. done.
Qed.
End OpenPRCalls.

Lemma open_prs_call_bound_witness :
  let hit : val :=
    VDict (<["repository_url" := VStr "https://api.github.com/repos/o/r"]>
          (<["number" := VInt 7]> ∅)) in
  let gh_api : string -> bool -> M unit val := fun endpoint _ =>
    if String.prefix "/search" endpoint
    then liftM (Ok (VDict (<["items" := VList [hit]]> ∅)))
    else liftM (Ok (VList [])) in
  let log' : list string :=
    [ "/search/issues?q=author:octocat type:pr is:open&per_page=100";
      "/repos/o/r/pulls/7/reviews";
      "/repos/o/r/issues/7/comments";
      "/repos/o/r/pulls/7/commits" ] in
  PullRequestsFetcher.fetch_open_prs_with_activity (logged_api gh_api) (fun q => q)
    (fun _ => "") "octocat" 739038 739067 (tt, []) = (Ok [], (tt, log'))
  /\ exists calls,
       log' = [] ++ PullRequestsFetcher.open_endpoint (fun q => q) "octocat" :: calls
       /\ (length calls <= 3 * 1)%nat.
Proof.
  intros hit gh_api log'.
  assert (H : PullRequestsFetcher.fetch_open_prs_with_activity (logged_api gh_api)
                (fun q => q) (fun _ => "") "octocat" 739038 739067 (tt, [])
              = (Ok [], (tt, log'))) by (vm_compute; reflexivity).
  split; [exact H|].
  destruct (open_prs_call_bound gh_api (fun q => q) (fun _ => "") "octocat"
              739038 739067 tt tt [] log' (Ok []) H) as (calls & Hlog & Hbound & _).
  exists calls. split; [exact Hlog|].
  apply (Hbound (VDict (<["items" := VList [hit]]> ∅)) tt [hit]);
    vm_compute; reflexivity.
Defined.

(** ** Pull requests updated in the period *)
Section UpdatedPRs.
Import Date PullRequestsFetcher Aggregator.
Context {W : Type}.
Variable gh_api : string -> bool -> M W val.
Variable quote : string -> string.
Variable username : string.

Lemma transform_updated_item_unflagged item pr :
  transform_updated_item item = Ok pr -> pr !! "has_period_activity" = None.
Proof.
  unfold transform_updated_item. destruct item as [| | | | |it]; try done.
  destruct (if truthy (dict_get_or it "repository_url" (VStr "")) then _ else _)
    as [repo_name|e]; [|done]. simpl.
  destruct (if truthy (dict_get_or it "pull_request" (VDict ∅)) then _ else _)
    as [merged_at|e]; [|done]. simpl.
  intros [= <-]. by simplify_map_eq.
Qed.

(** X25. No pull request [fetch_prs_updated_in_period] returns carries
    [has_period_activity].  So the aggregator's [_filter_prs_by_date]
    keeps of them what [_filter_by_date] on ["created_at"] keeps: a pull
    request that was updated in the period but created outside it is
    dropped. *)
Theorem updated_prs_kept_by_creation (start end_date : date) (w w' : W)
    (out : list pydict) :
  fetch_prs_updated_in_period gh_api quote username start end_date w = (Ok out, w') ->
  Forall (fun pr => pr !! "has_period_activity" = None) out
  /\ forall period_start period_end repr,
       _filter_prs_by_date period_start period_end repr out
       = _filter_by_date period_start period_end repr out "created_at".
Proof.
  intros H.
  assert (Hall : Forall (fun pr : pydict => pr !! "has_period_activity" = None) out).
  { revert H. unfold fetch_prs_updated_in_period.
    destruct (gh_api _ false w) as [[result|e] w1].
    2:{ intros [= <- _]. constructor. }
    destruct (py_iter (items_of result)) as [items|e]; simpl; [|done].
    intros [= H _]. revert H. apply for_extend_pure_Forall.
    intros item recs _. destruct (transform_updated_item item) as [pr|] eqn:E; [|done].
    simpl. intros [= <-]. constructor; [|constructor].
    by apply transform_updated_item_unflagged in E. }
  split; [done|]. intros period_start period_end repr.
  rewrite filter_prs_by_date_filter, filter_by_date_filter.
  clear H. induction Hall as [|pr rest Hpr _ IH]; [done|].
  cbn [List.filter]. rewrite IH. unfold dict_get at 1. rewrite Hpr. done.
Qed.
End UpdatedPRs.

Lemma updated_prs_kept_by_creation_witness :
  let gh_api : string -> bool -> M unit val := fun _ _ =>
    liftM (Ok (VDict (<["items" :=
      VList [VDict (<["repository_url" := VStr "https://api.github.com/repos/o/r"]>
                   (<["number" := VInt 7]>
                   (<["created_at" := VStr "2023-01-01T00:00:00Z"]>
                   (<["updated_at" := VStr "2024-06-15T00:00:00Z"]> ∅))))]]> ∅))) in
  let out : list pydict :=
    [ <["number" := VInt 7]>
     (<["title" := VStr ""]>
     (<["state" := VStr ""]>
     (<["repository" := VStr "o/r"]>
     (<["created_at" := VStr "2023-01-01T00:00:00Z"]>
     (<["updated_at" := VStr "2024-06-15T00:00:00Z"]>
     (<["merged_at" := VNone]>
     (<["closed_at" := VNone]>
     (<["url" := VStr ""]> ∅)))))))) ] in
  PullRequestsFetcher.fetch_prs_updated_in_period gh_api (fun q => q) "octocat"
    739038 739067 tt = (Ok out, tt)
  /\ Aggregator._filter_prs_by_date 739038 739067 (fun _ => "") out
     = Aggregator._filter_by_date 739038 739067 (fun _ => "") out "created_at"
  /\ Aggregator._filter_prs_by_date 739038 739067 (fun _ => "") out = [].
Proof.
  intros gh_api out.
  assert (H : PullRequestsFetcher.fetch_prs_updated_in_period gh_api (fun q => q)
                "octocat" 739038 739067 tt = (Ok out, tt))
    by (vm_compute; reflexivity).
  split; [exact H|]. split.
  - exact (proj2 (updated_prs_kept_by_creation gh_api (fun q => q) "octocat"
                    739038 739067 tt tt out H) 739038 739067 (fun _ => "")).
  - vm_compute; reflexivity.
Defined.

(** ** Period strings *)
Section PeriodRoundTrip.
Import DateUtils.

Example format_period_ex :
  format_period 2024 "monthly" 7 = "2024-07"
  /\ format_period 2024 "quarterly" 4 = "2024-Q4"
  /\ format_period (-5) "monthly" (-3) = "-5--3"
  /\ str_split2 "-" "Q" "2024-Q4" = ["2024"; "4"]
  /\ str_split2 "-" "Q" "a-Q-Qb-" = ["a"; ""; "b-"]
  /\ parse_period read_decimal "2024-Q4" = Ok (2024, "quarterly", 4)
  /\ parse_period read_decimal "2024-12" = Ok (2024, "monthly", 12)
  /\ parse_period read_decimal "2024-13" = Raise ValueError
  /\ parse_period read_decimal "2024" = Raise ValueError.
Proof. repeat split; vm_compute; reflexivity. Qed.

Lemma str_all_app (p : ascii -> bool) (s t : string) :
  str_all p (s ++ t)%string = str_all p s && str_all p t.
Proof.
  induction s as [|c s IH]; [done|].
  change (String c s ++ t)%string with (String c (s ++ t)%string).
  cbn [str_all]. by rewrite IH, andb_assoc.
Qed.

Lemma str_all_impl (p q : ascii -> bool) (s : string) :
  (forall c, p c = true -> q c = true) -> str_all p s = true -> str_all q s = true.
Proof.
  intros Hpq. induction s as [|c s IH]; [done|]. cbn [str_all].
  intros [Hc Hs]%andb_prop. by rewrite (Hpq _ Hc), (IH Hs).
Qed.

Lemma string_of_uint_digits (d : Decimal.uint) :
  str_all is_digit (NilZero.string_of_uint d) = true /\
  str_all is_digit (NilEmpty.string_of_uint d) = true.
Proof.
  assert (H : str_all is_digit (NilEmpty.string_of_uint d) = true)
    by (induction d; cbn; done).
  split; [|done]. destruct d; done.
Qed.

Lemma str_of_Z_digits (n : Z) :
  0 <= n -> str_all is_digit (str_of_Z n) = true.
Proof.
  intros Hn. unfold str_of_Z. destruct n as [|p|p]; [done| |lia].
  apply string_of_uint_digits.
Qed.

Lemma str_of_Z_no_Q (n : Z) :
  str_all (fun c => negb (c =? "Q")%char) (str_of_Z n) = true.
Proof.
  assert (Hd : forall c, is_digit c = true -> negb (c =? "Q")%char = true).
  { intros [[] [] [] [] [] [] [] []]; vm_compute; done. }
  unfold str_of_Z. destruct n as [|p|p]; [done| |].
  - eapply str_all_impl; [exact Hd|]. apply string_of_uint_digits.
  - cbn. eapply str_all_impl; [exact Hd|]. apply string_of_uint_digits.
Qed.

Lemma str_of_Z_negative (n : Z) :
  n < 0 -> exists digits, str_of_Z n = String "-" digits
                          /\ str_all is_digit digits = true.
Proof.
  intros Hn. unfold str_of_Z. destruct n as [|p|p]; [lia|lia|].
  eexists. split; [reflexivity|]. apply string_of_uint_digits.
Qed.

Lemma str_split_none (sep : ascii) (s : string) :
  str_all (fun c => negb (c =? sep)%char) s = true -> str_split sep s = [s].
Proof.
  induction s as [|c s IH]; [done|]. cbn [str_all str_split].
  intros [Hc Hs]%andb_prop. apply negb_true_iff in Hc. by rewrite Hc, (IH Hs).
Qed.

Lemma str_split_once (sep : ascii) (s t : string) :
  str_all (fun c => negb (c =? sep)%char) s = true ->
  str_all (fun c => negb (c =? sep)%char) t = true ->
  str_split sep (s ++ String sep t) = [s; t].
Proof.
  intros Hs Ht. induction s as [|c s IH].
  - change (str_split sep (String sep t) = [EmptyString; t]).
    cbn [str_split]. by rewrite Ascii.eqb_refl, (str_split_none _ _ Ht).
  - change (String c s ++ String sep t)%string with (String c (s ++ String sep t)%string).
    cbn [str_all] in Hs. apply andb_prop in Hs as [Hc Hs]. apply negb_true_iff in Hc.
    cbn [str_split]. by rewrite Hc, (IH Hs).
Qed.

Lemma str_split_twice (sep : ascii) (s t : string) :
  (2 <= length (str_split sep (s ++ String sep t)))%nat.
Proof.
  assert (Hne : forall u, (1 <= length (str_split sep u))%nat).
  { induction u as [|c u IH]; [done|]. cbn [str_split].
    destruct (Ascii.eqb c sep); [cbn; lia|].
    destruct (str_split sep u); cbn in *; lia. }
  induction s as [|c s IH].
  - change (EmptyString ++ String sep t)%string with (String sep t).
    cbn [str_split]. rewrite Ascii.eqb_refl. specialize (Hne t). cbn. lia.
  - change (String c s ++ String sep t)%string with (String c (s ++ String sep t)%string).
    cbn [str_split]. destruct (Ascii.eqb c sep); [cbn; lia|].
    destruct (str_split sep (s ++ String sep t)); cbn in *; lia.
Qed.

Lemma str_contains2_none (c1 c2 : ascii) (s : string) :
  str_all (fun c => negb (c =? c2)%char) s = true -> str_contains2 c1 c2 s = false.
Proof.
  induction s as [|a s IH]; [done|]. cbn [str_all].
  intros [_ Hs]%andb_prop. specialize (IH Hs).
  destruct s as [|b rest]; [done|].
  change (str_contains2 c1 c2 (String a (String b rest)))
    with ((Ascii.eqb a c1 && Ascii.eqb b c2) || str_contains2 c1 c2 (String b rest)).
  rewrite IH. cbn [str_all] in Hs. apply andb_prop in Hs as [Hb _].
  apply negb_true_iff in Hb. rewrite Hb. by rewrite andb_false_r.
Qed.

Lemma str_split2_none (c1 c2 : ascii) (s : string) :
  str_all (fun c => negb (c =? c2)%char) s = true -> str_split2 c1 c2 s = [s].
Proof.
  induction s as [|a s IH]; [done|]. cbn [str_all].
  intros [_ Hs]%andb_prop. specialize (IH Hs).
  destruct s as [|b rest]; [done|].
  change (str_split2 c1 c2 (String a (String b rest)))
    with (if Ascii.eqb a c1 && Ascii.eqb b c2
          then EmptyString :: str_split2 c1 c2 rest
          else match str_split2 c1 c2 (String b rest) with
               | piece :: pieces => String a piece :: pieces
               | [] => [String a EmptyString]
               end).
  rewrite IH. cbn [str_all] in Hs. apply andb_prop in Hs as [Hb _].
  apply negb_true_iff in Hb. by rewrite Hb, andb_false_r.
Qed.

Lemma str_split2_once (c1 c2 : ascii) (s t : string) :
  c1 <> c2 ->
  str_all (fun c => negb (c =? c2)%char) s = true ->
  str_all (fun c => negb (c =? c2)%char) t = true ->
  str_split2 c1 c2 (s ++ String c1 (String c2 t)) = [s; t]
  /\ str_contains2 c1 c2 (s ++ String c1 (String c2 t)) = true.
Proof.
  intros Hne Hs Ht. induction s as [|a s IH].
  - change (EmptyString ++ String c1 (String c2 t))%string with (String c1 (String c2 t)).
    change (str_split2 c1 c2 (String c1 (String c2 t)))
      with (if Ascii.eqb c1 c1 && Ascii.eqb c2 c2
            then EmptyString :: str_split2 c1 c2 t
            else match str_split2 c1 c2 (String c2 t) with
                 | piece :: pieces => String c1 piece :: pieces
                 | [] => [String c1 EmptyString]
                 end).
    change (str_contains2 c1 c2 (String c1 (String c2 t)))
      with ((Ascii.eqb c1 c1 && Ascii.eqb c2 c2) || str_contains2 c1 c2 (String c2 t)).
    rewrite !Ascii.eqb_refl. cbn [andb orb]. by rewrite (str_split2_none _ _ _ Ht).
  - cbn [str_all] in Hs. apply andb_prop in Hs as [_ Hs]. specialize (IH Hs).
    destruct IH as [IH1 IH2].
    change (String a s ++ String c1 (String c2 t))%string
      with (String a (s ++ String c1 (String c2 t))%string).
    assert (Hb : exists b rest, (s ++ String c1 (String c2 t))%string = String b rest
                                /\ (b =? c2)%char = false).
    { destruct s as [|b s'].
      - exists c1, (String c2 t). split; [done|]. by apply Ascii.eqb_neq.
      - exists b, (s' ++ String c1 (String c2 t))%string. split; [done|].
        cbn [str_all] in Hs. apply andb_prop in Hs as [Hb _].
        by apply negb_true_iff in Hb. }
    destruct Hb as (b & rest & Hrest & Hb). rewrite Hrest in *.
    change (str_split2 c1 c2 (String a (String b rest)))
      with (if Ascii.eqb a c1 && Ascii.eqb b c2
            then EmptyString :: str_split2 c1 c2 rest
            else match str_split2 c1 c2 (String b rest) with
                 | piece :: pieces => String a piece :: pieces
                 | [] => [String a EmptyString]
                 end).
    change (str_contains2 c1 c2 (String a (String b rest)))
      with ((Ascii.eqb a c1 && Ascii.eqb b c2) || str_contains2 c1 c2 (String b rest)).
    by rewrite IH1, IH2, Hb, andb_false_r.
Qed.

Lemma digit_not_dash (c : ascii) :
  is_digit c = true -> negb (c =? "-")%char = true.
Proof. destruct c as [[] [] [] [] [] [] [] []]; vm_compute; done. Qed.

Lemma format_02d_digits (n : Z) :
  0 <= n -> str_all is_digit (format_02d n) = true.
Proof.
  intros Hn. unfold format_02d.
  destruct (_ && _); [|by apply str_of_Z_digits].
  change ("0" ++ str_of_Z n)%string with (String "0" (str_of_Z n)).
  cbn [str_all]. by rewrite str_of_Z_digits.
Qed.

Section RoundTrip.
Variable py_int_of_str : string -> result Z.

(** X26. [parse_period] reads back what [format_period] writes, provided
    [int] reads back the two numbers: a month 1..12 of a year that is not
    negative, and a quarter 1..4 of any year, where every period type other
    than ["monthly"] is written as a quarter and read back as ["quarterly"].
    The month of a negative year is refused with [ValueError], since its
    string has more than one dash. *)
Theorem parse_period_of_format_period (year value : Z) (period_type : string) :
  (0 <= year -> 1 <= value <= 12 ->
   py_int_of_str (str_of_Z year) = Ok year ->
   py_int_of_str (format_02d value) = Ok value ->
   parse_period py_int_of_str (format_period year "monthly" value)
   = Ok (year, "monthly", value))
  /\ (period_type <> "monthly" -> 1 <= value <= 4 ->
      py_int_of_str (str_of_Z year) = Ok year ->
      py_int_of_str (str_of_Z value) = Ok value ->
      parse_period py_int_of_str (format_period year period_type value)
      = Ok (year, "quarterly", value))
  /\ (year < 0 ->
      parse_period py_int_of_str (format_period year "monthly" value)
      = Raise ValueError).
Proof.
  assert (Hmonthly : forall v, str_contains2 "-" "Q"
            (str_of_Z year ++ String "-" (format_02d v)) = false).
  { intros v. apply str_contains2_none. rewrite str_all_app, str_of_Z_no_Q.
    cbn [str_all]. change (negb ("-" =? "Q")%char) with true. cbn [andb].
    unfold format_02d. destruct (_ && _); [|apply str_of_Z_no_Q].
    change ("0" ++ str_of_Z v)%string with (String "0" (str_of_Z v)).
    cbn [str_all]. by rewrite str_of_Z_no_Q. }
  split; [|split].
  - intros Hy Hv Hyear Hvalue. unfold format_period, parse_period.
    change (String.eqb "monthly" "monthly") with true. cbv iota.
    change ("-" ++ format_02d value)%string with (String "-" (format_02d value)).
    rewrite Hmonthly, str_split_once.
    + rewrite Hyear. cbn. rewrite Hvalue. cbn.
      destruct (Z.leb_spec 1 value); [|lia].
      destruct (Z.leb_spec value 12); [done|lia].
    + eapply str_all_impl; [exact digit_not_dash|]. by apply str_of_Z_digits.
    + eapply str_all_impl; [exact digit_not_dash|]. apply format_02d_digits. lia.
  - intros Htype Hv Hyear Hvalue. unfold format_period, parse_period.
    apply String.eqb_neq in Htype. rewrite Htype.
    change ("-Q" ++ str_of_Z value)%string with (String "-" (String "Q" (str_of_Z value))).
    destruct (str_split2_once "-" "Q" (str_of_Z year) (str_of_Z value))
      as [Hsplit Hin]; [done|apply str_of_Z_no_Q|apply str_of_Z_no_Q|].
    rewrite Hin, Hsplit, Hyear. cbn. rewrite Hvalue. cbn.
    destruct (Z.leb_spec 1 value); [|lia].
    destruct (Z.leb_spec value 4); [done|lia].
  - intros Hy. unfold format_period, parse_period.
    change (String.eqb "monthly" "monthly") with true. cbv iota.
    change ("-" ++ format_02d value)%string with (String "-" (format_02d value)).
    rewrite Hmonthly.
    destruct (str_of_Z_negative year Hy) as (digits & -> & _).
    change (String "-" digits ++ String "-" (format_02d value))%string
      with (String "-" (digits ++ String "-" (format_02d value))%string).
    cbn [str_split]. change (Ascii.eqb "-" "-") with true. cbv iota.
    pose proof (str_split_twice "-" digits (format_02d value)) as Hlen.
    destruct (str_split "-" (digits ++ String "-" (format_02d value)))
      as [|piece0 [|piece1 pieces]]; cbn in Hlen; [lia|lia|done].
Qed.
End RoundTrip.

Lemma parse_period_of_format_period_witness :
  parse_period read_decimal (format_period 2024 "monthly" 7) = Ok (2024, "monthly", 7)
  /\ parse_period read_decimal (format_period 2024 "quarterly" 3) = Ok (2024, "quarterly", 3)
  /\ parse_period read_decimal (format_period (-44) "monthly" 3) = Raise ValueError.
Proof.
  split; [|split].
  - apply (proj1 (parse_period_of_format_period read_decimal 2024 7 "quarterly"));
      first [lia | vm_compute; reflexivity].
  - apply (proj1 (proj2 (parse_period_of_format_period read_decimal 2024 3 "quarterly")));
      first [lia | vm_compute; reflexivity | discriminate].
  - apply (proj2 (proj2 (parse_period_of_format_period read_decimal (-44) 3 "quarterly")));
      lia.
Defined.
End PeriodRoundTrip.
